(** * segtat.explorer : a shallow embedding of [ModelExplorer]

    The module [src/segtat/explorer.py] is an orchestration layer over
    PyTorch, segmentation_models_pytorch, numpy and albumentations.  The
    embedding keeps the logic that belongs to the module itself (the split
    ratio guard and the split, the epoch loop with its learning-rate drop
    and checkpoints, the binarisation of a predicted mask, the augmentation
    loop and its concatenations) and takes every call into an external
    library as a parameter of the section that needs it.

    Python floats are IEEE-754 binary64 numbers; they are modelled with the
    Standard Library's [spec_float] at precision 53 and [emax] 1024.  The
    float32 numbers of a predicted mask are written as the binary64 numbers
    of the same value. *)

From Stdlib Require Import ZArith Lia Bool List Permutation Ascii String DecimalString.
From Stdlib Require Import Floats.SpecFloat.
From stdpp Require Import base option list strings gmap.

Local Open Scope Z_scope.

(** ** Exceptions

    Fallible code returns a [result]: the value, or the exception raised.
    Only the exceptions the modelled code can raise are listed. *)

Inductive exn :=
| ValueError (msg : string)
| OverflowError
| IndexError
| KeyError (key : string)
| UnboundLocalError (var : string)
| AssertionError
| FileNotFoundError (path : string)
| RuntimeError (msg : string).

Inductive result (A : Type) :=
| Ok (a : A)
| Raise (e : exn).
Arguments Ok {A} a.
Arguments Raise {A} e.

#[global] Instance result_ret : MRet result := fun A a => Ok a.
#[global] Instance result_bind : MBind result := fun A B f m =>
  match m with
  | Ok a => f a
  | Raise e => Raise e
  end.

Definition returns {A} (m : result A) : bool :=
  match m with Ok _ => true | Raise _ => false end.

(** ** Python floats *)

Module PyFloat.

Definition prec : Z := 53.
Definition emax : Z := 1024.

Definition float := spec_float.

Definition valid (x : float) : bool := valid_binary prec emax x.

Definition ltb (x y : float) : bool := SFltb x y.
Definition leb (x y : float) : bool := SFleb x y.
Definition mul (x y : float) : float := SFmul prec emax x y.

(** The literals of the source, as the binary64 numbers the Python parser
    produces for them ([float.hex] gives mantissa and exponent). *)

(** 0.1 = 0x1.999999999999ap-4 *)
Definition lit_0_1 : float := S754_finite false 0x1999999999999a (-56).
(** 0.99 = 0x1.fae147ae147aep-1 *)
Definition lit_0_99 : float := S754_finite false 0x1fae147ae147ae (-53).
(** 0.95 = 0x1.e666666666666p-1 *)
Definition lit_0_95 : float := S754_finite false 0x1e666666666666 (-53).
(** 0.8 = 0x1.999999999999ap-1 *)
Definition lit_0_8 : float := S754_finite false 0x1999999999999a (-53).
(** 0.000002 = 0x1.0c6f7a0b5ed8dp-19 *)
Definition lit_0_000002 : float := S754_finite false 0x10c6f7a0b5ed8d (-71).
(** 0.05 = 0x1.999999999999ap-5 *)
Definition lit_0_05 : float := S754_finite false 0x1999999999999a (-57).
(** 0.5, 0.7 = 0x1.6666666666666p-1, 1.0 *)
Definition lit_0_5 : float := S754_finite false 0x10000000000000 (-53).
Definition lit_0_7 : float := S754_finite false 0x16666666666666 (-53).
Definition lit_1_0 : float := S754_finite false 0x10000000000000 (-52).
Definition zero : float := S754_zero false.
(** 3.4e38 = 0x1.ff933c78cdfadp+127, just below the largest float32 number *)
Definition lit_3_4e38 : float := S754_finite false 0x1ff933c78cdfad 75.

(** The binary32 number nearest to a binary64 number (ties to even, large
    magnitudes become infinite, small ones zero or subnormal), written again
    as a binary64 number: what a cast to [np.float32] makes of a Python
    float.  numpy compares a float32 array with a Python float after this
    cast. *)
Definition to_float32 (x : float) : float :=
  match x with
  | S754_finite s m e =>
      match binary_round 24 128 s m e with
      | S754_finite s' m' e' => binary_round prec emax s' m' e'
      | y => y
      end
  | _ => x
  end.

Definition nan_msg : string := "cannot convert float NaN to integer".

(** [float(n)] for a Python int [n]: the nearest binary64 number, ties to
    even; CPython raises OverflowError where the result would be infinite. *)
Definition of_int (n : Z) : result float :=
  match binary_normalize prec emax n 0 false with
  | S754_infinity _ => Raise OverflowError
  | x => Ok x
  end.

(** [n * x] for an int [n] and a float [x]: the int is converted first. *)
Definition int_mul (n : Z) (x : float) : result float :=
  nf ← of_int n; Ok (mul nf x).

(** Round half to even of [m / 2^k], for [0 <= m] and [0 <= k]. *)
Definition round_half_even_shift (m k : Z) : Z :=
  let d := 2 ^ k in
  let q := m / d in
  match 2 * (m mod d) ?= d with
  | Lt => q
  | Gt => q + 1
  | Eq => if Z.even q then q else q + 1
  end.

(** The magnitude of [round(x)] for a finite float with mantissa [m] and
    exponent [e]. *)
Definition round_mag (m : positive) (e : Z) : Z :=
  if 0 <=? e then Zpos m * 2 ^ e else round_half_even_shift (Zpos m) (- e).

(** The builtin [round(x)] with one argument: the nearest int, ties to
    even; it raises on NaN and on the infinities. *)
Definition round (x : float) : result Z :=
  match x with
  | S754_zero _ => Ok 0
  | S754_infinity _ => Raise OverflowError
  | S754_nan => Raise (ValueError nan_msg)
  | S754_finite s m e => Ok (cond_Zopp s (round_mag m e))
  end.

End PyFloat.

(** ** Arrays and datasets

    A numpy array or torch tensor carries its shape with its data.  A batch
    (a 4-D array of shape (N, C, H, W)) is a list of N samples, each a list
    of channels, each a list of rows; the trailing dimensions (C, H, W) are
    kept beside the data, as the shape of an empty batch is not recoverable
    from its data.  Elements are kept as the numbers they denote: the
    element type of an array (float32, int64, ...) and the promotions
    between element types are not modelled. *)

Definition plane := list (list PyFloat.float).
Definition dims3 := (nat * nat * nat)%type.

(** A 3-D array of shape (C, H, W). *)
Record array3 := Array3 { a_dims : dims3; a_planes : list plane }.

(** A 4-D array of shape (N, C, H, W). *)
Record tensor := Tensor { t_dims : dims3; t_items : list (list plane) }.

Definition t_len (t : tensor) : nat := length (t_items t).

Definition wf_plane (h w : nat) (p : plane) : Prop :=
  length p = h /\ Forall (fun row => length row = w) p.

Definition wf_planes (d : dims3) (ps : list plane) : Prop :=
  let '(c, h, w) := d in length ps = c /\ Forall (wf_plane h w) ps.

Definition wf_array3 (a : array3) : Prop := wf_planes (a_dims a) (a_planes a).

Definition wf_tensor (t : tensor) : Prop := Forall (wf_planes (t_dims t)) (t_items t).

#[global] Instance dims3_eq_dec : EqDecision dims3.
Proof. solve_decision. Defined.

(** [torch.utils.data.TensorDataset]: the constructor asserts that all
    tensors have the same first dimension. *)
Record dataset := Dataset { tensors0 : tensor; tensors1 : tensor }.

Definition tensor_dataset (x y : tensor) : result dataset :=
  if Nat.eqb (t_len x) (t_len y) then Ok (Dataset x y) else Raise AssertionError.

Definition ds_len (d : dataset) : nat := t_len (tensors0 d).

(** [t[indices]] for a list of row indices: the selected rows, in the order
    of the indices; an index out of range raises IndexError. *)
Fixpoint select_rows {A} (rows : list A) (indices : list nat) : result (list A) :=
  match indices with
  | [] => Ok []
  | i :: rest =>
      match rows !! i with
      | None => Raise IndexError
      | Some r => rs ← select_rows rows rest; Ok (r :: rs)
      end
  end.

Definition tensor_index (t : tensor) (indices : list nat) : result tensor :=
  rs ← select_rows (t_items t) indices; Ok (Tensor (t_dims t) rs).

(** [dataset[indices]]: a tuple with one indexed tensor per tensor. *)
Definition dataset_getitem (d : dataset) (indices : list nat) : result (tensor * tensor) :=
  a ← tensor_index (tensors0 d) indices;
  b ← tensor_index (tensors1 d) indices;
  Ok (a, b).

Definition msg_concat : string :=
  "all the input array dimensions except for the concatenation axis must match exactly".

(** [np.concatenate([a, b])] along axis 0. *)
Definition concatenate0 (a b : tensor) : result tensor :=
  if decide (t_dims a = t_dims b)
  then Ok (Tensor (t_dims a) (t_items a ++ t_items b))
  else Raise (ValueError msg_concat).

(** [np.concatenate([a, b], axis=1)]: the channels of each sample of [b]
    follow those of the same sample of [a]. *)
Definition concatenate1 (a b : tensor) : result tensor :=
  let '(ca, ha, wa) := t_dims a in
  let '(cb, hb, wb) := t_dims b in
  if decide (t_len a = t_len b /\ ha = hb /\ wa = wb)
  then Ok (Tensor ((ca + cb)%nat, ha, wa) (zip_with app (t_items a) (t_items b)))
  else Raise (ValueError msg_concat).

(** [np.array([a])]: a batch of one sample. *)
Definition singleton_batch (a : array3) : tensor := Tensor (a_dims a) [a_planes a].

(** [stacked[i, 0:c, :, :]] *)
Definition slice_channels (t : tensor) (i c : nat) : result array3 :=
  match t_items t !! i with
  | None => Raise IndexError
  | Some s => let '(ct, h, w) := t_dims t in Ok (Array3 (Nat.min c ct, h, w) (take c s))
  end.

(** [stacked[i, c, :, :]] *)
Definition channel_at (t : tensor) (i c : nat) : result plane :=
  match t_items t !! i with
  | None => Raise IndexError
  | Some s => match s !! c with
              | None => Raise IndexError
              | Some p => Ok p
              end
  end.

(** [a[c, :, :]] of a 3-D array. *)
Definition plane_at (a : array3) (c : nat) : result plane :=
  match a_planes a !! c with
  | None => Raise IndexError
  | Some p => Ok p
  end.

(** ** The outside world

    The types the external libraries own are opaque: the model, the state an
    optimizer keeps besides its parameter groups, training logs, the metric
    set, and the states of the three random generators the code draws from
    (torch's default generator, numpy's global generator and the global
    generator of Python's [random] module). *)

Class Types := {
  Model : Type;
  OptState : Type;
  Logs : Type;
  Metrics : Type;
  TorchRng : Type;
  NpRng : Type;
  PyRng : Type;
}.

(** A pixel array handed to [plt.imshow]: of dtype uint8 after
    [astype(np.uint8)] (a cast the C standard leaves unspecified out of range
    is [None]), of a float dtype otherwise. *)
Inductive pixels :=
| PixU8 (px : list (option Z))
| PixF (px : list PyFloat.float).

(** What the code prints, plots, reads and writes, in order.  [EvRun]
    stands for one run of an epoch of segmentation_models_pytorch over its
    loader, with the progress the library prints; its argument is the
    epoch's stage name. *)
Inductive event :=
| EvPrint (text : string) (arg : option nat)
| EvRun (stage : string)
| EvSeed (seed : Z)
| EvTransform
| EvImshow (img : pixels) (cmap : string)
| EvTitle (text : string)
| EvColorbar
| EvShow
| EvLoad (path : string)
| EvSave (path : string).

Section World.
Context `{Types}.

(** [optimizer.param_groups[k]['lr']] is the [k]-th element of [param_lrs]. *)
Record optimizer := Optimizer { param_lrs : list PyFloat.float; opt_state : OptState }.

Record world := World {
  torch_rng : TorchRng;
  np_rng : NpRng;
  py_rng : PyRng;
  fs : gmap string Model;
  out : list event;
}.

(** Computations that may raise and that read and write the world; what was
    done before an exception stays done. *)
Definition M (A : Type) : Type := world -> result A * world.

#[global] Instance M_ret : MRet M := fun A a w => (Ok a, w).
#[global] Instance M_bind : MBind M := fun A B f m w =>
  match m w with
  | (Ok a, w') => f a w'
  | (Raise e, w') => (Raise e, w')
  end.

Definition raise {A} (e : exn) : M A := fun w => (Raise e, w).

Definition lift {A} (r : result A) : M A := fun w => (r, w).

Definition emit (e : event) : M unit := fun w =>
  (Ok tt, World (torch_rng w) (np_rng w) (py_rng w) (fs w) (out w ++ [e])).

(** [for x in xs: s = body(x, s)] *)
Fixpoint for_each {A S} (body : A -> S -> M S) (xs : list A) (s : S) : M S :=
  match xs with
  | [] => mret s
  | x :: rest => s' ← body x s; for_each body rest s'
  end.

(** [torch.load(path)] *)
Definition torch_load (path : string) : M Model := fun w =>
  let w' := World (torch_rng w) (np_rng w) (py_rng w) (fs w) (out w ++ [EvLoad path]) in
  match fs w !! path with
  | Some m => (Ok m, w')
  | None => (Raise (FileNotFoundError path), w')
  end.

End World.

(** The calls into the libraries. *)
Class Libs `{Types} := {
  (** [torch.randperm(n)] on the default generator *)
  randperm : TorchRng -> nat -> list nat * TorchRng;
  (** [np.random.choice(n)] for [n > 0] *)
  np_choice : NpRng -> nat -> nat * NpRng;
  (** the state [random.seed(z)] leaves the generator in *)
  py_seed : Z -> PyRng;
  (** the albumentations composition, called as
      [transformations(image=..., mask=...)]; the result holds the
      transformed image and mask *)
  transformations : PyRng -> array3 -> array3 -> (array3 * array3) * PyRng;
  (** [TrainEpoch.run] on a loader over a dataset with a batch size;
      iterating the loader draws from torch's default generator *)
  train_run : Model -> optimizer -> Metrics -> dataset -> Z -> TorchRng ->
              ((Model * optimizer) * Logs) * TorchRng;
  (** [ValidEpoch.run] on a loader over a dataset with a batch size;
      iterating the loader draws from torch's default generator *)
  valid_run : Model -> Metrics -> dataset -> Z -> TorchRng -> (Model * Logs) * TorchRng;
  (** [model.predict] on one sample with a leading batch axis, squeezed:
      the predicted pixels in row-major order (float32 numbers, each
      written as the binary64 number of the same value) *)
  predict : Model -> list plane -> list PyFloat.float;
  (** the exception [torch.save] raises for a path it cannot open for
      writing, as when the directory of the path does not exist; [None]
      where the file can be written *)
  save_error : string -> option exn;
}.

(** ** ModelExplorer *)

Section Explorer.
Context `{Libs}.

Record explorer := Explorer { working_dir : string; device : string }.

(** The keyword arguments [**params]; an absent key is [None].  [vis] holds
    a value only where the caller passed one of the two booleans (any other
    value fails the [is True] test like [False] does). *)
Record params := Params {
  batch_size : option Z;
  epochs : option Z;
  p_optimizer : option optimizer;
  metrics : option Metrics;
  vis : option bool;
}.

(** [params[key]] *)
Definition getitem {A} (key : string) (v : option A) : result A :=
  match v with
  | Some a => Ok a
  | None => Raise (KeyError key)
  end.

(** [os.path.join(a, b)] for a relative [b] (posixpath): the separator is
    added unless [a] is empty or ends with one. *)
Fixpoint ends_with_sep (s : string) : bool :=
  match s with
  | EmptyString => false
  | String c EmptyString => Ascii.eqb c "/"%char
  | String _ rest => ends_with_sep rest
  end.

Definition path_join (a b : string) : string :=
  if String.eqb a EmptyString || ends_with_sep a then a +:+ b else a +:+ "/" +:+ b.

(** *** train_test *)

(** [l[start:stop]] with Python's treatment of negative and large bounds. *)
Definition py_slice {A} (l : list A) (start stop : Z) : list A :=
  let n := Z.of_nat (length l) in
  let norm i := if i <? 0 then Z.max 0 (i + n) else Z.min i n in
  take (Z.to_nat (norm stop - norm start)) (drop (Z.to_nat (norm start)) l).

Definition msg_split : string :=
  "Sum of input lengths does not equal the length of the input dataset!".

(** [torch.utils.data.random_split(dataset, [a, b])]: a random permutation
    of the indices is cut into consecutive runs of the given lengths.  The
    two results are the [indices] of the two [Subset]s; their [dataset] is
    the argument. *)
Definition random_split (d : dataset) (a b : Z) : M (list nat * list nat) := fun w =>
  if a + b =? Z.of_nat (ds_len d) then
    let '(indices, g) := randperm (torch_rng w) (Z.to_nat (a + b)) in
    (Ok (py_slice indices (a - a) a, py_slice indices (a + b - b) (a + b)),
     World g (np_rng w) (py_rng w) (fs w) (out w))
  else (Raise (ValueError msg_split), w).

Definition msg_train_size : string :=
  "train_size value must be value between 0.1 and 0.99".

Definition train_test (x_train y_train : tensor) (train_size : PyFloat.float)
  : M (dataset * dataset) :=
  if PyFloat.ltb train_size PyFloat.lit_0_1 || PyFloat.ltb PyFloat.lit_0_99 train_size
  then raise (ValueError msg_train_size)
  else
    d ← lift (tensor_dataset x_train y_train);
    p ← lift (PyFloat.int_mul (Z.of_nat (ds_len d)) train_size);
    train_ratio ← lift (PyFloat.round p);
    let test_ratio := Z.of_nat (ds_len d) - train_ratio in
    '(train, test) ← random_split d train_ratio test_ratio;
    '(train_features, train_target) ← lift (dataset_getitem d train);
    '(test_features, test_target) ← lift (dataset_getitem d test);
    train_dataset ← lift (tensor_dataset train_features train_target);
    test_dataset ← lift (tensor_dataset test_features test_target);
    mret (train_dataset, test_dataset).

(** *** fit *)

(** [torch.save(model, path)]; a save that fails writes nothing. *)
Definition torch_save (m : Model) (path : string) : M unit := fun w =>
  match save_error path with
  | Some e => (Raise e, w)
  | None =>
      (Ok tt, World (torch_rng w) (np_rng w) (py_rng w) (<[path := m]> (fs w))
                    (out w ++ [EvSave path]))
  end.

Definition msg_batch_size (n : Z) : string :=
  "batch_size should be a positive integer value, but got batch_size="
  +:+ NilZero.string_of_int (Z.to_int n).

(** [torch.utils.data.DataLoader(dataset, batch_size=n)] for an int [n],
    without shuffling: the batch sampler it builds refuses a batch size
    that is not positive. *)
Definition data_loader (n : Z) : result unit :=
  if n <=? 0 then Raise (ValueError (msg_batch_size n)) else Ok tt.

(** [train_epoch.run(loader)] for the loader over [d] with batch size
    [bs]. *)
Definition train_epoch_run (model : Model) (opt : optimizer) (mt : Metrics)
    (d : dataset) (bs : Z) : M ((Model * optimizer) * Logs) := fun w =>
  let '(r, g) := train_run model opt mt d bs (torch_rng w) in
  (Ok r, World g (np_rng w) (py_rng w) (fs w) (out w ++ [EvRun "train"])).

(** [valid_epoch.run(loader)] for the loader over [d] with batch size
    [bs]. *)
Definition valid_epoch_run (model : Model) (mt : Metrics) (d : dataset) (bs : Z)
  : M (Model * Logs) := fun w =>
  let '(r, g) := valid_run model mt d bs (torch_rng w) in
  (Ok r, World g (np_rng w) (py_rng w) (fs w) (out w ++ [EvRun "valid"])).

(** [optimizer.param_groups[0]['lr'] = lr] *)
Definition set_lr0 (opt : optimizer) (lr : PyFloat.float) : result optimizer :=
  match param_lrs opt with
  | [] => Raise IndexError
  | _ :: rest => Ok (Optimizer (lr :: rest) (opt_state opt))
  end.

Definition is_checkpoint_epoch (i : nat) : bool :=
  Nat.eqb i 10 || Nat.eqb i 20 || Nat.eqb i 30 || Nat.eqb i 40 || Nat.eqb i 50.

(** The body of the epoch loop, on the model and the optimizer that
    [TrainEpoch.run] updates in place. *)
Definition fit_epoch (train_dataset valid_dataset : dataset) (bs : Z) (mt : Metrics)
    (ps : params) (path_prom_save : string) (i : nat) (st : Model * optimizer)
  : M (Model * optimizer) :=
  let '(model, opt) := st in
  _ ← emit (EvPrint (String "010" "Epoch: {}") (Some i));
  '((model, opt), train_logs) ← train_epoch_run model opt mt train_dataset bs;
  '(model, valid_logs) ← valid_epoch_run model mt valid_dataset 1;
  E ← lift (getitem "epochs" (epochs ps));
  p ← lift (PyFloat.int_mul E PyFloat.lit_0_8);
  k ← lift (PyFloat.round p);
  opt ← (if Z.of_nat i =? k then lift (set_lr0 opt PyFloat.lit_0_000002) else mret opt);
  _ ← (if is_checkpoint_epoch i then torch_save model path_prom_save else mret tt);
  mret (model, opt).

(** [fit] returns the model; the optimizer is returned with it, as the
    caller holds the object that the loop mutates. *)
Definition fit (self : explorer) (train : dataset) (model : Model) (ps : params)
  : M (Model * optimizer) :=
  let path_to_save := path_join (working_dir self) "best_model.pth" in
  let path_prom_save := path_join (working_dir self) "prom.pth" in
  '(train_dataset, valid_dataset) ←
    train_test (tensors0 train) (tensors1 train) PyFloat.lit_0_95;
  bs ← lift (getitem "batch_size" (batch_size ps));
  _ ← lift (data_loader bs);
  _ ← lift (data_loader 1);
  opt ← lift (getitem "optimizer" (p_optimizer ps));
  mt ← lift (getitem "metrics" (metrics ps));
  E ← lift (getitem "epochs" (epochs ps));
  '(model, opt) ←
    for_each (fit_epoch train_dataset valid_dataset bs mt ps path_prom_save)
             (seq 0 (Z.to_nat E)) (model, opt);
  _ ← torch_save model path_to_save;
  _ ← emit (EvPrint "Model saved!" None);
  mret (model, opt).

(** *** validate *)

(** [astype(np.uint8)] on one float: the C conversion truncates towards
    zero, and is defined only where the truncated value fits the type. *)
Definition trunc_mag (m : positive) (e : Z) : Z :=
  if 0 <=? e then Zpos m * 2 ^ e else Zpos m / 2 ^ (- e).

Definition astype_uint8 (v : PyFloat.float) : option Z :=
  match v with
  | S754_zero _ => Some 0
  | S754_finite s m e =>
      let z := cond_Zopp s (trunc_mag m e) in
      if (0 <=? z) && (z <=? 255) then Some z else None
  | _ => None
  end.

(** The binarisation of the predicted mask.  With a threshold the two
    masked assignments run one after the other on the same array.  The
    array is of dtype float32, and numpy compares it with the threshold, a
    Python float, in float32: each comparison is with the threshold cast to
    float32.  (For a threshold of magnitude 3.4e38 or more, numpy releases
    before 2.0 compare in float64 instead; the two ways differ only for
    pixels of that magnitude.) *)
Definition binarize (threshold : option PyFloat.float) (pr_mask : list PyFloat.float)
  : pixels :=
  match threshold with
  | None => PixU8 (map astype_uint8 pr_mask)
  | Some t =>
      let t := PyFloat.to_float32 t in
      let pr_mask := map (fun v => if PyFloat.ltb v t then PyFloat.zero else v) pr_mask in
      let pr_mask := map (fun v => if PyFloat.leb t v then PyFloat.lit_1_0 else v) pr_mask in
      PixF pr_mask
  end.

Definition msg_choice : string := "a must be greater than 0 unless no samples are taken".

(** [np.random.choice(n)] *)
Definition np_random_choice (n : nat) : M nat := fun w =>
  if Nat.eqb n 0 then (Raise (ValueError msg_choice), w)
  else let '(k, g) := np_choice (np_rng w) n in
       (Ok k, World (torch_rng w) g (py_rng w) (fs w) (out w)).

(** [t[n]] for a tensor and a non-negative index. *)
Definition tensor_row (t : tensor) (n : nat) : result array3 :=
  match t_items t !! n with
  | None => Raise IndexError
  | Some s => Ok (Array3 (t_dims t) s)
  end.

(** One round of the visualisation loop of [validate]. *)
Definition validate_show (test : dataset) (model : Model)
    (threshold : option PyFloat.float) (i : nat) (_ : unit) : M unit :=
  n ← np_random_choice (ds_len test);
  features_tensor ← lift (tensor_row (tensors0 test) n);
  true_label ← lift (tensor_row (tensors1 test) n);
  let pr_mask := predict model (a_planes features_tensor) in
  let pr_mask := binarize threshold pr_mask in
  _ ← emit (EvImshow pr_mask "Purples");
  _ ← emit EvColorbar;
  _ ← emit EvShow;
  label0 ← lift (plane_at true_label 0);
  _ ← emit (EvImshow (PixF (concat label0)) "Blues");
  _ ← emit EvColorbar;
  emit EvShow.

Definition validate (self : explorer) (test : dataset) (model_path : string)
    (model : option Model) (threshold : option PyFloat.float) (ps : params) : M unit :=
  model ← match model with
          | None => torch_load model_path
          | Some m => mret m
          end;
  _ ← match vis ps with
      | Some true => for_each (validate_show test model threshold) (seq 0 5) tt
      | _ => mret tt
      end;
  _ ← lift (data_loader 1);
  mt ← lift (getitem "metrics" (metrics ps));
  '(_, logs) ← valid_epoch_run model mt test 1;
  mret tt.

(** *** augmentation *)

(** [random.seed(z)] *)
Definition random_seed (z : Z) : M unit := fun w =>
  (Ok tt, World (torch_rng w) (np_rng w) (py_seed z) (fs w) (out w ++ [EvSeed z])).

(** [transformations(image=image, mask=mask)] *)
Definition transform (image mask : array3) : M (array3 * array3) := fun w =>
  let '(r, g) := transformations (py_rng w) image mask in
  (Ok r, World (torch_rng w) (np_rng w) g (fs w) (out w ++ [EvTransform])).

(** [plt.imshow(p, cmap=cmap); plt.title(title); plt.colorbar(); plt.show()] *)
Definition show_plane (p : result plane) (cmap title : string) : M unit :=
  p ← lift p;
  _ ← emit (EvImshow (PixF (concat p)) cmap);
  _ ← emit (EvTitle title);
  _ ← emit EvColorbar;
  emit EvShow.

(** Reading a local variable that may not have been assigned yet. *)
Definition local {A} (name : string) (v : option A) : result A :=
  match v with
  | Some a => Ok a
  | None => Raise (UnboundLocalError name)
  end.

(** The body of the loop over the samples.  The loop state holds the two
    accumulators, [None] while unbound. *)
Definition augment_sample (features_c : nat) (stacked : tensor) (vis : bool) (i : nat)
    (acc : option tensor * option tensor) : M (option tensor * option tensor) :=
  let '(augmented_all_features, augmented_all_labels) := acc in
  _ ← emit (EvPrint "{}" (Some i));
  image ← lift (slice_channels stacked i features_c);
  mask ← lift (channel_at stacked i features_c);
  let mask := Array3 (1%nat, snd (fst (t_dims stacked)), snd (t_dims stacked)) [mask] in
  '(augmented_features, augmented_label) ← transform image mask;
  _ ← (if vis then
         _ ← show_plane (channel_at stacked i 0) "jet" "Исходная матрица VH";
         _ ← show_plane (channel_at stacked i 1) "jet" "Исходная матрица VV";
         _ ← show_plane (channel_at stacked i 2) "Blues" "Исходная матрица label";
         _ ← show_plane (plane_at augmented_features 0) "jet" "Преобразованная матрица VH";
         _ ← show_plane (plane_at augmented_features 1) "jet" "Преобразованная матрица VV";
         show_plane (plane_at augmented_label 0) "Blues" "Преобразованная матрица label"
       else mret tt);
  let augmented_features := singleton_batch augmented_features in
  let augmented_label := singleton_batch augmented_label in
  if Nat.eqb i 0 then mret (Some augmented_features, Some augmented_label)
  else
    all_features ← lift (local "augmented_all_features" augmented_all_features);
    all_features ← lift (concatenate0 all_features augmented_features);
    all_labels ← lift (local "augmented_all_labels" augmented_all_labels);
    all_labels ← lift (concatenate0 all_labels augmented_label);
    mret (Some all_features, Some all_labels).

Definition augmentation (d : dataset) (vis : bool) : M dataset :=
  let features := tensors0 d in
  let features_c := fst (fst (t_dims features)) in
  let targets := tensors1 d in
  stacked ← lift (concatenate1 features targets);
  _ ← random_seed 7;
  '(augmented_all_features, augmented_all_labels) ←
    for_each (augment_sample features_c stacked vis) (seq 0 (t_len features)) (None, None);
  augmented_all_features ← lift (local "augmented_all_features" augmented_all_features);
  features ← lift (concatenate0 features augmented_all_features);
  augmented_all_labels ← lift (local "augmented_all_labels" augmented_all_labels);
  targets ← lift (concatenate0 targets augmented_all_labels);
  _ ← emit (EvPrint "Augmentation finished" None);
  lift (tensor_dataset features targets).

End Explorer.

(** ** Vocabulary of the statements

    What is assumed of the libraries, and the reference runs the results of
    the loops are compared with. *)

Section Vocabulary.
Context `{Libs}.

(** [torch.randperm(n)] returns a permutation of [0 .. n-1]. *)
Definition randperm_permutes : Prop :=
  forall (g : TorchRng) (n : nat), Permutation (fst (randperm g n)) (seq 0 n).

(** A training epoch leaves the learning rates of the parameter groups as
    they are (no scheduler runs inside [TrainEpoch.run]). *)
Definition train_run_keeps_lrs : Prop :=
  forall m o mt d bs g,
    param_lrs (snd (fst (fst (train_run m o mt d bs g)))) = param_lrs o.

(** The three geometric transforms return arrays of the shapes they were
    given. *)
Definition transform_keeps_shape : Prop :=
  forall g image mask,
    let r := fst (transformations g image mask) in
    a_dims (fst r) = a_dims image /\ a_dims (snd r) = a_dims mask /\
    (wf_array3 image -> wf_array3 (fst r)) /\ (wf_array3 mask -> wf_array3 (snd r)).

(** What the two library runs of one epoch make of the model, the
    optimizer and the state of torch's generator. *)
Definition epoch_step (train_dataset valid_dataset : dataset) (bs : Z) (mt : Metrics)
    (st : (Model * optimizer) * TorchRng) : (Model * optimizer) * TorchRng :=
  let '(((model, opt), _), g) :=
    train_run (fst (fst st)) (snd (fst st)) mt train_dataset bs (snd st) in
  let '((model, _), g) := valid_run model mt valid_dataset 1 g in
  ((model, opt), g).

(** The image and mask of one sample as the transforms receive them: all
    feature channels, and the first label channel as a one-channel array. *)
Definition sample_input (d : dataset) (features label : list plane) : array3 * array3 :=
  let '(c, h, w) := t_dims (tensors0 d) in
  (Array3 (c, h, w) features, Array3 (1%nat, h, w) (take 1 label)).

Definition sample_inputs (d : dataset) : list (array3 * array3) :=
  zip_with (sample_input d) (t_items (tensors0 d)) (t_items (tensors1 d)).

(** The transforms applied to a list of inputs in order, each starting from
    the generator state the one before left. *)
Fixpoint transformed_from (g : PyRng) (inputs : list (array3 * array3))
  : list (array3 * array3) * PyRng :=
  match inputs with
  | [] => ([], g)
  | (image, mask) :: rest =>
      let '(r, g') := transformations g image mask in
      let '(rs, g'') := transformed_from g' rest in
      (r :: rs, g'')
  end.

(** The accumulator of the loop of [augmentation] once it has gathered the
    arrays [xs]: unbound before the first one. *)
Definition batch_of (dm : dims3) (xs : list array3) : option tensor :=
  match xs with
  | [] => None
  | _ :: _ => Some (Tensor dm (map a_planes xs))
  end.

(** The label accumulator of the loop of [augmentation], once bound, holds
    one-channel arrays. *)
Definition one_label_channel (acc : option tensor * option tensor) : Prop :=
  forall al, snd acc = Some al -> fst (fst (t_dims al)) = 1%nat.

Definition is_seed (e : event) : bool :=
  match e with EvSeed _ => true | _ => false end.

Definition is_load (e : event) : bool :=
  match e with EvLoad _ => true | _ => false end.

Definition is_file_error (e : exn) : bool :=
  match e with FileNotFoundError _ => true | _ => false end.

(** A computation that only appends events satisfying [Q] to the output,
    leaves the files alone and raises only exceptions satisfying [E]. *)
Definition emits_only (Q : event -> Prop) (E : exn -> Prop) {A} (m : M A) : Prop :=
  forall w, exists evs,
    out (snd (m w)) = out w ++ evs /\ Forall Q evs /\ fs (snd (m w)) = fs w /\
    (forall e, fst (m w) = Raise e -> E e).

(** A computation that reads the world through the state of Python's
    generator only: run from two worlds that agree on that state, it gives
    the same result, leaves the generator in the same state and appends the
    same events, none of which is a seeding. *)
Definition rng_local {A} (m : M A) : Prop :=
  forall w1 w2, py_rng w1 = py_rng w2 ->
    fst (m w1) = fst (m w2) /\
    py_rng (snd (m w1)) = py_rng (snd (m w2)) /\
    exists evs,
      out (snd (m w1)) = out w1 ++ evs /\ out (snd (m w2)) = out w2 ++ evs /\
      Forall (fun e => is_seed e = false) evs.

End Vocabulary.

(** Bounds on floats: [below N m e] reads [m * 2^e <= N] for an exponent that
    is not positive; [at_most N x] holds of a float that is zero or positive
    and at most [N]; [unit_range] is the range [0, 1]. *)
Definition below (N m e : Z) : Prop := e <= 0 /\ 0 <= m <= N * 2 ^ (- e).

Definition at_most (N : Z) (x : PyFloat.float) : Prop :=
  match x with
  | S754_zero _ => True
  | S754_finite false m e => below N (Zpos m) e
  | _ => False
  end.

Definition unit_range (x : PyFloat.float) : Prop := at_most 1 x.

(** What [j] right shifts keep of a non-negative mantissa [P]. *)
Definition shifted (P : Z) (j : nat) (mrs : shr_record) : Prop :=
  shr_m mrs = P / 2 ^ Z.of_nat j /\
  (orb (shr_r mrs) (shr_s mrs) = true -> P mod 2 ^ Z.of_nat j <> 0).

(** A float that is a zero, an infinity or a finite number of the sign
    [s]: what rounding makes of a finite number of that sign. *)
Definition signed (s : bool) (x : PyFloat.float) : Prop :=
  x = S754_zero s \/ x = S754_infinity s \/ exists m e, x = S754_finite s m e.

(** ** More vocabulary

    Reference runs and traces for the statements about whole calls. *)

(** The samples of a dataset: each feature item with its label item. *)
Definition samples (d : dataset) : list (list plane * list plane) :=
  zip (t_items (tensors0 d)) (t_items (tensors1 d)).

(** What one epoch of [fit] emits. *)
Definition epoch_events (prom : string) (i : nat) : list event :=
  EvPrint (String "010" "Epoch: {}") (Some i) :: EvRun "train" :: EvRun "valid"
  :: (if is_checkpoint_epoch i then [EvSave prom] else []).

(** The index of the last epoch below [j] that saves the intermediate
    checkpoint, for [j >= 11]. *)
Definition last_checkpoint (j : nat) : nat := (10 * Nat.min 5 ((j - 1) / 10))%nat.

(** The events of one plot of [augmentation]. *)
Definition plot_events (p : plane) (cmap title : string) : list event :=
  [EvImshow (PixF (concat p)) cmap; EvTitle title; EvColorbar; EvShow].

Definition plot_of (o : option plane) (cmap title : string) : list event :=
  match o with
  | Some p => plot_events p cmap title
  | None => []
  end.

(** The six plots of one pass of the loop of [augmentation], for the
    channels [s] of the stacked sample and the transformed pair [r]. *)
Definition sample_plots (s : list plane) (r : array3 * array3) : list event :=
  plot_of (s !! 0%nat) "jet" "Исходная матрица VH"
  ++ plot_of (s !! 1%nat) "jet" "Исходная матрица VV"
  ++ plot_of (s !! 2%nat) "Blues" "Исходная матрица label"
  ++ plot_of (a_planes (fst r) !! 0%nat) "jet" "Преобразованная матрица VH"
  ++ plot_of (a_planes (fst r) !! 1%nat) "jet" "Преобразованная матрица VV"
  ++ plot_of (a_planes (snd r) !! 0%nat) "Blues" "Преобразованная матрица label".

(** What one pass of the loop emits. *)
Definition sample_trace (vis : bool) (i : nat) (s : list plane) (r : array3 * array3)
  : list event :=
  EvPrint "{}" (Some i) :: EvTransform :: (if vis then sample_plots s r else []).

(** Bounds on floats at a finer scale: [below_at s N m e] reads
    [m * 2^e <= N / 2^s], for an exponent of at most [-s]. *)
Definition below_at (s N m e : Z) : Prop := e <= - s /\ 0 <= m <= N * 2 ^ (- e - s).

Definition at_most_at (s N : Z) (x : PyFloat.float) : Prop :=
  match x with
  | S754_zero _ => True
  | S754_finite false m e => below_at s N (Zpos m) e
  | _ => False
  end.

Section MoreVocabulary.
Context `{Libs}.

(** The model, the optimizer and the state of torch's generator after one
    more epoch of [fit], where [k] is the index of the epoch that lowers the
    learning rate. *)
Definition epoch_state_step (train_dataset valid_dataset : dataset) (bs : Z) (mt : Metrics)
    (k : Z) (st : (Model * optimizer) * TorchRng) (i : nat)
  : (Model * optimizer) * TorchRng :=
  let '((model, opt), g) := epoch_step train_dataset valid_dataset bs mt st in
  ((model,
    if Z.of_nat i =? k
    then Optimizer (PyFloat.lit_0_000002 :: tail (param_lrs opt)) (opt_state opt)
    else opt), g).

(** The model, the optimizer and the state of torch's generator after the
    first [j] epochs. *)
Definition state_after (train_dataset valid_dataset : dataset) (bs : Z) (mt : Metrics)
    (k : Z) (j : nat) (st : (Model * optimizer) * TorchRng)
  : (Model * optimizer) * TorchRng :=
  fold_left (epoch_state_step train_dataset valid_dataset bs mt k) (seq 0 j) st.

(** What stops [fit] between the split and the epoch loop, if anything: a
    key that [params] does not hold, or a batch size the train loader
    refuses, in the order the code meets them. *)
Definition first_failure (ps : params) : option exn :=
  match batch_size ps with
  | None => Some (KeyError "batch_size")
  | Some bs =>
      if bs <=? 0 then Some (ValueError (msg_batch_size bs))
      else match p_optimizer ps, metrics ps, epochs ps with
           | None, _, _ => Some (KeyError "optimizer")
           | _, None, _ => Some (KeyError "metrics")
           | _, _, None => Some (KeyError "epochs")
           | _, _, _ => None
           end
  end.

(** [np.random.choice(n)] returns an index below [n]. *)
Definition np_choice_in_range : Prop :=
  forall (g : NpRng) (n : nat), (0 < n)%nat -> (fst (np_choice g n) < n)%nat.

(** [j] draws of [np.random.choice(n)] in a row, each from the generator
    state the one before left. *)
Fixpoint choices (g : NpRng) (n j : nat) : list nat * NpRng :=
  match j with
  | O => ([], g)
  | S j' =>
      let '(k, g') := np_choice g n in
      let '(ks, g'') := choices g' n j' in
      (k :: ks, g'')
  end.

(** What one round of the plots of [validate] shows for the sample with
    index [n]: the binarised prediction, then the first channel of the
    label. *)
Definition show_events (test : dataset) (model : Model)
    (threshold : option PyFloat.float) (n : nat) : list event :=
  match t_items (tensors0 test) !! n,
        (t_items (tensors1 test) !! n : option (list plane)) with
  | Some features, Some label =>
      match label with
      | label0 :: _ =>
          [EvImshow (binarize threshold (predict model features)) "Purples"; EvColorbar; EvShow;
           EvImshow (PixF (concat label0)) "Blues"; EvColorbar; EvShow]
      | [] => []
      end
  | _, _ => []
  end.

(** What a call of [augmentation] that returns emits. *)
Definition augmentation_trace (d : dataset) (vis : bool) : list event :=
  let stacked := zip_with app (t_items (tensors0 d)) (t_items (tensors1 d)) in
  let outs := fst (transformed_from (py_seed 7) (sample_inputs d)) in
  EvSeed 7
  :: concat (imap (fun i sr => sample_trace vis i (fst sr) (snd sr)) (zip stacked outs))
  ++ [EvPrint "Augmentation finished" None].

(** A computation that leaves a component of the world as it found it,
    whether it returns or raises. *)
Definition keeps {X A} (f : world -> X) (m : M A) : Prop :=
  forall w, f (snd (m w)) = f w.

End MoreVocabulary.

(** ** A small instance

    Stand-ins for the libraries and a dataset of four samples, with two
    feature channels and one label channel of one row and two columns each,
    on which the functions above can be run. *)

Module Demo.

Definition types : Types :=
  {| Model := nat; OptState := unit; Logs := unit; Metrics := unit;
     TorchRng := nat; NpRng := nat; PyRng := Z |}.

(** A vertical flip: the rows of every plane in reverse order. *)
Definition flip (a : array3) : array3 :=
  Array3 (a_dims a) (map (@rev (list PyFloat.float)) (a_planes a)).

Definition libs : @Libs types :=
  {| randperm := fun (g : @TorchRng types) n => (rev (seq 0 n), S g);
     np_choice := fun (g : @NpRng types) n => (Nat.modulo g n, S g);
     py_seed := fun z => z : @PyRng types;
     transformations := fun (g : @PyRng types) image mask => ((flip image, flip mask), g + 1);
     train_run := fun (m : @Model types) o mt d bs (g : @TorchRng types) =>
                    (((S m, o), tt), (g + 2)%nat);
     valid_run := fun (m : @Model types) mt d bs (g : @TorchRng types) => ((m, tt), S g);
     predict := fun (m : @Model types) planes => concat (concat planes);
     save_error := fun path =>
       if String.prefix "nowhere/" path
       then Some (RuntimeError "Parent directory nowhere does not exist.")
       else None |}.

Definition px (a b : PyFloat.float) : plane := [[a; b]].

Definition x : tensor :=
  Tensor (2, 1, 2)%nat
    [[px PyFloat.zero PyFloat.lit_0_5; px PyFloat.lit_1_0 PyFloat.lit_0_7];
     [px PyFloat.lit_0_1 PyFloat.lit_0_5; px PyFloat.lit_0_8 PyFloat.lit_0_7];
     [px PyFloat.lit_0_7 PyFloat.lit_0_1; px PyFloat.zero PyFloat.lit_0_95];
     [px PyFloat.lit_0_99 PyFloat.zero; px PyFloat.lit_0_5 PyFloat.lit_1_0]].

Definition y : tensor :=
  Tensor (1, 1, 2)%nat
    [[px PyFloat.zero PyFloat.lit_1_0]; [px PyFloat.lit_1_0 PyFloat.lit_1_0];
     [px PyFloat.zero PyFloat.zero]; [px PyFloat.lit_1_0 PyFloat.zero]].

Definition data : dataset := Dataset x y.

(** The same features with two-channel labels. *)
Definition y2 : tensor :=
  Tensor (2, 1, 2)%nat
    [[px PyFloat.zero PyFloat.lit_1_0; px PyFloat.lit_1_0 PyFloat.zero];
     [px PyFloat.lit_1_0 PyFloat.lit_1_0; px PyFloat.zero PyFloat.zero];
     [px PyFloat.zero PyFloat.zero; px PyFloat.lit_1_0 PyFloat.lit_1_0];
     [px PyFloat.lit_1_0 PyFloat.zero; px PyFloat.zero PyFloat.lit_1_0]].

Definition data2 : dataset := Dataset x y2.

(** One feature channel and one label channel. *)
Definition data1 : dataset := Dataset y y.

(** A paired dataset without samples. *)
Definition empty : dataset := Dataset (Tensor (2, 1, 2)%nat []) (Tensor (1, 1, 2)%nat []).

Definition world0 : @world types := @World types 0%nat 0%nat 0 ∅ [].

(** Another world: other generator states, and output already there. *)
Definition world1 : @world types := @World types 3%nat 1%nat 5 ∅ [EvShow].

Definition model0 : @Model types := 0%nat.

Definition opt : @optimizer types := @Optimizer types [PyFloat.lit_0_1] tt.

Definition self : explorer := Explorer "runs" "cpu".

Definition ps (e : Z) : @params types :=
  @Params types (Some 2) (Some e) (Some opt) (Some tt) None.

(** -1.0 and -0.5 *)
Definition lit_m1_0 : PyFloat.float := SFopp PyFloat.lit_1_0.
Definition lit_m0_5 : PyFloat.float := SFopp PyFloat.lit_0_5.

(** 2^-200, a positive number below the least positive float32 number *)
Definition lit_tiny : PyFloat.float := S754_finite false 0x10000000000000 (-252).

(** Parameters without an optimizer, the same with a batch size of zero,
    and the parameters of [validate] with plots, with and without
    metrics. *)
Definition ps_no_optimizer : @params types :=
  @Params types (Some 2) (Some 3) None (Some tt) None.

Definition ps_no_batches : @params types :=
  @Params types (Some 0) (Some 3) None (Some tt) None.

(** An explorer whose working directory does not exist. *)
Definition nowhere : explorer := Explorer "nowhere" "cpu".

Definition ps_vis : @params types :=
  @Params types None None None (Some tt) (Some true).

Definition ps_vis_no_metrics : @params types :=
  @Params types None None None None (Some true).

(** Labels without a channel, and a label tensor that is too short. *)
Definition y0 : tensor := Tensor (0, 1, 2)%nat [[]; []; []; []].

Definition y_short : tensor := Tensor (1, 1, 2)%nat [[px PyFloat.zero PyFloat.lit_1_0]].

(** One sample with three feature channels. *)
Definition x3 : tensor :=
  Tensor (3, 1, 2)%nat
    [[px PyFloat.zero PyFloat.lit_0_5; px PyFloat.lit_1_0 PyFloat.lit_0_7;
      px PyFloat.lit_0_1 PyFloat.lit_0_8]].

Definition data3 : dataset := Dataset x3 y_short.

(** Six samples of one channel. *)
Definition x6 : tensor :=
  Tensor (1, 1, 2)%nat (repeat [px PyFloat.zero PyFloat.lit_1_0] 6).

(** A world whose files hold a model. *)
Definition world_saved : @world types :=
  @World types 0%nat 0%nat 0 (<["runs/best_model.pth" := 7%nat]> ∅) [].

End Demo.

(** * Properties *)

Section FloatBounds.

Lemma digits2_pos_bounds (p : positive) :
  2 ^ (Zpos (digits2_pos p) - 1) <= Zpos p < 2 ^ Zpos (digits2_pos p).
Proof.
  induction p as [p IH | p IH |]; simpl digits2_pos.
  - rewrite Pos2Z.inj_succ, Z.pow_succ_r by lia.
    replace (Z.succ (Zpos (digits2_pos p)) - 1) with (Z.succ (Zpos (digits2_pos p) - 1)) by lia.
    rewrite Z.pow_succ_r by lia. lia.
  - rewrite Pos2Z.inj_succ, Z.pow_succ_r by lia.
    replace (Z.succ (Zpos (digits2_pos p)) - 1) with (Z.succ (Zpos (digits2_pos p) - 1)) by lia.
    rewrite Z.pow_succ_r by lia. lia.
  - simpl. lia.
Qed.

Lemma iter_pos_nat {A} (f : A -> A) (p : positive) (x : A) :
  SpecFloat.iter_pos f p x = Nat.iter (Pos.to_nat p) f x.
Proof.
  revert x. induction p as [p IH | p IH |]; intros x; simpl SpecFloat.iter_pos.
  - rewrite !IH, Pos2Nat.inj_xI.
    replace (S (2 * Pos.to_nat p))%nat with (Pos.to_nat p + (Pos.to_nat p + 1))%nat by lia.
    rewrite !Nat.iter_add. simpl. reflexivity.
  - rewrite !IH, Pos2Nat.inj_xO.
    replace (2 * Pos.to_nat p)%nat with (Pos.to_nat p + Pos.to_nat p)%nat by lia.
    rewrite Nat.iter_add. reflexivity.
  - reflexivity.
Qed.

Lemma shr_1_shifted (P : Z) (j : nat) (mrs : shr_record) :
  0 <= P -> shifted P j mrs -> shifted P (S j) (shr_1 mrs).
Proof.
  intros HP [Hm Hrs].
  assert (Hpow : 0 < 2 ^ Z.of_nat j) by (apply Z.pow_pos_nonneg; lia).
  assert (H0 : 0 <= shr_m mrs) by (rewrite Hm; apply Z.div_pos; lia).
  assert (Hdiv : P / 2 ^ Z.of_nat (S j) = shr_m mrs / 2).
  { rewrite Nat2Z.inj_succ, Z.pow_succ_r, Hm by lia.
    rewrite (Z.mul_comm 2), Z.div_div by lia. reflexivity. }
  assert (Hmod : P mod 2 ^ Z.of_nat (S j)
                 = P mod 2 ^ Z.of_nat j + 2 ^ Z.of_nat j * (shr_m mrs mod 2)).
  { rewrite Nat2Z.inj_succ, Z.pow_succ_r, Hm by lia.
    rewrite (Z.mul_comm 2). apply Z.rem_mul_r; lia. }
  assert (Hlow : 0 <= P mod 2 ^ Z.of_nat j) by (apply Z.mod_pos_bound; lia).
  destruct mrs as [m r s]; simpl in *.
  unfold shifted; rewrite Hdiv, Hmod.
  destruct m as [| [q | q |] |]; simpl shr_m; simpl shr_r; simpl shr_s; try lia.
  - split; [reflexivity | intros Hor; rewrite orb_false_l in Hor].
    specialize (Hrs Hor). rewrite Z.mod_0_l by lia. lia.
  - split; [rewrite Pos2Z.inj_xI; apply Z.div_unique with 1; lia |].
    intros _. replace (Zpos q~1 mod 2) with 1; [lia |].
    rewrite Pos2Z.inj_xI. apply Z.mod_unique with (Zpos q); lia.
  - split; [rewrite Pos2Z.inj_xO; apply Z.div_unique with 0; lia |].
    intros Hor. rewrite orb_false_l in Hor. specialize (Hrs Hor).
    pose proof (Z.mod_pos_bound (Zpos q~0) 2). lia.
  - split; [reflexivity |]. intros _. change (1 mod 2) with 1. lia.
Qed.

Lemma iter_shr_1_shifted (P : Z) (j : nat) :
  0 <= P -> shifted P j (Nat.iter j shr_1 (Build_shr_record P false false)).
Proof.
  intros HP. induction j as [| j IH].
  - simpl. split; [simpl; rewrite Z.div_1_r; reflexivity | discriminate].
  - simpl Nat.iter. apply shr_1_shifted; assumption.
Qed.

Lemma fexp_nonpos (N m e : Z) :
  0 <= N < 2 ^ 53 -> below N m e ->
  fexp PyFloat.prec PyFloat.emax (Zdigits2 m + e) <= 0.
Proof.
  intros HN (He & Hm0 & Hm).
  unfold fexp, emin, PyFloat.prec, PyFloat.emax.
  enough (Zdigits2 m + e <= 53) by lia.
  destruct m as [| q |]; simpl Zdigits2; [lia | | lia].
  pose proof (digits2_pos_bounds q) as [Hlo _].
  assert (Hp : 0 < 2 ^ (- e)) by (apply Z.pow_pos_nonneg; lia).
  assert (Hlt : 2 ^ (Zpos (digits2_pos q) - 1) < 2 ^ (53 - e)).
  { replace (53 - e) with (53 + - e) by lia. rewrite Z.pow_add_r by lia. nia. }
  apply Z.pow_lt_mono_r_iff in Hlt; lia.
Qed.

Lemma round_nearest_even_ge (mrs : shr_record) :
  shr_m mrs <= round_nearest_even (shr_m mrs) (loc_of_shr_record mrs).
Proof.
  destruct mrs as [m [] []]; simpl; try lia.
  destruct (Z.even m); lia.
Qed.

Lemma round_nearest_even_up (mrs : shr_record) :
  round_nearest_even (shr_m mrs) (loc_of_shr_record mrs) = shr_m mrs \/
  (round_nearest_even (shr_m mrs) (loc_of_shr_record mrs) = shr_m mrs + 1 /\
   orb (shr_r mrs) (shr_s mrs) = true).
Proof.
  destruct mrs as [m [] []]; simpl; auto.
  destruct (Z.even m); auto.
Qed.

Lemma shr_fexp_below (N m e : Z) :
  0 <= N < 2 ^ 53 -> below N m e ->
  below N (round_nearest_even
             (shr_m (fst (shr_fexp PyFloat.prec PyFloat.emax m e loc_Exact)))
             (loc_of_shr_record (fst (shr_fexp PyFloat.prec PyFloat.emax m e loc_Exact))))
          (snd (shr_fexp PyFloat.prec PyFloat.emax m e loc_Exact)) /\
  0 <= shr_m (fst (shr_fexp PyFloat.prec PyFloat.emax m e loc_Exact)).
Proof.
  intros HN Hb. pose proof (fexp_nonpos N m e HN Hb) as Hf.
  destruct Hb as (He & Hm0 & Hm).
  unfold shr_fexp, shr. simpl shr_record_of_loc.
  destruct (fexp PyFloat.prec PyFloat.emax (Zdigits2 m + e) - e) as [| p | p] eqn:Hk;
    simpl fst; simpl snd; simpl shr_m; simpl loc_of_shr_record; simpl round_nearest_even;
    try (unfold below; lia).
  rewrite iter_pos_nat.
  destruct (iter_shr_1_shifted m (Pos.to_nat p) Hm0) as [Hq Hrs].
  rewrite positive_nat_Z in Hq, Hrs.
  set (mrs := Nat.iter (Pos.to_nat p) shr_1 (Build_shr_record m false false)) in *.
  assert (HK : 0 < 2 ^ Zpos p) by (apply Z.pow_pos_nonneg; lia).
  assert (He' : e + Zpos p <= 0) by lia.
  assert (Hpow : 2 ^ (- e) = 2 ^ (- (e + Zpos p)) * 2 ^ Zpos p).
  { rewrite <- Z.pow_add_r by lia. f_equal. lia. }
  assert (HN' : 0 <= N * 2 ^ (- (e + Zpos p))).
  { apply Z.mul_nonneg_nonneg; [lia | apply Z.pow_nonneg; lia]. }
  pose proof (Z.div_mod m (2 ^ Zpos p) ltac:(lia)) as Hdm.
  pose proof (Z.mod_pos_bound m (2 ^ Zpos p) HK) as Hmb.
  assert (Hq0 : 0 <= shr_m mrs) by (rewrite Hq; apply Z.div_pos; lia).
  assert (HqN : shr_m mrs <= N * 2 ^ (- (e + Zpos p))).
  { rewrite Hq. apply Z.div_le_upper_bound; [lia |]. rewrite Hpow in Hm. lia. }
  split; [| assumption].
  split; [assumption |].
  pose proof (round_nearest_even_ge mrs).
  destruct (round_nearest_even_up mrs) as [-> | [-> Hor]]; [lia |].
  specialize (Hrs Hor). split; [lia |].
  rewrite Hpow in Hm. rewrite <- Hq in Hdm. nia.
Qed.

Lemma binary_round_aux_at_most (N m e : Z) :
  0 <= N < 2 ^ 53 -> below N m e ->
  at_most N (binary_round_aux PyFloat.prec PyFloat.emax false m e loc_Exact).
Proof.
  intros HN Hb. unfold binary_round_aux.
  destruct (shr_fexp_below N m e HN Hb) as [Hb1 _].
  destruct (shr_fexp PyFloat.prec PyFloat.emax m e loc_Exact) as [mrs1 e1].
  simpl fst in Hb1; simpl snd in Hb1.
  destruct (shr_fexp_below N _ e1 HN Hb1) as [(He2 & _ & Hb2) Hm2].
  pose proof (round_nearest_even_ge
                (fst (shr_fexp PyFloat.prec PyFloat.emax
                        (round_nearest_even (shr_m mrs1) (loc_of_shr_record mrs1))
                        e1 loc_Exact))) as Hge.
  destruct (shr_fexp PyFloat.prec PyFloat.emax
              (round_nearest_even (shr_m mrs1) (loc_of_shr_record mrs1)) e1 loc_Exact)
    as [mrs2 e2].
  simpl fst in *; simpl snd in *.
  destruct (shr_m mrs2) as [| q | q]; [exact I | | lia].
  replace (e2 <=? PyFloat.emax - PyFloat.prec) with true
    by (symmetry; apply Z.leb_le; unfold PyFloat.emax, PyFloat.prec; lia).
  simpl. unfold below. lia.
Qed.

Lemma pos_iter_xO (p d : positive) : Zpos (Pos.iter xO p d) = Zpos p * 2 ^ Zpos d.
Proof.
  induction d as [| d IH] using Pos.peano_ind.
  - simpl. lia.
  - rewrite Pos.iter_succ, Pos2Z.inj_xO, IH, Pos2Z.inj_succ, Z.pow_succ_r by lia. lia.
Qed.

Lemma of_int_at_most (n : Z) :
  0 <= n < 2 ^ 53 ->
  exists x, PyFloat.of_int n = Ok x /\ at_most n x.
Proof.
  intros Hn. unfold PyFloat.of_int, binary_normalize.
  destruct n as [| p |]; [exists (S754_zero false); split; [reflexivity | exact I] | | lia].
  unfold binary_round.
  assert (Hal : below (Zpos p)
                  (Zpos (fst (shl_align p 0
                    (fexp PyFloat.prec PyFloat.emax (Zpos (digits2_pos p) + 0)))))
                  (snd (shl_align p 0
                    (fexp PyFloat.prec PyFloat.emax (Zpos (digits2_pos p) + 0))))).
  { unfold shl_align.
    destruct (fexp PyFloat.prec PyFloat.emax (Zpos (digits2_pos p) + 0) - 0)
      as [| d | d] eqn:Hd; simpl fst; simpl snd.
    - unfold below. simpl. lia.
    - unfold below. simpl. lia.
    - rewrite pos_iter_xO. unfold below.
      replace (- fexp PyFloat.prec PyFloat.emax (Zpos (digits2_pos p) + 0)) with (Zpos d) by lia.
      assert (0 < 2 ^ Zpos d) by (apply Z.pow_pos_nonneg; lia). nia. }
  destruct (shl_align p 0 (fexp PyFloat.prec PyFloat.emax (Zpos (digits2_pos p) + 0)))
    as [mz ez].
  simpl fst in Hal; simpl snd in Hal.
  pose proof (binary_round_aux_at_most (Zpos p) (Zpos mz) ez Hn Hal) as Hr.
  destruct (binary_round_aux PyFloat.prec PyFloat.emax false (Zpos mz) ez loc_Exact)
    as [s | s | | [] m e] eqn:Hx; simpl in Hr; try contradiction.
  - exists (S754_zero s). split; [reflexivity | exact I].
  - exists (S754_finite false m e). split; [reflexivity | exact Hr].
Qed.

Lemma mul_at_most (N : Z) (x y : PyFloat.float) :
  0 <= N < 2 ^ 53 -> at_most N x -> unit_range y -> at_most N (PyFloat.mul x y).
Proof.
  intros HN Hx Hy. unfold PyFloat.mul, unit_range in *.
  destruct x as [sx | sx | | [] mx ex], y as [sy | sy | | [] my ey];
    simpl in Hx, Hy; try contradiction; try exact I.
  simpl SFmul. apply binary_round_aux_at_most; [assumption |].
  destruct Hx as (Hex & _ & Hmx), Hy as (Hey & _ & Hmy).
  unfold below. split; [lia |]. split; [lia |].
  replace (- (ex + ey)) with (- ex + - ey) by lia.
  rewrite Z.pow_add_r, Pos2Z.inj_mul by lia.
  assert (0 < 2 ^ (- ex)) by (apply Z.pow_pos_nonneg; lia).
  assert (0 < 2 ^ (- ey)) by (apply Z.pow_pos_nonneg; lia).
  nia.
Qed.

Lemma round_at_most (N : Z) (x : PyFloat.float) :
  0 <= N -> at_most N x -> exists k, PyFloat.round x = Ok k /\ 0 <= k <= N.
Proof.
  intros HN Hx. destruct x as [s | s | | [] m e]; simpl in Hx; try contradiction.
  - exists 0. split; [reflexivity | lia].
  - destruct Hx as (He & _ & Hm).
    exists (PyFloat.round_mag m e). split; [reflexivity |].
    unfold PyFloat.round_mag.
    destruct (0 <=? e) eqn:Hz.
    + apply Z.leb_le in Hz. replace e with 0 in * by lia. simpl in *. lia.
    + unfold PyFloat.round_half_even_shift.
      assert (Hd : 0 < 2 ^ (- e)) by (apply Z.pow_pos_nonneg; lia).
      pose proof (Z.div_mod (Zpos m) (2 ^ (- e)) ltac:(lia)) as Hdm.
      pose proof (Z.mod_pos_bound (Zpos m) (2 ^ (- e)) Hd) as Hmb.
      assert (Hq0 : 0 <= Zpos m / 2 ^ (- e)) by (apply Z.div_pos; lia).
      assert (HqN : Zpos m / 2 ^ (- e) <= N) by (apply Z.div_le_upper_bound; lia).
      destruct (2 * (Zpos m mod 2 ^ (- e)) ?= 2 ^ (- e)) eqn:Hc.
      * apply Z.compare_eq in Hc.
        destruct (Z.even (Zpos m / 2 ^ (- e))); [lia | nia].
      * lia.
      * apply Z.compare_gt_iff in Hc. nia.
Qed.

(** [round(n * r)] is defined and lies in [0, n] for a ratio in [0, 1]. *)
Lemma round_int_mul_bounds (n : Z) (r : PyFloat.float) :
  0 <= n < 2 ^ 53 -> unit_range r ->
  exists k, (x ← PyFloat.int_mul n r; PyFloat.round x) = Ok k /\ 0 <= k <= n.
Proof.
  intros Hn Hr. unfold PyFloat.int_mul.
  destruct (of_int_at_most n Hn) as (nf & -> & Hnf).
  simpl. apply round_at_most; [lia |]. apply mul_at_most; assumption.
Qed.

Lemma valid_mantissa (s : bool) (m : positive) (e : Z) :
  PyFloat.valid (S754_finite s m e) = true -> Zpos m < 2 ^ 53.
Proof.
  unfold PyFloat.valid, valid_binary, bounded, canonical_mantissa, fexp, emin.
  intros Hv. apply andb_true_iff in Hv as [Hc _]. apply Z.eqb_eq in Hc.
  unfold PyFloat.prec, PyFloat.emax in Hc.
  pose proof (digits2_pos_bounds m) as [_ Hhi].
  assert (Hle : 2 ^ Zpos (digits2_pos m) <= 2 ^ 53) by (apply Z.pow_le_mono_r; lia).
  lia.
Qed.

(** A valid float that passes the guard of [train_test] and is a number
    lies in [0, 1]. *)
Lemma guard_unit_range (r : PyFloat.float) :
  PyFloat.valid r = true -> r <> S754_nan ->
  PyFloat.ltb r PyFloat.lit_0_1 = false ->
  PyFloat.ltb PyFloat.lit_0_99 r = false ->
  unit_range r.
Proof.
  intros Hv Hnan Hlo Hhi.
  destruct r as [s | [] | | [] m e]; try discriminate; try contradiction.
  pose proof (valid_mantissa _ _ _ Hv) as Hm.
  unfold PyFloat.ltb, SFltb, SFcompare, PyFloat.lit_0_99 in Hhi.
  assert (He : e <= -53).
  { destruct (Z.compare_spec (-53) e); [lia | discriminate | lia]. }
  unfold unit_range, at_most, below.
  assert (2 ^ 53 <= 2 ^ (- e)) by (apply Z.pow_le_mono_r; lia).
  lia.
Qed.

End FloatBounds.

Lemma SFcompare_antisym (a b : PyFloat.float) :
  SFcompare b a = CompOpp <$> SFcompare a b.
Proof.
  destruct a as [sa | sa | | sa ma ea], b as [sb | sb | | sb mb eb];
    try destruct sa; try destruct sb; try reflexivity; simpl;
    rewrite (Z.compare_antisym ea eb); destruct (ea ?= eb); simpl; try reflexivity;
    rewrite (Pos.compare_cont_antisym ma mb Eq); simpl;
    try rewrite CompOpp_involutive; reflexivity.
Qed.

Lemma ltb_asym (a b : PyFloat.float) :
  PyFloat.ltb a b = true -> PyFloat.ltb b a = false.
Proof.
  unfold PyFloat.ltb, SFltb. rewrite (SFcompare_antisym a b).
  destruct (SFcompare a b) as [[] |]; simpl; congruence.
Qed.

Lemma ltb_not_nan (a b : PyFloat.float) : PyFloat.ltb a b = true -> a <> S754_nan.
Proof. intros Hlt ->. discriminate. Qed.

Section Split.
Context `{Libs}.

Lemma py_slice_prefix {A} (l : list A) (a : nat) :
  (a <= length l)%nat -> py_slice l (Z.of_nat a - Z.of_nat a) (Z.of_nat a) = take a l.
Proof.
  intros Ha. unfold py_slice. rewrite Z.sub_diag.
  change (0 <? 0) with false. cbv beta iota.
  destruct (Z.of_nat a <? 0) eqn:Hneg; [apply Z.ltb_lt in Hneg; lia |].
  rewrite !Z.min_l by lia. rewrite Z.sub_0_r, Nat2Z.id. reflexivity.
Qed.

Lemma py_slice_suffix {A} (l : list A) (a : nat) (b : Z) :
  (a <= length l)%nat -> Z.of_nat a + b = Z.of_nat (length l) ->
  py_slice l (Z.of_nat a + b - b) (Z.of_nat a + b) = drop a l.
Proof.
  intros Ha Hb. unfold py_slice.
  replace (Z.of_nat a + b - b) with (Z.of_nat a) by lia. rewrite Hb.
  destruct (Z.of_nat a <? 0) eqn:Hneg; [apply Z.ltb_lt in Hneg; lia |].
  destruct (Z.of_nat (length l) <? 0) eqn:Hneg'; [apply Z.ltb_lt in Hneg'; lia |].
  rewrite !Z.min_l by lia. rewrite Nat2Z.id.
  apply take_ge. rewrite length_drop. lia.
Qed.

Lemma select_rows_total {A} (rows : list A) (indices : list nat) :
  Forall (fun i => (i < length rows)%nat) indices ->
  exists rs, select_rows rows indices = Ok rs /\ length rs = length indices.
Proof.
  induction 1 as [| i rest Hi _ (rs & IH & Hlen)].
  - exists []. split; reflexivity.
  - destruct (lookup_lt_is_Some_2 rows i Hi) as [r Hr].
    exists (r :: rs). simpl. rewrite Hr, IH. simpl. split; [reflexivity | congruence].
Qed.

Lemma dataset_getitem_total (x y : tensor) (indices : list nat) :
  t_len x = t_len y ->
  Forall (fun i => (i < t_len x)%nat) indices ->
  exists a b, dataset_getitem (Dataset x y) indices = Ok (a, b) /\
              t_len a = length indices /\ t_len b = length indices.
Proof.
  intros Hxy Hi. unfold dataset_getitem, tensor_index. simpl.
  destruct (select_rows_total (t_items x) indices Hi) as (ra & -> & Hla).
  assert (Hi' : Forall (fun i => (i < length (t_items y))%nat) indices)
    by (unfold t_len in Hxy; rewrite <- Hxy; exact Hi).
  destruct (select_rows_total (t_items y) indices Hi') as (rb & -> & Hlb).
  simpl. eexists _, _. split; [reflexivity |]. split; assumption.
Qed.

Lemma bind_lift_ok {A B} (r : result A) (a : A) (f : A -> M B) (w : world) :
  r = Ok a -> (lift r ≫= f) w = f a w.
Proof. intros ->. reflexivity. Qed.

Lemma bind_ok {A B} (m : M A) (a : A) (f : A -> M B) (w w' : world) :
  m w = (Ok a, w') -> (m ≫= f) w = f a w'.
Proof. intros Hm. unfold mbind, M_bind. rewrite Hm. reflexivity. Qed.

Lemma bind_raise {A B} (m : M A) (e : exn) (f : A -> M B) (w w' : world) :
  m w = (Raise e, w') -> (m ≫= f) w = (Raise e, w').
Proof. intros Hm. unfold mbind, M_bind. rewrite Hm. reflexivity. Qed.

Lemma tensor_dataset_ok (x y : tensor) :
  t_len x = t_len y -> tensor_dataset x y = Ok (Dataset x y).
Proof. intros Hxy. unfold tensor_dataset. rewrite Hxy, Nat.eqb_refl. reflexivity. Qed.

Lemma random_split_ok (d : dataset) (k : nat) (w : world) :
  (k <= ds_len d)%nat ->
  length (fst (randperm (torch_rng w) (ds_len d))) = ds_len d ->
  random_split d (Z.of_nat k) (Z.of_nat (ds_len d) - Z.of_nat k) w =
  (Ok (take k (fst (randperm (torch_rng w) (ds_len d))),
       drop k (fst (randperm (torch_rng w) (ds_len d)))),
   World (snd (randperm (torch_rng w) (ds_len d))) (np_rng w) (py_rng w) (fs w) (out w)).
Proof.
  intros Hk Hlen. unfold random_split.
  replace (Z.of_nat k + (Z.of_nat (ds_len d) - Z.of_nat k) =? Z.of_nat (ds_len d)) with true
    by (symmetry; apply Z.eqb_eq; lia).
  replace (Z.to_nat (Z.of_nat k + (Z.of_nat (ds_len d) - Z.of_nat k))) with (ds_len d) by lia.
  destruct (randperm (torch_rng w) (ds_len d)) as [ix g]. simpl in *.
  rewrite py_slice_prefix, py_slice_suffix by lia. reflexivity.
Qed.

Lemma train_test_run (x y : tensor) (r : PyFloat.float) (w : world) :
  randperm_permutes ->
  PyFloat.valid r = true ->
  PyFloat.ltb PyFloat.lit_0_1 r = true ->
  PyFloat.ltb r PyFloat.lit_0_99 = true ->
  t_len x = t_len y ->
  Z.of_nat (t_len x) < 2 ^ 53 ->
  let n := t_len x in
  let indices := fst (randperm (torch_rng w) n) in
  exists (k : nat) (train test : dataset),
    (p ← PyFloat.int_mul (Z.of_nat n) r; PyFloat.round p) = Ok (Z.of_nat k) /\
    train_test x y r w
    = (Ok (train, test),
       World (snd (randperm (torch_rng w) n)) (np_rng w) (py_rng w) (fs w) (out w)) /\
    dataset_getitem (Dataset x y) (take k indices) = Ok (tensors0 train, tensors1 train) /\
    dataset_getitem (Dataset x y) (drop k indices) = Ok (tensors0 test, tensors1 test) /\
    (k <= n)%nat /\
    ds_len train = k /\
    ds_len test = (n - k)%nat /\
    (forall i, i ∈ take k indices -> i ∉ drop k indices) /\
    (forall i, (i < n)%nat <-> i ∈ take k indices \/ i ∈ drop k indices).
Proof.
  intros Hperm Hv Hlo Hhi Hxy Hn n indices.
  assert (Hr : unit_range r).
  { apply guard_unit_range; auto using ltb_asym. eapply ltb_not_nan; eassumption. }
  destruct (round_int_mul_bounds (Z.of_nat n) r ltac:(lia) Hr) as (kz & Hk & Hk0).
  exists (Z.to_nat kz). rewrite Z2Nat.id by lia.
  specialize (Hperm (torch_rng w) n). fold indices in Hperm.
  assert (Hlen : length indices = n).
  { rewrite (Permutation_length Hperm). apply length_seq. }
  assert (Hin : forall i, i ∈ indices <-> (i < n)%nat).
  { intros i. rewrite Hperm, elem_of_seq. lia. }
  assert (Hnd : NoDup indices) by (rewrite Hperm; apply NoDup_seq).
  set (k := Z.to_nat kz) in *.
  assert (Hkn : (k <= n)%nat) by lia.
  rewrite <- (take_drop k indices) in Hnd, Hin.
  apply NoDup_app in Hnd as (_ & Hdisj & _).
  assert (Htk : Forall (fun i => (i < t_len x)%nat) (take k indices)).
  { apply Forall_forall. intros i Hi. apply Hin, elem_of_app. left. assumption. }
  assert (Hdk : Forall (fun i => (i < t_len x)%nat) (drop k indices)).
  { apply Forall_forall. intros i Hi. apply Hin, elem_of_app. right. assumption. }
  destruct (dataset_getitem_total x y _ Hxy Htk) as (a1 & b1 & Hg1 & Ha1 & Hb1).
  destruct (dataset_getitem_total x y _ Hxy Hdk) as (a2 & b2 & Hg2 & Ha2 & Hb2).
  exists (Dataset a1 b1), (Dataset a2 b2).
  split; [assumption |].
  split.
  { unfold train_test.
    rewrite (ltb_asym _ _ Hlo), (ltb_asym _ _ Hhi). rewrite orb_false_l.
    rewrite (bind_lift_ok _ _ _ _ (tensor_dataset_ok x y Hxy)).
    change (ds_len (Dataset x y)) with n.
    unfold PyFloat.int_mul in Hk |- *.
    destruct (PyFloat.of_int (Z.of_nat n)) as [nf |] eqn:Hnf; [| discriminate].
    rewrite (bind_lift_ok _ (PyFloat.mul nf r)) by reflexivity.
    rewrite (bind_lift_ok _ _ _ _ Hk).
    replace kz with (Z.of_nat k) by lia.
    erewrite bind_ok
      by (apply (random_split_ok (Dataset x y) k w); [exact Hkn | exact Hlen]).
    cbv beta iota.
    change (ds_len (Dataset x y)) with n. fold indices.
    rewrite (bind_lift_ok _ _ _ _ Hg1). cbv beta iota.
    rewrite (bind_lift_ok _ _ _ _ Hg2). cbv beta iota.
    rewrite (bind_lift_ok _ _ _ _ (tensor_dataset_ok a1 b1 ltac:(congruence))).
    rewrite (bind_lift_ok _ _ _ _ (tensor_dataset_ok a2 b2 ltac:(congruence))).
    reflexivity. }
  simpl tensors0; simpl tensors1.
  split; [assumption |]. split; [assumption |].
  split; [exact Hkn |].
  split; [unfold ds_len; simpl; rewrite Ha1, length_take; lia |].
  split; [unfold ds_len; simpl; rewrite Ha2, length_drop; lia |].
  split; [exact Hdisj |].
  intros i. rewrite <- Hin, elem_of_app. reflexivity.
Qed.

(** C1.  For a ratio strictly between 0.1 and 0.99 and tensors of equal
    length [n], [train_test] returns two datasets: the rows of the input at
    the first [k] and at the remaining indices of the permutation drawn,
    where [k = round(n * train_size)].  The two index lists are disjoint,
    together they hold every index below [n], and the train part has [k]
    samples. *)
Theorem train_test_partition (x y : tensor) (r : PyFloat.float) (w : world) :
  randperm_permutes ->
  PyFloat.valid r = true ->
  PyFloat.ltb PyFloat.lit_0_1 r = true ->
  PyFloat.ltb r PyFloat.lit_0_99 = true ->
  t_len x = t_len y ->
  Z.of_nat (t_len x) < 2 ^ 53 ->
  let n := t_len x in
  let indices := fst (randperm (torch_rng w) n) in
  exists (k : nat) (train test : dataset) (w' : world),
    (p ← PyFloat.int_mul (Z.of_nat n) r; PyFloat.round p) = Ok (Z.of_nat k) /\
    train_test x y r w = (Ok (train, test), w') /\
    dataset_getitem (Dataset x y) (take k indices) = Ok (tensors0 train, tensors1 train) /\
    dataset_getitem (Dataset x y) (drop k indices) = Ok (tensors0 test, tensors1 test) /\
    length (take k indices) = k /\
    ds_len train = k /\
    ds_len test = (n - k)%nat /\
    (forall i, i ∈ take k indices -> i ∉ drop k indices) /\
    (forall i, (i < n)%nat <-> i ∈ take k indices \/ i ∈ drop k indices).
Proof.
  intros Hperm Hv Hlo Hhi Hxy Hn n indices.
  destruct (train_test_run x y r w Hperm Hv Hlo Hhi Hxy Hn)
    as (k & train & test & Hk & Hrun & Htr & Hte & Hkn & Hltr & Hlte & Hdisj & Hcov).
  exists k, train, test. eexists.
  split; [exact Hk |]. split; [exact Hrun |]. split; [exact Htr |]. split; [exact Hte |].
  split.
  { rewrite length_take. pose proof (Hperm (torch_rng w) n) as Hp.
    apply Permutation_length in Hp. rewrite length_seq in Hp.
    fold indices. unfold indices at 1. lia. }
  split; [exact Hltr |]. split; [exact Hlte |]. split; [exact Hdisj | exact Hcov].
Qed.

End Split.

Lemma leb_ltb_false (a b : PyFloat.float) :
  PyFloat.leb a b = true -> PyFloat.ltb b a = false.
Proof.
  unfold PyFloat.leb, PyFloat.ltb, SFleb, SFltb. rewrite (SFcompare_antisym a b).
  destruct (SFcompare a b) as [[] |]; simpl; congruence.
Qed.

Lemma ltb_leb_false (a b : PyFloat.float) :
  PyFloat.ltb a b = true -> PyFloat.leb b a = false.
Proof.
  unfold PyFloat.leb, PyFloat.ltb, SFleb, SFltb. rewrite (SFcompare_antisym a b).
  destruct (SFcompare a b) as [[] |]; simpl; congruence.
Qed.

Lemma ltb_finite_inv (m m' : positive) (e e' : Z) :
  PyFloat.ltb (S754_finite false m e) (S754_finite false m' e') = true ->
  e < e' \/ (e = e' /\ Zpos m < Zpos m').
Proof.
  unfold PyFloat.ltb, SFltb, SFcompare.
  destruct (Z.compare_spec e e') as [-> | He | He]; intros Hlt; try discriminate.
  - right. split; [reflexivity |].
    change (Pos.compare_cont Eq m m') with (m ?= m')%positive in Hlt.
    destruct (Pos.compare_spec m m'); try discriminate. lia.
  - left. assumption.
Qed.

Lemma trunc_below_one (m : positive) (e : Z) :
  PyFloat.valid (S754_finite false m e) = true ->
  PyFloat.ltb (S754_finite false m e) PyFloat.lit_1_0 = true ->
  trunc_mag m e = 0.
Proof.
  intros Hv Hlt. pose proof (valid_mantissa _ _ _ Hv) as Hm.
  unfold PyFloat.lit_1_0 in Hlt. apply ltb_finite_inv in Hlt.
  assert (H52 : 2 ^ 52 = 4503599627370496) by (vm_compute; reflexivity).
  assert (Hlt' : Zpos m < 2 ^ (- e)).
  { destruct Hlt as [He | [-> Hm']].
    - assert (2 ^ 53 <= 2 ^ (- e)) by (apply Z.pow_le_mono_r; lia). lia.
    - replace (- -52) with 52 by lia. lia. }
  unfold trunc_mag.
  replace (0 <=? e) with false by (symmetry; apply Z.leb_gt; lia).
  apply Z.div_small. lia.
Qed.

Section Binarize.

(** C4, as amended.  With a threshold below 3.4e38 whose float32 value is
    above zero, [validate] maps every predicted value at or above that
    float32 value to 1 and every value below it to 0.  Without a threshold
    the prediction is cast to uint8, which truncates towards zero: a value
    in [0, 1) becomes 0 and 1.0 becomes 1. *)
Theorem binarize_spec (t : PyFloat.float) (pr_mask : list PyFloat.float) :
  PyFloat.ltb t PyFloat.lit_3_4e38 = true ->
  PyFloat.ltb PyFloat.zero (PyFloat.to_float32 t) = true ->
  (exists px, binarize (Some t) pr_mask = PixF px /\ length px = length pr_mask /\
     forall i v, pr_mask !! i = Some v ->
       (PyFloat.leb (PyFloat.to_float32 t) v = true -> px !! i = Some PyFloat.lit_1_0) /\
       (PyFloat.ltb v (PyFloat.to_float32 t) = true -> px !! i = Some PyFloat.zero)) /\
  (exists px, binarize None pr_mask = PixU8 px /\ length px = length pr_mask /\
     forall i v, pr_mask !! i = Some v -> PyFloat.valid v = true ->
       px !! i = Some (astype_uint8 v) /\
       (PyFloat.leb PyFloat.zero v = true -> PyFloat.ltb v PyFloat.lit_1_0 = true ->
        px !! i = Some (Some 0)) /\
       (v = PyFloat.lit_1_0 -> px !! i = Some (Some 1))).
Proof.
  intros _ Ht. split.
  - unfold binarize. cbv zeta.
    eexists. split; [reflexivity |]. split; [rewrite !length_map; reflexivity |].
    intros i v Hv. rewrite !list_lookup_fmap, Hv. cbn [fmap option_fmap option_map].
    split; intros Hc.
    + rewrite (leb_ltb_false _ _ Hc), Hc. reflexivity.
    + rewrite Hc, (ltb_leb_false _ _ Ht). reflexivity.
  - eexists. split; [reflexivity |]. split; [rewrite length_map; reflexivity |].
    intros i v Hv Hval. rewrite list_lookup_fmap, Hv. cbn [fmap option_fmap option_map].
    split; [reflexivity |]. split.
    + intros H0 H1. f_equal.
      destruct v as [s | [] | | [] m e];
        [reflexivity | discriminate H0 | discriminate H1 | discriminate H0
        | discriminate H0 |].
      unfold astype_uint8. rewrite (trunc_below_one m e Hval H1). reflexivity.
    + intros ->. vm_compute. reflexivity.
Qed.

End Binarize.

Section Effects.
Context `{Libs}.
Variables (Q : event -> Prop) (E : exn -> Prop).

Lemma emits_only_ret {A} (a : A) : emits_only Q E (mret a).
Proof.
  intros w. exists []. simpl. rewrite app_nil_r.
  split; [reflexivity |]. split; [apply Forall_nil_2 |]. split; [reflexivity | discriminate].
Qed.

Lemma emits_only_lift {A} (r : result A) :
  (forall e, r = Raise e -> E e) -> emits_only Q E (lift r).
Proof.
  intros Hr w. exists []. simpl. rewrite app_nil_r.
  split; [reflexivity |]. split; [apply Forall_nil_2 |]. split; [reflexivity | exact Hr].
Qed.

Lemma emits_only_emit (ev : event) : Q ev -> emits_only Q E (emit ev).
Proof.
  intros Hq w. exists [ev]. simpl.
  split; [reflexivity |]. split; [apply Forall_cons_2; [exact Hq | apply Forall_nil_2] |].
  split; [reflexivity | discriminate].
Qed.

Lemma emits_only_bind {A B} (m : M A) (f : A -> M B) :
  emits_only Q E m -> (forall a, emits_only Q E (f a)) -> emits_only Q E (m ≫= f).
Proof.
  intros Hm Hf w. unfold mbind, M_bind.
  destruct (Hm w) as (evs & Ho & Hq & Hfs & He).
  destruct (m w) as [[a | e] w1]; simpl in *.
  - destruct (Hf a w1) as (evs' & Ho' & Hq' & Hfs' & He').
    exists (evs ++ evs'). rewrite Ho', Ho, Hfs', Hfs, app_assoc.
    split; [reflexivity |]. split; [apply Forall_app; split; assumption |].
    split; [reflexivity | exact He'].
  - exists evs. split; [exact Ho |]. split; [exact Hq |]. split; [exact Hfs |].
    intros e0 [= <-]. apply He. reflexivity.
Qed.

Lemma emits_only_for_each {A S} (body : A -> S -> M S) (xs : list A) (s : S) :
  (forall x s, emits_only Q E (body x s)) -> emits_only Q E (for_each body xs s).
Proof.
  intros Hb. revert s. induction xs as [| x xs IH]; intros s; simpl.
  - apply emits_only_ret.
  - apply emits_only_bind; [apply Hb | exact IH].
Qed.

Lemma emits_only_choice (n : nat) :
  E (ValueError msg_choice) -> emits_only Q E (np_random_choice n).
Proof.
  intros He w. exists []. unfold np_random_choice.
  destruct (Nat.eqb n 0).
  - simpl. rewrite app_nil_r.
    split; [reflexivity |]. split; [apply Forall_nil_2 |]. split; [reflexivity |].
    intros e [= <-]. exact He.
  - destruct (np_choice (np_rng w) n) as [k g]. simpl. rewrite app_nil_r.
    split; [reflexivity |]. split; [apply Forall_nil_2 |]. split; [reflexivity | discriminate].
Qed.

Lemma emits_only_valid_epoch_run (model : Model) (mt : Metrics) (d : dataset) (bs : Z) :
  Q (EvRun "valid") -> emits_only Q E (valid_epoch_run model mt d bs).
Proof.
  intros Hq w. exists [EvRun "valid"]. unfold valid_epoch_run.
  destruct (valid_run model mt d bs (torch_rng w)) as [r g]. simpl.
  split; [reflexivity |]. split; [apply Forall_cons_2; [exact Hq | apply Forall_nil_2] |].
  split; [reflexivity | discriminate].
Qed.

End Effects.

Section Validate.
Context `{Libs}.

Lemma tensor_row_raises (t : tensor) (n : nat) (e : exn) :
  tensor_row t n = Raise e -> e = IndexError.
Proof. unfold tensor_row. destruct (t_items t !! n); congruence. Qed.

Lemma plane_at_raises (a : array3) (c : nat) (e : exn) :
  plane_at a c = Raise e -> e = IndexError.
Proof. unfold plane_at. destruct (a_planes a !! c); congruence. Qed.

Lemma getitem_raises {A} (key : string) (v : option A) (e : exn) :
  getitem key v = Raise e -> e = KeyError key.
Proof. unfold getitem. destruct v; congruence. Qed.

(** C9.  With a model passed in, [validate] does the same, with the same
    effects, whatever [model_path] is: it loads nothing, leaves the files
    alone and raises no file error. *)
Theorem validate_ignores_model_path (self : explorer) (test : dataset)
    (path1 path2 : string) (m : Model) (threshold : option PyFloat.float)
    (ps : params) (w : world) :
  validate self test path1 (Some m) threshold ps w
  = validate self test path2 (Some m) threshold ps w /\
  emits_only (fun ev => is_load ev = false) (fun e => is_file_error e = false)
    (validate self test path1 (Some m) threshold ps).
Proof.
  split; [reflexivity |].
  unfold validate.
  apply emits_only_bind; [apply emits_only_ret | intros model].
  apply emits_only_bind.
  { destruct (vis ps) as [[] |]; try apply emits_only_ret.
    apply emits_only_for_each. intros i []. unfold validate_show.
    apply emits_only_bind; [apply emits_only_choice; reflexivity | intros n].
    apply emits_only_bind;
      [apply emits_only_lift; intros e He; apply tensor_row_raises in He; subst; reflexivity
      | intros features_tensor].
    apply emits_only_bind;
      [apply emits_only_lift; intros e He; apply tensor_row_raises in He; subst; reflexivity
      | intros true_label].
    repeat (apply emits_only_bind; [apply emits_only_emit; reflexivity | intros _]).
    apply emits_only_bind;
      [apply emits_only_lift; intros e He; apply plane_at_raises in He; subst; reflexivity
      | intros label0].
    repeat (apply emits_only_bind; [apply emits_only_emit; reflexivity | intros _]).
    apply emits_only_emit; reflexivity. }
  intros _.
  apply emits_only_bind; [apply emits_only_lift; discriminate | intros _].
  apply emits_only_bind;
    [apply emits_only_lift; intros e He; apply getitem_raises in He; subst; reflexivity
    | intros mt].
  apply emits_only_bind; [apply emits_only_valid_epoch_run; reflexivity | intros [m' logs]].
  apply emits_only_ret.
Qed.

End Validate.

Section Loops.
Context `{Libs}.

Lemma for_each_app {A S} (body : A -> S -> M S) (xs ys : list A) (s : S) (w : world) :
  for_each body (xs ++ ys) s w = (for_each body xs s ≫= for_each body ys) w.
Proof.
  revert s w. induction xs as [| x xs IH]; intros s w; simpl.
  - reflexivity.
  - unfold mbind, M_bind in *. destruct (body x s w) as [[s' | e] w']; [apply IH | reflexivity].
Qed.

Lemma for_each_snoc {A S} (body : A -> S -> M S) (xs : list A) (x : A) (s s' : S)
    (w w' : world) :
  for_each body xs s w = (Ok s', w') ->
  for_each body (xs ++ [x]) s w = body x s' w'.
Proof.
  intros Hxs. rewrite for_each_app. unfold mbind, M_bind. rewrite Hxs. simpl.
  unfold mbind, M_bind, mret, M_ret.
  destruct (body x s' w') as [[s'' | e] w'']; reflexivity.
Qed.

End Loops.

Section FitEpoch.
Context `{Libs}.

Lemma bind_emit {B} (ev : event) (f : unit -> M B) (w : world) :
  (emit ev ≫= f) w
  = f tt (World (torch_rng w) (np_rng w) (py_rng w) (fs w) (out w ++ [ev])).
Proof. reflexivity. Qed.

Lemma bind_torch_save {B} (m : Model) (path : string) (f : unit -> M B) (w : world) :
  save_error path = None ->
  (torch_save m path ≫= f) w
  = f tt (World (torch_rng w) (np_rng w) (py_rng w) (<[path := m]> (fs w))
                (out w ++ [EvSave path])).
Proof. intros Hs. unfold mbind, M_bind, torch_save. rewrite Hs. reflexivity. Qed.

Lemma bind_torch_save_raise {B} (m : Model) (path : string) (f : unit -> M B) (w : world)
    (e : exn) :
  save_error path = Some e -> (torch_save m path ≫= f) w = (Raise e, w).
Proof. intros Hs. unfold mbind, M_bind, torch_save. rewrite Hs. reflexivity. Qed.

Lemma bind_train_epoch_run {B} (m : Model) (o : optimizer) (mt : Metrics) (d : dataset)
    (bs : Z) (f : (Model * optimizer) * Logs -> M B) (w : world) :
  (train_epoch_run m o mt d bs ≫= f) w
  = f (fst (train_run m o mt d bs (torch_rng w)))
      (World (snd (train_run m o mt d bs (torch_rng w))) (np_rng w) (py_rng w) (fs w)
             (out w ++ [EvRun "train"])).
Proof.
  unfold mbind, M_bind, train_epoch_run.
  destruct (train_run m o mt d bs (torch_rng w)) as [r g]. reflexivity.
Qed.

Lemma bind_valid_epoch_run {B} (m : Model) (mt : Metrics) (d : dataset) (bs : Z)
    (f : Model * Logs -> M B) (w : world) :
  (valid_epoch_run m mt d bs ≫= f) w
  = f (fst (valid_run m mt d bs (torch_rng w)))
      (World (snd (valid_run m mt d bs (torch_rng w))) (np_rng w) (py_rng w) (fs w)
             (out w ++ [EvRun "valid"])).
Proof.
  unfold mbind, M_bind, valid_epoch_run.
  destruct (valid_run m mt d bs (torch_rng w)) as [r g]. reflexivity.
Qed.

Lemma bind_mret {A B} (a : A) (f : A -> M B) (w : world) : (mret a ≫= f) w = f a w.
Proof. reflexivity. Qed.

Lemma set_lr0_ok (o : optimizer) (lr new : PyFloat.float) (rest : list PyFloat.float) :
  param_lrs o = lr :: rest -> set_lr0 o new = Ok (Optimizer (new :: rest) (opt_state o)).
Proof. intros Ho. unfold set_lr0. rewrite Ho. reflexivity. Qed.

(** One epoch of [fit], where the intermediate checkpoint can be written
    if this is an epoch that saves it. *)
Lemma fit_epoch_ok (tr va : dataset) (bs : Z) (mt : Metrics) (ps : params) (prom : string)
    (i : nat) (m : Model) (o : optimizer) (w : world) (E k : Z)
    (lr : PyFloat.float) (rest : list PyFloat.float) :
  epochs ps = Some E ->
  (p ← PyFloat.int_mul E PyFloat.lit_0_8; PyFloat.round p) = Ok k ->
  (is_checkpoint_epoch i = true -> save_error prom = None) ->
  param_lrs (snd (fst (epoch_step tr va bs mt ((m, o), torch_rng w)))) = lr :: rest ->
  fit_epoch tr va bs mt ps prom i (m, o) w =
  (Ok (fst (fst (epoch_step tr va bs mt ((m, o), torch_rng w))),
       if Z.of_nat i =? k
       then Optimizer (PyFloat.lit_0_000002 :: rest)
                      (opt_state (snd (fst (epoch_step tr va bs mt ((m, o), torch_rng w)))))
       else snd (fst (epoch_step tr va bs mt ((m, o), torch_rng w)))),
   World (snd (epoch_step tr va bs mt ((m, o), torch_rng w))) (np_rng w) (py_rng w)
     (if is_checkpoint_epoch i
      then <[prom := fst (fst (epoch_step tr va bs mt ((m, o), torch_rng w)))]> (fs w)
      else fs w)
     (out w ++ EvPrint (String "010" "Epoch: {}") (Some i) :: EvRun "train" :: EvRun "valid"
            :: (if is_checkpoint_epoch i then [EvSave prom] else []))).
Proof.
  intros HE Hk Hsave Hlr. unfold fit_epoch.
  rewrite bind_emit, bind_train_epoch_run. cbn [torch_rng np_rng py_rng fs out].
  unfold epoch_step in *. cbn [fst snd] in *.
  destruct (train_run m o mt tr bs (torch_rng w)) as [[[m1 o1] logs1] g1].
  cbn [fst snd] in *.
  rewrite bind_valid_epoch_run. cbn [torch_rng np_rng py_rng fs out].
  destruct (valid_run m1 mt va 1 g1) as [[m2 logs2] g2]. cbn [fst snd] in *.
  rewrite HE.
  rewrite (bind_lift_ok (getitem "epochs" (Some E)) E) by reflexivity.
  unfold PyFloat.int_mul in Hk |- *.
  destruct (PyFloat.of_int E) as [ef |]; [| discriminate].
  rewrite (bind_lift_ok _ (PyFloat.mul ef PyFloat.lit_0_8)) by reflexivity.
  rewrite (bind_lift_ok _ _ _ _ Hk).
  destruct (Z.of_nat i =? k).
  - rewrite (bind_lift_ok _ _ _ _ (set_lr0_ok _ _ _ _ Hlr)).
    destruct (is_checkpoint_epoch i);
      rewrite ?(bind_torch_save _ _ _ _ (Hsave eq_refl)), ?bind_mret; simpl;
      rewrite <- ?app_assoc; reflexivity.
  - rewrite bind_mret.
    destruct (is_checkpoint_epoch i);
      rewrite ?(bind_torch_save _ _ _ _ (Hsave eq_refl)), ?bind_mret; simpl;
      rewrite <- ?app_assoc; reflexivity.
Qed.

End FitEpoch.

Lemma string_app_inv_head (a s1 s2 : string) : a +:+ s1 = a +:+ s2 -> s1 = s2.
Proof.
  induction a as [| c a IH]; simpl; intros Heq; [assumption |].
  injection Heq as Heq. auto.
Qed.

Lemma path_join_checkpoints (a : string) :
  path_join a "best_model.pth" <> path_join a "prom.pth".
Proof.
  unfold path_join. destruct (String.eqb a EmptyString || ends_with_sep a); intros Heq.
  - apply string_app_inv_head in Heq. discriminate.
  - apply string_app_inv_head in Heq. discriminate.
Qed.

Lemma is_checkpoint_epoch_spec (i : nat) :
  is_checkpoint_epoch i = true <-> i ∈ [10; 20; 30; 40; 50]%nat.
Proof.
  unfold is_checkpoint_epoch.
  rewrite !orb_true_iff, !Nat.eqb_eq, !elem_of_cons, elem_of_nil. tauto.
Qed.

Section Fit.
Context `{Libs}.
Variables (self : explorer) (train : dataset) (model : Model) (ps : params) (w : world).
Variables (bs E : Z) (opt : optimizer) (mt : Metrics).
Variables (lr : PyFloat.float) (rest : list PyFloat.float).

Local Abbreviation prom := (path_join (working_dir self) "prom.pth").
Local Abbreviation best := (path_join (working_dir self) "best_model.pth").

Hypothesis Hperm : randperm_permutes.
Hypothesis Hkeep : train_run_keeps_lrs.
Hypothesis Hlen : t_len (tensors0 train) = t_len (tensors1 train).
Hypothesis Hsize : Z.of_nat (t_len (tensors0 train)) < 2 ^ 53.
Hypothesis Hbs : batch_size ps = Some bs.
Hypothesis Hbs0 : 0 < bs.
Hypothesis Hopt : p_optimizer ps = Some opt.
Hypothesis Hmt : metrics ps = Some mt.
Hypothesis HE : epochs ps = Some E.
Hypothesis HE53 : 0 <= E < 2 ^ 53.
Hypothesis Hlr : param_lrs opt = lr :: rest.
Hypothesis Hsave_prom : save_error prom = None.
Hypothesis Hsave_best : save_error best = None.

Lemma epoch_step_lrs (tr va : dataset) (m : Model) (o : optimizer) (g : TorchRng) :
  param_lrs (snd (fst (epoch_step tr va bs mt ((m, o), g)))) = param_lrs o.
Proof.
  unfold epoch_step. cbn [fst snd].
  pose proof (Hkeep m o mt tr bs g) as Hk.
  destruct (train_run m o mt tr bs g) as [[[m1 o1] logs1] g1].
  destruct (valid_run m1 mt va 1 g1) as [[m2 logs2] g2]. exact Hk.
Qed.

Lemma lit_0_8_unit_range : unit_range PyFloat.lit_0_8.
Proof.
  apply guard_unit_range; [vm_compute; reflexivity | discriminate | reflexivity | reflexivity].
Qed.

Lemma drop_epoch_defined :
  exists k, (p ← PyFloat.int_mul E PyFloat.lit_0_8; PyFloat.round p) = Ok k /\ 0 <= k <= E.
Proof. apply round_int_mul_bounds; [exact HE53 | exact lit_0_8_unit_range]. Qed.

Lemma fit_split :
  exists tr va,
    train_test (tensors0 train) (tensors1 train) PyFloat.lit_0_95 w
    = (Ok (tr, va),
       World (snd (randperm (torch_rng w) (t_len (tensors0 train))))
             (np_rng w) (py_rng w) (fs w) (out w)).
Proof.
  destruct (train_test_run (tensors0 train) (tensors1 train) PyFloat.lit_0_95 w Hperm)
    as (k & tr & va & _ & Htt & _); try assumption; try reflexivity.
  exists tr, va. exact Htt.
Qed.

(** The loop of [fit] run for [j] epochs never raises; the first learning
    rate is the new one as soon as the epoch with index [k] is among them,
    and the intermediate checkpoint is there once epoch 10 is. *)
Lemma fit_prefix (tr va : dataset) (w1 : world) (k : Z) (j : nat) :
  (p ← PyFloat.int_mul E PyFloat.lit_0_8; PyFloat.round p) = Ok k ->
  exists m o wj,
    for_each (fit_epoch tr va bs mt ps prom) (seq 0 j) (model, opt) w1 = (Ok (m, o), wj) /\
    param_lrs o = (if k <? Z.of_nat j then PyFloat.lit_0_000002 else lr) :: rest /\
    ((11 <= j)%nat -> is_Some (fs wj !! prom)).
Proof.
  intros Hk. induction j as [| j (m & o & wj & Hrun & Hlrs & Hfs)].
  - exists model, opt, w1. split; [reflexivity |]. split; [| lia].
    replace (k <? Z.of_nat 0) with false; [exact Hlr |].
    symmetry. apply Z.ltb_ge. destruct drop_epoch_defined as (k' & Hk' & ?).
    rewrite Hk in Hk'. injection Hk' as ->. lia.
  - rewrite (List.seq_S j 0). simpl Nat.add. rewrite (for_each_snoc _ _ _ _ _ _ _ Hrun).
    pose proof (epoch_step_lrs tr va m o (torch_rng wj)) as Hstep. rewrite Hlrs in Hstep.
    rewrite (fit_epoch_ok tr va bs mt ps prom j m o wj E k _ rest HE Hk
               (fun _ => Hsave_prom) Hstep).
    eexists _, _, _. split; [reflexivity |]. split.
    + destruct (Z.eqb_spec (Z.of_nat j) k) as [Hjk | Hjk].
      * simpl. replace (k <? Z.of_nat (S j)) with true by (symmetry; apply Z.ltb_lt; lia).
        reflexivity.
      * rewrite Hstep.
        replace (k <? Z.of_nat (S j)) with (k <? Z.of_nat j); [reflexivity |].
        destruct (Z.ltb_spec k (Z.of_nat j)), (Z.ltb_spec k (Z.of_nat (S j))); lia.
    + intros Hj. simpl fs.
      destruct (is_checkpoint_epoch j) eqn:Hc.
      * rewrite lookup_insert_eq. eauto.
      * apply Hfs. destruct (decide (j = 10%nat)) as [-> |]; [discriminate | lia].
Qed.

Lemma data_loader_ok (n : Z) : 0 < n -> data_loader n = Ok tt.
Proof.
  intros Hn. unfold data_loader.
  replace (n <=? 0) with false by (symmetry; apply Z.leb_gt; exact Hn). reflexivity.
Qed.

Lemma fit_run (tr va : dataset) (w1 wE : world) (m : Model) (o : optimizer) :
  train_test (tensors0 train) (tensors1 train) PyFloat.lit_0_95 w = (Ok (tr, va), w1) ->
  for_each (fit_epoch tr va bs mt ps prom) (seq 0 (Z.to_nat E)) (model, opt) w1
  = (Ok (m, o), wE) ->
  fit self train model ps w
  = (Ok (m, o),
     World (torch_rng wE) (np_rng wE) (py_rng wE) (<[best := m]> (fs wE))
           (out wE ++ [EvSave best; EvPrint "Model saved!" None])).
Proof.
  intros Htt Hloop. unfold fit.
  rewrite (bind_ok _ _ _ _ _ Htt). cbv beta iota.
  rewrite Hbs, Hopt, Hmt, HE.
  rewrite (bind_lift_ok _ bs) by reflexivity.
  rewrite (bind_lift_ok _ tt) by (apply data_loader_ok; exact Hbs0).
  rewrite (bind_lift_ok _ tt) by reflexivity.
  rewrite (bind_lift_ok _ opt) by reflexivity.
  rewrite (bind_lift_ok _ mt) by reflexivity.
  rewrite (bind_lift_ok _ E) by reflexivity.
  fold prom. rewrite (bind_ok _ _ _ _ _ Hloop). cbv beta iota.
  rewrite (bind_torch_save _ _ _ _ Hsave_best), bind_emit. simpl.
  rewrite <- app_assoc. reflexivity.
Qed.



End Fit.

Section RngLocal.
Context `{Libs}.

Lemma rng_local_lift {A} (r : result A) : rng_local (lift r).
Proof.
  intros w1 w2 Hg. simpl. split; [reflexivity |]. split; [exact Hg |].
  exists []. rewrite !app_nil_r. split; [reflexivity |]. split; [reflexivity |].
  apply Forall_nil_2.
Qed.

Lemma rng_local_ret {A} (a : A) : rng_local (mret a).
Proof. apply (rng_local_lift (Ok a)). Qed.

Lemma rng_local_emit (ev : event) : is_seed ev = false -> rng_local (emit ev).
Proof.
  intros Hev w1 w2 Hg. simpl. split; [reflexivity |]. split; [exact Hg |].
  exists [ev]. split; [reflexivity |]. split; [reflexivity |].
  apply Forall_cons_2; [exact Hev | apply Forall_nil_2].
Qed.

Lemma rng_local_transform (image mask : array3) : rng_local (transform image mask).
Proof.
  intros w1 w2 Hg. unfold transform. rewrite Hg.
  destruct (transformations (py_rng w2) image mask) as [r g]. simpl.
  split; [reflexivity |]. split; [reflexivity |].
  exists [EvTransform]. split; [reflexivity |]. split; [reflexivity |].
  apply Forall_cons_2; [reflexivity | apply Forall_nil_2].
Qed.

Lemma rng_local_bind {A B} (m : M A) (f : A -> M B) :
  rng_local m -> (forall a, rng_local (f a)) -> rng_local (m ≫= f).
Proof.
  intros Hm Hf w1 w2 Hg. unfold mbind, M_bind.
  destruct (Hm w1 w2 Hg) as (Hr & Hg' & evs & Ho1 & Ho2 & Hs).
  destruct (m w1) as [[a1 | e1] w1'], (m w2) as [[a2 | e2] w2']; simpl in *;
    try discriminate.
  - injection Hr as ->.
    destruct (Hf a2 w1' w2' Hg') as (Hr' & Hg'' & evs' & Ho1' & Ho2' & Hs').
    split; [exact Hr' |]. split; [exact Hg'' |].
    exists (evs ++ evs'). rewrite Ho1', Ho2', Ho1, Ho2, !app_assoc.
    split; [reflexivity |]. split; [reflexivity |].
    apply Forall_app. split; assumption.
  - injection Hr as ->. split; [reflexivity |]. split; [exact Hg' |].
    exists evs. split; [assumption |]. split; assumption.
Qed.

Lemma rng_local_for_each {A S} (body : A -> S -> M S) (xs : list A) (s : S) :
  (forall x s, rng_local (body x s)) -> rng_local (for_each body xs s).
Proof.
  intros Hb. revert s. induction xs as [| x xs IH]; intros s; simpl.
  - apply rng_local_ret.
  - apply rng_local_bind; [apply Hb | exact IH].
Qed.

Lemma rng_local_show_plane (p : result plane) (cmap title : string) :
  rng_local (show_plane p cmap title).
Proof.
  unfold show_plane.
  apply rng_local_bind; [apply rng_local_lift | intros q].
  repeat (apply rng_local_bind; [apply rng_local_emit; reflexivity | intros _]).
  apply rng_local_emit. reflexivity.
Qed.

Lemma rng_local_augment_sample (c : nat) (stacked : tensor) (vis : bool) (i : nat)
    (acc : option tensor * option tensor) :
  rng_local (augment_sample c stacked vis i acc).
Proof.
  unfold augment_sample. destruct acc as [af al].
  apply rng_local_bind; [apply rng_local_emit; reflexivity | intros _].
  apply rng_local_bind; [apply rng_local_lift | intros image].
  apply rng_local_bind; [apply rng_local_lift | intros mask].
  apply rng_local_bind; [apply rng_local_transform | intros [af' al']].
  apply rng_local_bind.
  { destruct vis; [| apply rng_local_ret].
    repeat (apply rng_local_bind; [apply rng_local_show_plane | intros _]).
    apply rng_local_show_plane. }
  intros _. destruct (Nat.eqb i 0); [apply rng_local_ret |].
  repeat (apply rng_local_bind; [apply rng_local_lift | intros ?]).
  apply rng_local_ret.
Qed.

Lemma bind_random_seed {B} (z : Z) (f : unit -> M B) (w : world) :
  (random_seed z ≫= f) w
  = f tt (World (torch_rng w) (np_rng w) (py_seed z) (fs w) (out w ++ [EvSeed z])).
Proof. reflexivity. Qed.

(** C7.  Two calls of [augmentation] on the same dataset give the same
    result from any two worlds.  A call that gets past the stacking seeds
    the generator with 7 once, before anything else it emits and never
    again, leaves the generator in the same state and emits the same
    events whatever the world it started from. *)
Theorem augmentation_seeds_once (d : dataset) (vis : bool) (w1 w2 : world) :
  fst (augmentation d vis w1) = fst (augmentation d vis w2) /\
  (returns (concatenate1 (tensors0 d) (tensors1 d)) = true ->
   py_rng (snd (augmentation d vis w1)) = py_rng (snd (augmentation d vis w2)) /\
   exists evs,
     out (snd (augmentation d vis w1)) = out w1 ++ EvSeed 7 :: evs /\
     out (snd (augmentation d vis w2)) = out w2 ++ EvSeed 7 :: evs /\
     Forall (fun e => is_seed e = false) evs).
Proof.
  unfold augmentation.
  destruct (concatenate1 (tensors0 d) (tensors1 d)) as [stacked | e];
    [| split; [reflexivity | discriminate]].
  rewrite !(bind_lift_ok (Ok stacked) stacked) by reflexivity.
  rewrite !bind_random_seed.
  match goal with
  | |- context [?f (World (torch_rng w1) (np_rng w1) (py_seed 7) (fs w1) _)] =>
      assert (Hrest : rng_local f)
  end.
  { apply rng_local_bind;
      [apply rng_local_for_each; intros; apply rng_local_augment_sample | intros [af al]].
    repeat (apply rng_local_bind; [apply rng_local_lift | intros ?]).
    apply rng_local_bind; [apply rng_local_emit; reflexivity | intros _].
    apply rng_local_lift. }
  destruct (Hrest (World (torch_rng w1) (np_rng w1) (py_seed 7) (fs w1) (out w1 ++ [EvSeed 7]))
                  (World (torch_rng w2) (np_rng w2) (py_seed 7) (fs w2) (out w2 ++ [EvSeed 7]))
                  eq_refl) as (Hr & Hg & evs & Ho1 & Ho2 & Hs).
  split; [exact Hr |]. intros _. split; [exact Hg |].
  exists evs. simpl out in Ho1, Ho2. rewrite <- !app_assoc in Ho1, Ho2.
  split; [exact Ho1 |]. split; [exact Ho2 | exact Hs].
Qed.

End RngLocal.

Section AugmentBasics.
Context `{Libs}.

(** C8.  On a dataset without samples [augmentation] raises: once the
    stacking succeeded the loop body never runs (the seeding is the only
    event) and the first accumulator is read unbound. *)
Theorem augmentation_empty (d : dataset) (vis : bool) (w : world) :
  t_len (tensors0 d) = 0%nat ->
  (exists e, fst (augmentation d vis w) = Raise e) /\
  (returns (concatenate1 (tensors0 d) (tensors1 d)) = true ->
   augmentation d vis w
   = (Raise (UnboundLocalError "augmented_all_features"),
      World (torch_rng w) (np_rng w) (py_seed 7) (fs w) (out w ++ [EvSeed 7]))).
Proof.
  intros Hn. unfold augmentation. rewrite Hn.
  destruct (concatenate1 (tensors0 d) (tensors1 d)) as [stacked | e].
  - rewrite (bind_lift_ok (Ok stacked) stacked) by reflexivity.
    rewrite bind_random_seed. simpl for_each. rewrite bind_mret. cbv beta iota.
    split; [eexists; reflexivity | intros _; reflexivity].
  - split; [exists e; reflexivity | discriminate].
Qed.

Lemma concatenate1_returns (a b : tensor) :
  returns (concatenate1 a b) = true <->
  t_len a = t_len b /\ snd (fst (t_dims a)) = snd (fst (t_dims b)) /\
  snd (t_dims a) = snd (t_dims b).
Proof.
  unfold concatenate1.
  destruct (t_dims a) as [[ca ha] wa], (t_dims b) as [[cb hb] wb]. simpl.
  destruct (decide (t_len a = t_len b /\ ha = hb /\ wa = wb)) as [Hy | Hn]; simpl.
  - split; [intros _; exact Hy | reflexivity].
  - split; [discriminate | intros Hy; contradiction].
Qed.

Lemma transformed_from_snoc (g : PyRng) (xs : list (array3 * array3)) (x : array3 * array3) :
  transformed_from g (xs ++ [x])
  = (fst (transformed_from g xs)
       ++ [fst (transformations (snd (transformed_from g xs)) (fst x) (snd x))],
     snd (transformations (snd (transformed_from g xs)) (fst x) (snd x))).
Proof.
  revert g. induction xs as [| [image mask] xs IH]; intros g; simpl.
  - destruct x as [image mask]. simpl.
    destruct (transformations g image mask) as [r g']. reflexivity.
  - destruct (transformations g image mask) as [r g']. rewrite IH.
    destruct (transformed_from g' xs) as [rs g'']. reflexivity.
Qed.

Lemma transformed_from_length (g : PyRng) (xs : list (array3 * array3)) :
  length (fst (transformed_from g xs)) = length xs.
Proof.
  revert g. induction xs as [| [image mask] xs IH]; intros g; simpl; [reflexivity |].
  destruct (transformations g image mask) as [r g']. specialize (IH g').
  destruct (transformed_from g' xs) as [rs g'']. simpl in *. congruence.
Qed.

Lemma transformed_from_shapes (g : PyRng) (xs : list (array3 * array3)) (di dm : dims3) :
  transform_keeps_shape ->
  Forall (fun x => a_dims (fst x) = di /\ a_dims (snd x) = dm /\
                   wf_array3 (fst x) /\ wf_array3 (snd x)) xs ->
  Forall (fun r => a_dims (fst r) = di /\ a_dims (snd r) = dm /\
                   wf_array3 (fst r) /\ wf_array3 (snd r))
         (fst (transformed_from g xs)).
Proof.
  intros Hshape Hxs. revert g.
  induction Hxs as [| [image mask] xs (Hdi & Hdm & Hwi & Hwm) _ IH]; intros g; simpl.
  - apply Forall_nil_2.
  - pose proof (Hshape g image mask) as (Ha & Hb & Hc & Hd).
    destruct (transformations g image mask) as [r g']. specialize (IH g').
    destruct (transformed_from g' xs) as [rs g'']. simpl in *.
    apply Forall_cons_2; [| exact IH].
    split; [congruence |]. split; [congruence |]. split; auto.
Qed.

Lemma show_plane_ok {B} (p : plane) (cmap title : string) (f : unit -> M B) (w : world) :
  (show_plane (Ok p) cmap title ≫= f) w
  = f tt (World (torch_rng w) (np_rng w) (py_rng w) (fs w)
            (out w ++ [EvImshow (PixF (concat p)) cmap; EvTitle title; EvColorbar; EvShow])).
Proof.
  unfold show_plane, mbind, M_bind, lift, emit. simpl. rewrite <- !app_assoc. reflexivity.
Qed.

Lemma bind_assoc {A B C} (m : M A) (g : A -> M B) (f : B -> M C) (w : world) :
  ((m ≫= g) ≫= f) w = (m ≫= (fun a => g a ≫= f)) w.
Proof.
  unfold mbind, M_bind. destruct (m w) as [[a | e] w']; reflexivity.
Qed.

(** The plots of one pass succeed where every plane they index exists. *)
Lemma plots_ok (stk : tensor) (i : nat) (img msk : array3) (vis : bool) :
  (vis = true ->
   returns (channel_at stk i 0) = true /\ returns (channel_at stk i 1) = true /\
   returns (channel_at stk i 2) = true /\ returns (plane_at img 0) = true /\
   returns (plane_at img 1) = true /\ returns (plane_at msk 0) = true) ->
  exists evs, forall B (f : unit -> M B) (w0 : world),
    ((if vis
      then
        _ ← show_plane (channel_at stk i 0) "jet" "Исходная матрица VH";
        _ ← show_plane (channel_at stk i 1) "jet" "Исходная матрица VV";
        _ ← show_plane (channel_at stk i 2) "Blues" "Исходная матрица label";
        _ ← show_plane (plane_at img 0) "jet" "Преобразованная матрица VH";
        _ ← show_plane (plane_at img 1) "jet" "Преобразованная матрица VV";
        show_plane (plane_at msk 0) "Blues" "Преобразованная матрица label"
      else mret tt) ≫= f) w0
    = f tt (World (torch_rng w0) (np_rng w0) (py_rng w0) (fs w0) (out w0 ++ evs)).
Proof.
  intros Hv. destruct vis.
  - destruct (Hv eq_refl) as (Hc0 & Hc1 & Hc2 & Hp0 & Hp1 & Hp2).
    destruct (channel_at stk i 0) as [p0 |]; [| discriminate].
    destruct (channel_at stk i 1) as [p1 |]; [| discriminate].
    destruct (channel_at stk i 2) as [p2 |]; [| discriminate].
    destruct (plane_at img 0) as [q0 |]; [| discriminate].
    destruct (plane_at img 1) as [q1 |]; [| discriminate].
    destruct (plane_at msk 0) as [q2 |]; [| discriminate].
    eexists. intros B f w0.
    repeat (rewrite bind_assoc, show_plane_ok). rewrite show_plane_ok.
    simpl. rewrite <- !app_assoc. reflexivity.
  - exists []. intros B f w0. rewrite bind_mret.
    destruct w0; simpl; rewrite app_nil_r; reflexivity.
Qed.

End AugmentBasics.

(** Steps over a pure call whose result reduces to a value. *)
Ltac lift_step :=
  match goal with
  | |- context [(lift ?r ≫= _) _] => rewrite (bind_lift_ok r _ _ _ eq_refl)
  end.

Section Augment.
Context `{Libs}.
Variables (d : dataset) (vis : bool) (C L Hh Ww : nat).

Hypothesis Hfd : t_dims (tensors0 d) = (C, Hh, Ww).
Hypothesis Htd : t_dims (tensors1 d) = (L, Hh, Ww).
Hypothesis Hlen : t_len (tensors0 d) = t_len (tensors1 d).
Hypothesis Hwf0 : wf_tensor (tensors0 d).
Hypothesis Hwf1 : wf_tensor (tensors1 d).
Hypothesis HL : (1 <= L)%nat.

Local Abbreviation stacked :=
  (Tensor ((C + L)%nat, Hh, Ww) (zip_with app (t_items (tensors0 d)) (t_items (tensors1 d)))).

Lemma stack_ok : concatenate1 (tensors0 d) (tensors1 d) = Ok stacked.
Proof.
  unfold concatenate1. rewrite Hfd, Htd.
  destruct (decide (t_len (tensors0 d) = t_len (tensors1 d) /\ Hh = Hh /\ Ww = Ww))
    as [_ | Hn]; [reflexivity | exfalso; apply Hn; auto].
Qed.

Lemma batch_of_snoc (dm : dims3) (xs : list array3) (x : array3) :
  batch_of dm (xs ++ [x]) = Some (Tensor dm (map a_planes xs ++ [a_planes x])).
Proof. destruct xs; simpl; rewrite ?map_app; reflexivity. Qed.

Lemma concatenate0_snoc (dm : dims3) (items : list (list plane)) (x : array3) :
  a_dims x = dm ->
  concatenate0 (Tensor dm items) (singleton_batch x) = Ok (Tensor dm (items ++ [a_planes x])).
Proof.
  intros Hx. unfold concatenate0, singleton_batch. simpl.
  rewrite Hx, decide_True by reflexivity. reflexivity.
Qed.

Lemma bind_transform {B} (image mask : array3) (f : array3 * array3 -> M B) (w : world) :
  (transform image mask ≫= f) w
  = f (fst (transformations (py_rng w) image mask))
      (World (torch_rng w) (np_rng w) (snd (transformations (py_rng w) image mask)) (fs w)
             (out w ++ [EvTransform])).
Proof.
  unfold transform, mbind, M_bind.
  destruct (transformations (py_rng w) image mask) as [r g]. reflexivity.
Qed.

Lemma sample_wf (i : nat) (fi li : list plane) :
  t_items (tensors0 d) !! i = Some fi -> t_items (tensors1 d) !! i = Some li ->
  wf_planes (C, Hh, Ww) fi /\ wf_planes (L, Hh, Ww) li.
Proof.
  intros Hf Hl. split.
  - rewrite <- Hfd. exact (proj1 (Forall_lookup _ _) Hwf0 i fi Hf).
  - rewrite <- Htd. exact (proj1 (Forall_lookup _ _) Hwf1 i li Hl).
Qed.

Lemma sample_input_eq (fi li : list plane) :
  sample_input d fi li = (Array3 (C, Hh, Ww) fi, Array3 (1%nat, Hh, Ww) (take 1 li)).
Proof. unfold sample_input. rewrite Hfd. reflexivity. Qed.

Lemma sample_input_wf (i : nat) (fi li : list plane) :
  t_items (tensors0 d) !! i = Some fi -> t_items (tensors1 d) !! i = Some li ->
  a_dims (fst (sample_input d fi li)) = (C, Hh, Ww) /\
  a_dims (snd (sample_input d fi li)) = (1%nat, Hh, Ww) /\
  wf_array3 (fst (sample_input d fi li)) /\ wf_array3 (snd (sample_input d fi li)).
Proof.
  intros Hf Hl. destruct (sample_wf i fi li Hf Hl) as [Hwf Hwl].
  rewrite sample_input_eq. simpl. split; [reflexivity |]. split; [reflexivity |].
  split; [exact Hwf |].
  unfold wf_array3. simpl. destruct Hwl as [Hll Hlp].
  destruct li as [| p li']; [simpl in Hll; lia |].
  simpl. split; [reflexivity |].
  apply Forall_cons_2; [| apply Forall_nil_2]. exact (Forall_inv Hlp).
Qed.

Lemma stacked_lookup (i : nat) (fi li : list plane) :
  t_items (tensors0 d) !! i = Some fi -> t_items (tensors1 d) !! i = Some li ->
  t_items stacked !! i = Some (fi ++ li).
Proof. intros Hf Hl. simpl. rewrite lookup_zip_with, Hf, Hl. reflexivity. Qed.

Lemma stacked_slice (i : nat) (fi li : list plane) :
  t_items (tensors0 d) !! i = Some fi -> t_items (tensors1 d) !! i = Some li ->
  slice_channels stacked i C = Ok (fst (sample_input d fi li)).
Proof.
  intros Hf Hl. destruct (sample_wf i fi li Hf Hl) as [[Hlf _] _].
  unfold slice_channels. rewrite (stacked_lookup i fi li Hf Hl). simpl t_dims. cbv iota.
  rewrite sample_input_eq. simpl fst.
  rewrite Nat.min_l by lia. rewrite <- Hlf at 2. rewrite take_app_length. reflexivity.
Qed.

Lemma stacked_mask (i : nat) (fi li : list plane) :
  t_items (tensors0 d) !! i = Some fi -> t_items (tensors1 d) !! i = Some li ->
  exists p, channel_at stacked i C = Ok p /\
            Array3 (1%nat, Hh, Ww) [p] = snd (sample_input d fi li).
Proof.
  intros Hf Hl. destruct (sample_wf i fi li Hf Hl) as [[Hlf _] [Hll _]].
  destruct li as [| p li']; [simpl in Hll; lia |].
  exists p. unfold channel_at. rewrite (stacked_lookup i fi _ Hf Hl).
  rewrite lookup_app_r by lia. rewrite Hlf, Nat.sub_diag. simpl.
  rewrite sample_input_eq. split; reflexivity.
Qed.

Lemma stacked_channel (i c : nat) (fi li : list plane) :
  t_items (tensors0 d) !! i = Some fi -> t_items (tensors1 d) !! i = Some li ->
  (c < C + L)%nat -> exists p, channel_at stacked i c = Ok p.
Proof.
  intros Hf Hl Hc. destruct (sample_wf i fi li Hf Hl) as [[Hlf _] [Hll _]].
  destruct (lookup_lt_is_Some_2 (fi ++ li) c) as [p Hp]; [rewrite length_app; lia |].
  exists p. unfold channel_at. rewrite (stacked_lookup i fi li Hf Hl), Hp. reflexivity.
Qed.

Lemma plane_at_wf (a : array3) (c c' h w' : nat) :
  wf_array3 a -> a_dims a = (c', h, w') -> (c < c')%nat -> exists p, plane_at a c = Ok p.
Proof.
  unfold wf_array3. intros Hwf Hd Hc. rewrite Hd in Hwf. destruct Hwf as [Hl _].
  destruct (lookup_lt_is_Some_2 (a_planes a) c) as [p Hp]; [lia |].
  exists p. unfold plane_at. rewrite Hp. reflexivity.
Qed.

Hypothesis Hvis : vis = false \/ (2 <= C)%nat.
Hypothesis Hshape : transform_keeps_shape.

(** One pass of the loop body, from the accumulators that hold the results
    for the samples before [i]. *)
Lemma augment_sample_step (i : nat) (fi li : list plane) (outs : list (array3 * array3))
    (w : world) :
  t_items (tensors0 d) !! i = Some fi -> t_items (tensors1 d) !! i = Some li ->
  length outs = i ->
  let r := transformations (py_rng w) (fst (sample_input d fi li))
                           (snd (sample_input d fi li)) in
  exists evs,
    augment_sample C stacked vis i
      (batch_of (C, Hh, Ww) (map fst outs), batch_of (1%nat, Hh, Ww) (map snd outs)) w
    = (Ok (batch_of (C, Hh, Ww) (map fst (outs ++ [fst r])),
           batch_of (1%nat, Hh, Ww) (map snd (outs ++ [fst r]))),
       World (torch_rng w) (np_rng w) (snd r) (fs w) (out w ++ evs)).
Proof.
  intros Hf Hl Hlen_outs r.
  destruct (sample_input_wf i fi li Hf Hl) as (Hdi & Hdm & Hwi & Hwm).
  pose proof (Hshape (py_rng w) (fst (sample_input d fi li)) (snd (sample_input d fi li)))
    as (Hsi & Hsm & Hswi & Hswm).
  fold r in Hsi, Hsm, Hswi, Hswm.
  specialize (Hswi Hwi). specialize (Hswm Hwm). rewrite Hdi in Hsi. rewrite Hdm in Hsm.
  destruct (stacked_mask i fi li Hf Hl) as (p & Hp & Hmask).
  unfold augment_sample.
  rewrite bind_emit.
  rewrite (bind_lift_ok _ _ _ _ (stacked_slice i fi li Hf Hl)).
  rewrite (bind_lift_ok _ _ _ _ Hp).
  cbn [t_dims fst snd]. rewrite Hmask.
  rewrite bind_transform. cbn [py_rng torch_rng np_rng fs out]. fold r.
  destruct r as [[img msk] g']. cbn [fst snd] in *.
  destruct (plots_ok stacked i img msk vis) as [evs Hplots].
  { intros Hvt. pose proof Hvis as [Hv | HC]; [congruence |].
    destruct (stacked_channel i 0 fi li Hf Hl ltac:(clear - HC; lia)) as [p0 ->].
    destruct (stacked_channel i 1 fi li Hf Hl ltac:(clear - HC HL; lia)) as [p1 ->].
    destruct (stacked_channel i 2 fi li Hf Hl ltac:(clear - HC HL; lia)) as [p2 ->].
    destruct (plane_at_wf img 0 _ _ _ Hswi Hsi ltac:(clear - HC; lia)) as [q0 ->].
    destruct (plane_at_wf img 1 _ _ _ Hswi Hsi ltac:(clear - HC; lia)) as [q1 ->].
    destruct (plane_at_wf msk 0 _ _ _ Hswm Hsm ltac:(lia)) as [q2 ->].
    repeat split. }
  rewrite Hplots. cbn [py_rng torch_rng np_rng fs out].
  exists ([EvPrint "{}" (Some i)] ++ [EvTransform] ++ evs). rewrite <- !app_assoc.
  destruct (Nat.eqb_spec i 0) as [Hi | Hi].
  - destruct outs as [| o outs']; [| simpl in Hlen_outs; lia].
    simpl. unfold singleton_batch. rewrite Hsi, Hsm. reflexivity.
  - destruct outs as [| o outs']; [simpl in Hlen_outs; lia |].
    rewrite !map_app. cbn [map fst snd].
    rewrite <- !app_comm_cons. cbn [batch_of].
    lift_step.
    rewrite (bind_lift_ok _ _ _ _ (concatenate0_snoc _ _ img Hsi)).
    lift_step.
    rewrite (bind_lift_ok _ _ _ _ (concatenate0_snoc _ _ msk Hsm)).
    cbn [map]. rewrite !map_app. reflexivity.
Qed.

Lemma sample_inputs_lookup (i : nat) (fi li : list plane) :
  t_items (tensors0 d) !! i = Some fi -> t_items (tensors1 d) !! i = Some li ->
  sample_inputs d !! i = Some (sample_input d fi li).
Proof.
  intros Hf Hl. unfold sample_inputs. rewrite lookup_zip_with, Hf, Hl. reflexivity.
Qed.

Lemma sample_inputs_length : length (sample_inputs d) = t_len (tensors0 d).
Proof.
  unfold sample_inputs. rewrite length_zip_with. unfold t_len in Hlen. unfold t_len. lia.
Qed.

(** The loop over the first [j] samples. *)
Lemma augment_loop (j : nat) (w : world) :
  (j <= t_len (tensors0 d))%nat ->
  exists evs,
    for_each (augment_sample C stacked vis) (seq 0 j) (None, None) w
    = (Ok (batch_of (C, Hh, Ww)
             (map fst (fst (transformed_from (py_rng w) (take j (sample_inputs d))))),
           batch_of (1%nat, Hh, Ww)
             (map snd (fst (transformed_from (py_rng w) (take j (sample_inputs d)))))),
       World (torch_rng w) (np_rng w)
             (snd (transformed_from (py_rng w) (take j (sample_inputs d))))
             (fs w) (out w ++ evs)).
Proof.
  induction j as [| j IH]; intros Hj.
  - exists []. simpl. destruct w; simpl; rewrite app_nil_r; reflexivity.
  - destruct IH as [evs IH]; [lia |].
    destruct (lookup_lt_is_Some_2 (t_items (tensors0 d)) j) as [fi Hf];
      [unfold t_len in Hj; lia |].
    destruct (lookup_lt_is_Some_2 (t_items (tensors1 d)) j) as [li Hl];
      [unfold t_len in Hj, Hlen; lia |].
    rewrite (take_S_r _ _ _ (sample_inputs_lookup j fi li Hf Hl)).
    rewrite transformed_from_snoc. cbn [fst snd].
    rewrite (List.seq_S j 0). simpl Nat.add.
    rewrite (for_each_snoc _ _ _ _ _ _ _ IH).
    destruct (augment_sample_step j fi li
                (fst (transformed_from (py_rng w) (take j (sample_inputs d))))
                (World (torch_rng w) (np_rng w)
                   (snd (transformed_from (py_rng w) (take j (sample_inputs d))))
                   (fs w) (out w ++ evs)) Hf Hl) as [evs' Hstep].
    { rewrite transformed_from_length, length_take, sample_inputs_length. lia. }
    cbn [py_rng torch_rng np_rng fs out] in Hstep.
    exists (evs ++ evs'). rewrite Hstep, <- app_assoc. reflexivity.
Qed.

Lemma concatenate0_ok (a b : tensor) :
  t_dims a = t_dims b -> concatenate0 a b = Ok (Tensor (t_dims a) (t_items a ++ t_items b)).
Proof. intros Hab. unfold concatenate0. rewrite decide_True by exact Hab. reflexivity. Qed.

Lemma batch_of_cons (dm : dims3) (xs : list array3) :
  xs <> [] -> batch_of dm xs = Some (Tensor dm (map a_planes xs)).
Proof. destruct xs; [congruence | reflexivity]. Qed.

(** The whole call on a dataset that is not empty: it returns the doubled
    dataset where the labels have one channel and fails at the last
    concatenation otherwise. *)
Lemma augmentation_run (w : world) :
  (1 <= t_len (tensors0 d))%nat ->
  exists evs,
    augmentation d vis w
    = (if decide (L = 1%nat)
       then Ok (Dataset
                  (Tensor (t_dims (tensors0 d))
                     (t_items (tensors0 d)
                      ++ map a_planes
                           (map fst (fst (transformed_from (py_seed 7) (sample_inputs d))))))
                  (Tensor (t_dims (tensors1 d))
                     (t_items (tensors1 d)
                      ++ map a_planes
                           (map snd (fst (transformed_from (py_seed 7) (sample_inputs d)))))))
       else Raise (ValueError msg_concat),
       World (torch_rng w) (np_rng w)
             (snd (transformed_from (py_seed 7) (sample_inputs d)))
             (fs w) (out w ++ EvSeed 7 :: evs)).
Proof.
  intros Hn. unfold augmentation.
  rewrite (bind_lift_ok _ _ _ _ stack_ok), bind_random_seed.
  rewrite Hfd. cbn [fst].
  destruct (augment_loop (t_len (tensors0 d))
              (World (torch_rng w) (np_rng w) (py_seed 7) (fs w) (out w ++ [EvSeed 7]))
              (Nat.le_refl _)) as [evs Hloop].
  cbn [py_rng torch_rng np_rng fs out] in Hloop.
  rewrite (take_ge (sample_inputs d)) in Hloop by (rewrite sample_inputs_length; lia).
  rewrite (bind_ok _ _ _ _ _ Hloop). cbv beta iota.
  set (outs := fst (transformed_from (py_seed 7) (sample_inputs d))) in *.
  assert (Hlo : length outs = t_len (tensors0 d)).
  { unfold outs. rewrite transformed_from_length. apply sample_inputs_length. }
  assert (Hne1 : map fst outs <> []) by (destruct outs; [simpl in Hlo; lia | discriminate]).
  assert (Hne2 : map snd outs <> []) by (destruct outs; [simpl in Hlo; lia | discriminate]).
  rewrite (batch_of_cons _ _ Hne1), (batch_of_cons _ _ Hne2).
  lift_step.
  rewrite (bind_lift_ok _ _ _ _ (concatenate0_ok (tensors0 d) (Tensor (C, Hh, Ww) _) Hfd)).
  lift_step. cbn [t_items].
  unfold concatenate0 at 1. cbn [t_dims t_items]. rewrite Htd.
  destruct (decide (L = 1%nat)) as [HL1 | HL1].
  - rewrite decide_True by (rewrite HL1; reflexivity).
    lift_step. rewrite bind_emit.
    unfold lift. rewrite tensor_dataset_ok.
    + exists (evs ++ [EvPrint "Augmentation finished" None]).
      cbn [py_rng torch_rng np_rng fs out]. rewrite ?Hfd, ?Htd, <- !app_assoc. reflexivity.
    + unfold t_len. cbn [t_items]. rewrite !length_app, !length_map.
      unfold t_len in Hlen. lia.
  - rewrite decide_False by congruence.
    exists evs. unfold mbind, M_bind, lift. rewrite <- app_assoc. reflexivity.
Qed.

Lemma sample_inputs_wf :
  Forall (fun x => a_dims (fst x) = (C, Hh, Ww) /\ a_dims (snd x) = (1%nat, Hh, Ww) /\
                   wf_array3 (fst x) /\ wf_array3 (snd x)) (sample_inputs d).
Proof.
  apply Forall_lookup. intros i x Hx. unfold sample_inputs in Hx.
  apply lookup_zip_with_Some in Hx as (fi & li & -> & Hf & Hl).
  exact (sample_input_wf i fi li Hf Hl).
Qed.

Lemma transformed_wf :
  Forall (fun r => a_dims (fst r) = (C, Hh, Ww) /\ a_dims (snd r) = (1%nat, Hh, Ww) /\
                   wf_array3 (fst r) /\ wf_array3 (snd r))
         (fst (transformed_from (py_seed 7) (sample_inputs d))).
Proof. apply transformed_from_shapes; [exact Hshape | exact sample_inputs_wf]. Qed.

Lemma augmentation_doubles_at (w : world) :
  L = 1%nat ->
  (1 <= t_len (tensors0 d))%nat ->
  exists res w',
    augmentation d vis w = (Ok res, w') /\
    let n := t_len (tensors0 d) in
    let outs := fst (transformed_from (py_seed 7) (sample_inputs d)) in
    ds_len res = (2 * n)%nat /\ t_len (tensors1 res) = (2 * n)%nat /\
    take n (t_items (tensors0 res)) = t_items (tensors0 d) /\
    take n (t_items (tensors1 res)) = t_items (tensors1 d) /\
    length outs = n /\
    drop n (t_items (tensors0 res)) = map a_planes (map fst outs) /\
    drop n (t_items (tensors1 res)) = map a_planes (map snd outs) /\
    t_dims (tensors0 res) = t_dims (tensors0 d) /\
    t_dims (tensors1 res) = t_dims (tensors1 d) /\
    wf_tensor (tensors0 res) /\ wf_tensor (tensors1 res).
Proof.
  intros HL1 Hn. destruct (augmentation_run w Hn) as [evs Hrun].
  rewrite decide_True in Hrun by exact HL1.
  eexists _, _. split; [exact Hrun |]. cbv zeta.
  set (outs := fst (transformed_from (py_seed 7) (sample_inputs d))).
  assert (Hlo : length outs = t_len (tensors0 d)).
  { unfold outs. rewrite transformed_from_length. apply sample_inputs_length. }
  pose proof transformed_wf as Hwf. fold outs in Hwf.
  unfold ds_len, t_len in *. cbn [tensors0 tensors1 t_items t_dims].
  split; [rewrite length_app, !length_map; lia |].
  split; [rewrite length_app, !length_map; lia |].
  split; [apply take_app_length |].
  split; [rewrite Hlen; apply take_app_length |].
  split; [exact Hlo |].
  split; [apply drop_app_length |].
  split; [rewrite Hlen; apply drop_app_length |].
  split; [reflexivity |]. split; [reflexivity |].
  split.
  - unfold wf_tensor. cbn [t_dims t_items]. apply Forall_app. split; [exact Hwf0 |].
    rewrite Hfd. apply List.Forall_map, List.Forall_map.
    eapply Forall_impl; [exact Hwf |].
    intros r (Hd & _ & Hw & _). unfold wf_array3 in Hw. rewrite Hd in Hw. exact Hw.
  - unfold wf_tensor. cbn [t_dims t_items]. apply Forall_app. split; [exact Hwf1 |].
    rewrite Htd, HL1. apply List.Forall_map, List.Forall_map.
    eapply Forall_impl; [exact Hwf |].
    intros r (_ & Hd & _ & Hw). unfold wf_array3 in Hw. rewrite Hd in Hw. exact Hw.
Qed.

End Augment.

Section Preconditions.
Context `{Libs}.

Lemma bind_inv_ok {A B} (m : M A) (f : A -> M B) (w w' : world) (b : B) :
  (m ≫= f) w = (Ok b, w') -> exists a w1, m w = (Ok a, w1) /\ f a w1 = (Ok b, w').
Proof.
  unfold mbind, M_bind. destruct (m w) as [[a | e] w1]; [| discriminate].
  intros Hf. exists a, w1. split; [reflexivity | exact Hf].
Qed.

Lemma lift_inv_ok {A} (r : result A) (a : A) (w w' : world) :
  lift r w = (Ok a, w') -> r = Ok a.
Proof. unfold lift. intros [= -> _]. reflexivity. Qed.

Lemma for_each_invariant {A S} (P : S -> Prop) (body : A -> S -> M S) (xs : list A) :
  (forall x s w s' w', P s -> body x s w = (Ok s', w') -> P s') ->
  forall s w s' w', P s -> for_each body xs s w = (Ok s', w') -> P s'.
Proof.
  intros Hbody. induction xs as [| x xs IH]; intros s w s' w' Hs Hrun; simpl in Hrun.
  - injection Hrun as <- _. exact Hs.
  - apply bind_inv_ok in Hrun as (s1 & w1 & Hx & Hrest).
    exact (IH s1 w1 s' w' (Hbody x s w s1 w1 Hs Hx) Hrest).
Qed.

Lemma concatenate0_inv (a b c : tensor) :
  concatenate0 a b = Ok c -> t_dims a = t_dims b /\ t_dims c = t_dims a.
Proof.
  unfold concatenate0. destruct (decide (t_dims a = t_dims b)) as [Hab |]; [| discriminate].
  intros [= <-]. split; [exact Hab | reflexivity].
Qed.

Lemma local_inv {A} (name : string) (v : option A) (a : A) : local name v = Ok a -> v = Some a.
Proof. destruct v; simpl; congruence. Qed.

Lemma augment_sample_one_label (c : nat) (stk : tensor) (vis : bool) (i : nat)
    (acc acc' : option tensor * option tensor) (w w' : world) :
  transform_keeps_shape ->
  one_label_channel acc ->
  augment_sample c stk vis i acc w = (Ok acc', w') ->
  one_label_channel acc'.
Proof.
  intros Hshape Hacc Hrun. unfold augment_sample in Hrun. destruct acc as [af al].
  apply bind_inv_ok in Hrun as ([] & w1 & _ & Hrun).
  apply bind_inv_ok in Hrun as (image & w2 & _ & Hrun).
  apply bind_inv_ok in Hrun as (p & w3 & _ & Hrun).
  apply bind_inv_ok in Hrun as ([img msk] & w4 & Htr & Hrun).
  assert (Hmsk : fst (fst (a_dims msk)) = 1%nat).
  { unfold transform in Htr.
    pose proof (Hshape (py_rng w3) image
                  (Array3 (1%nat, snd (fst (t_dims stk)), snd (t_dims stk)) [p]))
      as (_ & Hm & _).
    destruct (transformations (py_rng w3) image _) as [r g].
    injection Htr as -> _. simpl in Hm. rewrite Hm. reflexivity. }
  apply bind_inv_ok in Hrun as ([] & w5 & _ & Hrun).
  destruct (Nat.eqb i 0).
  - injection Hrun as <- _. intros x [= <-]. exact Hmsk.
  - apply bind_inv_ok in Hrun as (f1 & w6 & _ & Hrun).
    apply bind_inv_ok in Hrun as (f2 & w7 & _ & Hrun).
    apply bind_inv_ok in Hrun as (l1 & w8 & Hl1 & Hrun).
    apply bind_inv_ok in Hrun as (l2 & w9 & Hl2 & Hrun).
    injection Hrun as <- _. intros x [= <-].
    apply lift_inv_ok, local_inv in Hl1. apply lift_inv_ok, concatenate0_inv in Hl2 as [_ ->].
    exact (Hacc l1 Hl1).
Qed.

Lemma augmentation_returns_inv (d : dataset) (vis : bool) (w w' : world) (res : dataset) :
  transform_keeps_shape ->
  augmentation d vis w = (Ok res, w') ->
  fst (fst (t_dims (tensors1 d))) = 1%nat /\ (1 <= t_len (tensors0 d))%nat.
Proof.
  intros Hshape Hrun. unfold augmentation in Hrun.
  apply bind_inv_ok in Hrun as (stk & w1 & _ & Hrun).
  apply bind_inv_ok in Hrun as ([] & w2 & _ & Hrun).
  apply bind_inv_ok in Hrun as ([af al] & w3 & Hloop & Hrun).
  apply bind_inv_ok in Hrun as (f1 & w4 & Hf1 & Hrun).
  apply bind_inv_ok in Hrun as (f2 & w5 & _ & Hrun).
  apply bind_inv_ok in Hrun as (l1 & w6 & Hl1 & Hrun).
  apply bind_inv_ok in Hrun as (l2 & w7 & Hl2 & Hrun).
  apply lift_inv_ok, local_inv in Hf1. apply lift_inv_ok, local_inv in Hl1.
  apply lift_inv_ok, concatenate0_inv in Hl2 as [Hdims _].
  split.
  - rewrite Hdims.
    assert (Hone : one_label_channel (af, al)).
    { eapply for_each_invariant; [| | exact Hloop].
      - intros x s w0 s' w0' Hs Hb.
        exact (augment_sample_one_label _ _ _ _ _ _ _ _ Hshape Hs Hb).
      - intros x Hx. discriminate Hx. }
    exact (Hone l1 Hl1).
  - destruct (t_len (tensors0 d)) as [| n]; [| lia].
    simpl in Hloop. unfold mret, M_ret in Hloop.
    injection Hloop as <- _ _. discriminate Hf1.
Qed.

End Preconditions.

Section Guard.
Context `{Libs}.

Lemma bind_inv_raise {A B} (m : M A) (f : A -> M B) (w w' : world) (e : exn) :
  (m ≫= f) w = (Raise e, w') ->
  m w = (Raise e, w') \/ exists a w1, m w = (Ok a, w1) /\ f a w1 = (Raise e, w').
Proof.
  unfold mbind, M_bind. destruct (m w) as [[a | e1] w1]; intros Hf.
  - right. exists a, w1. split; [reflexivity | exact Hf].
  - left. injection Hf as -> ->. reflexivity.
Qed.

Lemma lift_inv_raise {A} (r : result A) (e : exn) (w w' : world) :
  lift r w = (Raise e, w') -> r = Raise e.
Proof. unfold lift. intros [= -> _]. reflexivity. Qed.

Lemma tensor_dataset_raises (x y : tensor) (e : exn) :
  tensor_dataset x y = Raise e -> e = AssertionError.
Proof. unfold tensor_dataset. destruct (Nat.eqb _ _); congruence. Qed.

Lemma int_mul_raises (n : Z) (r : PyFloat.float) (e : exn) :
  PyFloat.int_mul n r = Raise e -> e = OverflowError.
Proof.
  unfold PyFloat.int_mul, PyFloat.of_int.
  destruct (binary_normalize PyFloat.prec PyFloat.emax n 0 false); simpl; congruence.
Qed.

Lemma round_raises (p : PyFloat.float) (e : exn) :
  PyFloat.round p = Raise e -> e = OverflowError \/ e = ValueError PyFloat.nan_msg.
Proof. destruct p; simpl; intros [= <-]; auto. Qed.

Lemma random_split_raises (d : dataset) (a b : Z) (w w' : world) (e : exn) :
  random_split d a b w = (Raise e, w') -> e = ValueError msg_split.
Proof.
  unfold random_split. destruct (a + b =? Z.of_nat (ds_len d)).
  - destruct (randperm (torch_rng w) (Z.to_nat (a + b))). discriminate.
  - intros [= <- _]. reflexivity.
Qed.

Lemma select_rows_raises {A} (rows : list A) (indices : list nat) (e : exn) :
  select_rows rows indices = Raise e -> e = IndexError.
Proof.
  induction indices as [| i rest IH]; simpl; [discriminate |].
  destruct (rows !! i); [| congruence].
  destruct (select_rows rows rest); simpl; [discriminate |].
  intros [= <-]. apply IH. reflexivity.
Qed.

Lemma dataset_getitem_raises (d : dataset) (indices : list nat) (e : exn) :
  dataset_getitem d indices = Raise e -> e = IndexError.
Proof.
  unfold dataset_getitem, tensor_index.
  destruct (select_rows (t_items (tensors0 d)) indices) eqn:Hs0; simpl.
  - destruct (select_rows (t_items (tensors1 d)) indices) eqn:Hs1; simpl; [discriminate |].
    intros [= <-]. exact (select_rows_raises _ _ _ Hs1).
  - intros [= <-]. exact (select_rows_raises _ _ _ Hs0).
Qed.

(** Past its guard, [train_test] raises none but these. *)
Lemma train_test_raises (x y : tensor) (r : PyFloat.float) (w w' : world) (e : exn) :
  PyFloat.ltb r PyFloat.lit_0_1 || PyFloat.ltb PyFloat.lit_0_99 r = false ->
  train_test x y r w = (Raise e, w') ->
  e = AssertionError \/ e = OverflowError \/ e = ValueError PyFloat.nan_msg \/
  e = ValueError msg_split \/ e = IndexError.
Proof.
  intros Hg Hrun. unfold train_test in Hrun. rewrite Hg in Hrun.
  apply bind_inv_raise in Hrun as [Hr | (d & w1 & _ & Hrun)];
    [apply lift_inv_raise, tensor_dataset_raises in Hr; auto |].
  apply bind_inv_raise in Hrun as [Hr | (p & w2 & _ & Hrun)];
    [apply lift_inv_raise, int_mul_raises in Hr; auto |].
  apply bind_inv_raise in Hrun as [Hr | (k & w3 & _ & Hrun)];
    [apply lift_inv_raise, round_raises in Hr as [-> | ->]; auto |].
  apply bind_inv_raise in Hrun as [Hr | ([tr te] & w4 & _ & Hrun)];
    [apply random_split_raises in Hr; auto |].
  apply bind_inv_raise in Hrun as [Hr | ([a1 b1] & w5 & _ & Hrun)];
    [apply lift_inv_raise, dataset_getitem_raises in Hr; auto 6 |].
  apply bind_inv_raise in Hrun as [Hr | ([a2 b2] & w6 & _ & Hrun)];
    [apply lift_inv_raise, dataset_getitem_raises in Hr; auto 6 |].
  apply bind_inv_raise in Hrun as [Hr | (d1 & w7 & _ & Hrun)];
    [apply lift_inv_raise, tensor_dataset_raises in Hr; auto |].
  apply bind_inv_raise in Hrun as [Hr | (d2 & w8 & _ & Hrun)];
    [apply lift_inv_raise, tensor_dataset_raises in Hr; auto |].
  discriminate Hrun.
Qed.

(** C2, as amended.  [train_test] raises its descriptive [ValueError]
    exactly for a [train_size] below 0.1 or above 0.99, and then before
    anything else happens; both bounds are accepted, 0.05 and 1.0 are
    rejected. *)
Theorem train_test_guard (x y : tensor) (r : PyFloat.float) (w : world) :
  (PyFloat.ltb r PyFloat.lit_0_1 || PyFloat.ltb PyFloat.lit_0_99 r = true ->
   train_test x y r w = (Raise (ValueError msg_train_size), w)) /\
  (PyFloat.ltb r PyFloat.lit_0_1 || PyFloat.ltb PyFloat.lit_0_99 r = false ->
   fst (train_test x y r w) <> Raise (ValueError msg_train_size)) /\
  (forall r0, In r0 [PyFloat.lit_0_05; PyFloat.lit_1_0] ->
     PyFloat.ltb r0 PyFloat.lit_0_1 || PyFloat.ltb PyFloat.lit_0_99 r0 = true) /\
  (forall r0, In r0 [PyFloat.lit_0_1; PyFloat.lit_0_99] ->
     PyFloat.ltb r0 PyFloat.lit_0_1 || PyFloat.ltb PyFloat.lit_0_99 r0 = false).
Proof.
  split; [| split; [| split]].
  - intros Hg. unfold train_test. rewrite Hg. reflexivity.
  - intros Hg Hrun.
    destruct (train_test x y r w) as [res w'] eqn:Htt. simpl in Hrun. subst res.
    apply (train_test_raises _ _ _ _ _ _ Hg) in Htt
      as [He | [He | [He | [He | He]]]]; discriminate He.
  - intros r0 [<- | [<- | []]]; vm_compute; reflexivity.
  - intros r0 [<- | [<- | []]]; vm_compute; reflexivity.
Qed.

End Guard.

Section AugmentClaims.
Context `{Libs}.

(** C3.  On a paired dataset of [n >= 1] samples with one-channel labels,
    [augmentation] returns a dataset of [2 n] samples: the first [n] are the
    input samples in order, the last [n] the transformed copies in order,
    each transformed from the generator state its predecessor left, and
    both tensors keep their channel and spatial dimensions. *)
Theorem augmentation_doubles (d : dataset) (vis : bool) (C Hh Ww : nat) (w : world) :
  t_dims (tensors0 d) = (C, Hh, Ww) ->
  t_dims (tensors1 d) = (1%nat, Hh, Ww) ->
  t_len (tensors0 d) = t_len (tensors1 d) ->
  wf_tensor (tensors0 d) ->
  wf_tensor (tensors1 d) ->
  vis = false \/ (2 <= C)%nat ->
  transform_keeps_shape ->
  (1 <= t_len (tensors0 d))%nat ->
  exists res w',
    augmentation d vis w = (Ok res, w') /\
    let n := t_len (tensors0 d) in
    let outs := fst (transformed_from (py_seed 7) (sample_inputs d)) in
    ds_len res = (2 * n)%nat /\ t_len (tensors1 res) = (2 * n)%nat /\
    take n (t_items (tensors0 res)) = t_items (tensors0 d) /\
    take n (t_items (tensors1 res)) = t_items (tensors1 d) /\
    length outs = n /\
    drop n (t_items (tensors0 res)) = map a_planes (map fst outs) /\
    drop n (t_items (tensors1 res)) = map a_planes (map snd outs) /\
    t_dims (tensors0 res) = t_dims (tensors0 d) /\
    t_dims (tensors1 res) = t_dims (tensors1 d) /\
    wf_tensor (tensors0 res) /\ wf_tensor (tensors1 res).
Proof.
  intros Hfd Htd Hlen Hwf0 Hwf1 Hvis Hshape Hn.
  exact (augmentation_doubles_at d vis C 1 Hh Ww Hfd Htd Hlen Hwf0 Hwf1
           (Nat.le_refl 1) Hvis Hshape w eq_refl Hn).
Qed.

(** C10.  Every transformed label has one channel, so [augmentation]
    returns only where the label tensor has one channel; on a well-formed
    dataset with more label channels it fails with the [ValueError] of the
    last concatenation. *)
Theorem augmentation_one_label_channel (d : dataset) (vis : bool) (w : world) :
  transform_keeps_shape ->
  (forall res w', augmentation d vis w = (Ok res, w') ->
     fst (fst (t_dims (tensors1 d))) = 1%nat) /\
  (forall C L Hh Ww,
     t_dims (tensors0 d) = (C, Hh, Ww) ->
     t_dims (tensors1 d) = (L, Hh, Ww) ->
     t_len (tensors0 d) = t_len (tensors1 d) ->
     wf_tensor (tensors0 d) ->
     wf_tensor (tensors1 d) ->
     vis = false \/ (2 <= C)%nat ->
     (1 <= t_len (tensors0 d))%nat ->
     (2 <= L)%nat ->
     Forall (fun r => fst (fst (a_dims (snd r))) = 1%nat)
            (fst (transformed_from (py_seed 7) (sample_inputs d))) /\
     fst (augmentation d vis w) = Raise (ValueError msg_concat)).
Proof.
  intros Hshape. split.
  - intros res w' Hrun.
    exact (proj1 (augmentation_returns_inv d vis w w' res Hshape Hrun)).
  - intros C L Hh Ww Hfd Htd Hlen Hwf0 Hwf1 Hvis Hn HL. split.
    + eapply Forall_impl;
        [exact (transformed_wf d C L Hh Ww Hfd Htd Hlen Hwf0 Hwf1 ltac:(lia) Hshape) |].
      intros r (_ & Hd & _). rewrite Hd. reflexivity.
    + destruct (augmentation_run d vis C L Hh Ww Hfd Htd Hlen Hwf0 Hwf1 ltac:(lia)
                  Hvis Hshape w Hn) as [evs Hrun].
      rewrite Hrun, decide_False by lia. reflexivity.
Qed.

End AugmentClaims.

(** ** The properties on the small instance *)

Section OnDemo.

#[local] Existing Instance Demo.types.
#[local] Existing Instance Demo.libs.

Lemma demo_randperm_permutes : randperm_permutes.
Proof. intros g n. simpl. symmetry. apply Permutation_rev. Qed.

Lemma demo_train_run_keeps_lrs : train_run_keeps_lrs.
Proof. intros m o mt d bs. reflexivity. Qed.

Lemma demo_flip_wf (a : array3) : wf_array3 a -> wf_array3 (Demo.flip a).
Proof.
  unfold wf_array3, Demo.flip. simpl. destruct (a_dims a) as [[c h] w0].
  intros [Hl Hp]. split; [rewrite length_map; exact Hl |].
  apply List.Forall_map. eapply Forall_impl; [exact Hp |].
  intros p [Hlp Hrows]. split; [rewrite length_rev; exact Hlp |].
  apply Forall_rev. exact Hrows.
Qed.

Lemma demo_transform_keeps_shape : transform_keeps_shape.
Proof.
  intros g image mask. simpl.
  split; [reflexivity |]. split; [reflexivity |]. split; apply demo_flip_wf.
Qed.

Ltac demo_wf :=
  repeat first [apply Forall_nil_2 | apply Forall_cons_2 | split | reflexivity].

Lemma demo_x_wf : wf_tensor Demo.x.
Proof. unfold wf_tensor. demo_wf. Qed.

Lemma demo_y_wf : wf_tensor Demo.y.
Proof. unfold wf_tensor. demo_wf. Qed.

Lemma demo_y2_wf : wf_tensor Demo.y2.
Proof. unfold wf_tensor. demo_wf. Qed.

Lemma train_test_partition_witness :
  (PyFloat.ltb PyFloat.lit_0_1 PyFloat.lit_0_5 = true /\
   PyFloat.ltb PyFloat.lit_0_5 PyFloat.lit_0_99 = true) /\
  exists k train test w',
    (p ← PyFloat.int_mul 4 PyFloat.lit_0_5; PyFloat.round p) = Ok (Z.of_nat k) /\
    train_test Demo.x Demo.y PyFloat.lit_0_5 Demo.world0 = (Ok (train, test), w') /\
    ds_len train = k.
Proof.
  split; [split; reflexivity |].
  destruct (train_test_partition Demo.x Demo.y PyFloat.lit_0_5 Demo.world0)
    as (k & train & test & w' & Hk & Hrun & _ & _ & _ & Hlen & _).
  - exact demo_randperm_permutes.
  - reflexivity.
  - reflexivity.
  - reflexivity.
  - reflexivity.
  - reflexivity.
  - exists k, train, test, w'. split; [exact Hk |]. split; [exact Hrun | exact Hlen].
Defined.

Lemma train_test_guard_witness :
  train_test Demo.x Demo.y PyFloat.lit_0_05 Demo.world0
  = (Raise (ValueError msg_train_size), Demo.world0).
Proof.
  apply (proj1 (train_test_guard Demo.x Demo.y PyFloat.lit_0_05 Demo.world0)).
  reflexivity.
Defined.

(** 0.1 is not inside the open interval (0.1, 0.99), and [train_test]
    accepts it: it returns the split. *)
Lemma train_test_guard_counterexample :
  ~ (PyFloat.ltb PyFloat.lit_0_1 PyFloat.lit_0_1 && PyFloat.ltb PyFloat.lit_0_1 PyFloat.lit_0_99
     = false ->
     fst (train_test Demo.x Demo.y PyFloat.lit_0_1 Demo.world0)
     = Raise (ValueError msg_train_size)).
Proof.
  intros Hclaim. specialize (Hclaim eq_refl).
  assert (Hret : returns (fst (train_test Demo.x Demo.y PyFloat.lit_0_1 Demo.world0)) = true)
    by (vm_compute; reflexivity).
  rewrite Hclaim in Hret. discriminate Hret.
Qed.

Lemma binarize_spec_witness :
  binarize (Some PyFloat.lit_0_5) [PyFloat.lit_0_7; PyFloat.lit_0_1]
  = PixF [PyFloat.lit_1_0; PyFloat.zero].
Proof.
  destruct (binarize_spec PyFloat.lit_0_5 [PyFloat.lit_0_7; PyFloat.lit_0_1])
    as [(px & Hpx & Hlen & Hv) _]; [reflexivity | reflexivity |].
  rewrite Hpx. f_equal.
  destruct (Hv 0%nat PyFloat.lit_0_7 eq_refl) as [H1 _].
  destruct (Hv 1%nat PyFloat.lit_0_1 eq_refl) as [_ H0].
  specialize (H1 eq_refl). specialize (H0 eq_refl).
  destruct px as [| a [| b [| c px]]]; try discriminate Hlen.
  simpl in H1, H0. congruence.
Defined.

(** Without a threshold 0.7 becomes 0, where rounding gives 1; with the
    threshold -0.5 the value -1.0, which is below it, becomes 1. *)
Lemma binarize_counterexample :
  ~ ((forall k, PyFloat.round PyFloat.lit_0_7 = Ok k ->
        binarize None [PyFloat.lit_0_7] = PixU8 [Some k]) /\
     (PyFloat.ltb Demo.lit_m1_0 Demo.lit_m0_5 = true ->
        binarize (Some Demo.lit_m0_5) [Demo.lit_m1_0] = PixF [PyFloat.zero])).
Proof.
  intros [Hround _]. specialize (Hround 1 eq_refl).
  vm_compute in Hround. discriminate Hround.
Qed.

Example binarize_negative_threshold :
  binarize (Some Demo.lit_m0_5) [Demo.lit_m1_0] = PixF [PyFloat.lit_1_0].
Proof. vm_compute. reflexivity. Qed.

(** The comparison is in float32.  The float32 number nearest to 0.7 is
    below 0.7, yet a pixel that holds it is at the threshold 0.7 and becomes
    1.  A positive threshold too small for float32 is 0 there, and -1.0,
    which is below it, ends as 1. *)
Example binarize_compares_in_float32 :
  PyFloat.ltb (PyFloat.to_float32 PyFloat.lit_0_7) PyFloat.lit_0_7 = true /\
  binarize (Some PyFloat.lit_0_7) [PyFloat.to_float32 PyFloat.lit_0_7]
  = PixF [PyFloat.lit_1_0] /\
  PyFloat.ltb PyFloat.zero Demo.lit_tiny = true /\
  PyFloat.to_float32 Demo.lit_tiny = PyFloat.zero /\
  binarize (Some Demo.lit_tiny) [Demo.lit_m1_0] = PixF [PyFloat.lit_1_0].
Proof. vm_compute. repeat split; reflexivity. Qed.

Lemma augmentation_doubles_witness :
  exists res w',
    augmentation Demo.data false Demo.world0 = (Ok res, w') /\
    ds_len res = 8%nat /\
    take 4 (t_items (tensors0 res)) = t_items Demo.x.
Proof.
  destruct (augmentation_doubles Demo.data false 2 1 2 Demo.world0)
    as (res & w' & Hrun & Hlen & _ & Hfirst & _).
  - reflexivity.
  - reflexivity.
  - reflexivity.
  - exact demo_x_wf.
  - exact demo_y_wf.
  - left. reflexivity.
  - exact demo_transform_keeps_shape.
  - cbv. lia.
  - exists res, w'. split; [exact Hrun |]. split; [exact Hlen | exact Hfirst].
Defined.



Lemma augmentation_seeds_once_witness :
  fst (augmentation Demo.data false Demo.world0)
  = fst (augmentation Demo.data false Demo.world1) /\
  exists evs,
    out (snd (augmentation Demo.data false Demo.world1))
    = [EvShow] ++ EvSeed 7 :: evs /\
    Forall (fun e => is_seed e = false) evs.
Proof.
  destruct (augmentation_seeds_once Demo.data false Demo.world0
              Demo.world1) as [Hres Hseed].
  split; [exact Hres |].
  destruct (Hseed eq_refl) as (_ & evs & _ & Hout & Hno).
  exists evs. split; [exact Hout | exact Hno].
Defined.

Lemma augmentation_empty_witness :
  fst (augmentation Demo.empty false Demo.world0)
  = Raise (UnboundLocalError "augmented_all_features").
Proof.
  destruct (augmentation_empty Demo.empty false Demo.world0 eq_refl) as [_ Hrun].
  rewrite (Hrun eq_refl). reflexivity.
Defined.

Lemma augmentation_one_label_channel_witness :
  fst (augmentation Demo.data2 false Demo.world0) = Raise (ValueError msg_concat).
Proof.
  destruct (augmentation_one_label_channel Demo.data2 false Demo.world0
              demo_transform_keeps_shape) as [_ Hfail].
  destruct (Hfail 2%nat 2%nat 1%nat 2%nat) as [_ Hraise].
  - reflexivity.
  - reflexivity.
  - reflexivity.
  - exact demo_x_wf.
  - exact demo_y2_wf.
  - left. reflexivity.
  - cbv. lia.
  - lia.
  - exact Hraise.
Defined.

(** ** Runs *)

Example literals_valid :
  forallb PyFloat.valid
    [PyFloat.lit_0_1; PyFloat.lit_0_99; PyFloat.lit_0_95; PyFloat.lit_0_8;
     PyFloat.lit_0_000002; PyFloat.lit_0_05; PyFloat.lit_0_5; PyFloat.lit_0_7;
     PyFloat.lit_1_0; PyFloat.lit_3_4e38; Demo.lit_tiny;
     PyFloat.to_float32 PyFloat.lit_0_7] = true.
Proof. vm_compute. reflexivity. Qed.

Example round_runs :
  PyFloat.round PyFloat.lit_0_5 = Ok 0 /\
  PyFloat.round PyFloat.lit_0_7 = Ok 1 /\
  (p ← PyFloat.int_mul 10 PyFloat.lit_0_8; PyFloat.round p) = Ok 8 /\
  (p ← PyFloat.int_mul 1 PyFloat.lit_0_8; PyFloat.round p) = Ok 1 /\
  (p ← PyFloat.int_mul 2 PyFloat.lit_0_8; PyFloat.round p) = Ok 2 /\
  (p ← PyFloat.int_mul 50 PyFloat.lit_0_95; PyFloat.round p) = Ok 48.
Proof. vm_compute. repeat split. Qed.

Example train_test_runs :
  fst (train_test Demo.x Demo.y PyFloat.lit_0_5 Demo.world0)
  = Ok (Dataset (Tensor (2, 1, 2)%nat (rev (drop 2 (t_items Demo.x))))
                (Tensor (1, 1, 2)%nat (rev (drop 2 (t_items Demo.y)))),
        Dataset (Tensor (2, 1, 2)%nat (rev (take 2 (t_items Demo.x))))
                (Tensor (1, 1, 2)%nat (rev (take 2 (t_items Demo.y))))).
Proof. vm_compute. reflexivity. Qed.

Example train_test_rejects :
  fst (train_test Demo.x Demo.y PyFloat.lit_1_0 Demo.world0)
  = Raise (ValueError msg_train_size).
Proof. vm_compute. reflexivity. Qed.

Example augmentation_runs :
  option_map ds_len
    (match fst (augmentation Demo.data true Demo.world0) with
     | Ok res => Some res
     | Raise _ => None
     end) = Some 8%nat.
Proof. vm_compute. reflexivity. Qed.

(** With [vis] set the plots index the channels 0, 1 and 2 of the stacked
    array: one feature channel and one label channel are not enough. *)
Example augmentation_plots_need_channels :
  fst (augmentation Demo.data1 true Demo.world0) = Raise IndexError /\
  returns (fst (augmentation Demo.data1 false Demo.world0)) = true.
Proof. vm_compute. split; reflexivity. Qed.

Example fit_saves :
  omap (fun e => match e with EvSave p => Some p | _ => None end)
       (out (snd (fit Demo.self Demo.data Demo.model0 (Demo.ps 23) Demo.world0)))
  = ["runs/prom.pth"; "runs/prom.pth"; "runs/best_model.pth"].
Proof. vm_compute. reflexivity. Qed.

End OnDemo.

(** * More of the module *)

(** ** Finer bounds on rounded products *)

Section ScaledBounds.

Lemma fexp_scaled (s N m e : Z) :
  0 <= s <= 1074 -> 0 <= N < 2 ^ 53 -> below_at s N m e ->
  fexp PyFloat.prec PyFloat.emax (Zdigits2 m + e) <= - s.
Proof.
  intros Hs HN (He & Hm0 & Hm).
  unfold fexp, emin, PyFloat.prec, PyFloat.emax.
  enough (Zdigits2 m + e <= 53 - s) by lia.
  destruct m as [| q |]; simpl Zdigits2; [lia | | lia].
  pose proof (digits2_pos_bounds q) as [Hlo _].
  assert (Hp : 0 < 2 ^ (- e - s)) by (apply Z.pow_pos_nonneg; lia).
  assert (Hlt : 2 ^ (Zpos (digits2_pos q) - 1) < 2 ^ (53 - e - s)).
  { replace (53 - e - s) with (53 + (- e - s)) by lia. rewrite Z.pow_add_r by lia. nia. }
  apply Z.pow_lt_mono_r_iff in Hlt; lia.
Qed.

Lemma shr_fexp_scaled (s N m e : Z) :
  0 <= s <= 1074 -> 0 <= N < 2 ^ 53 -> below_at s N m e ->
  below_at s N
    (round_nearest_even
       (shr_m (fst (shr_fexp PyFloat.prec PyFloat.emax m e loc_Exact)))
       (loc_of_shr_record (fst (shr_fexp PyFloat.prec PyFloat.emax m e loc_Exact))))
    (snd (shr_fexp PyFloat.prec PyFloat.emax m e loc_Exact)) /\
  0 <= shr_m (fst (shr_fexp PyFloat.prec PyFloat.emax m e loc_Exact)).
Proof.
  intros Hs HN Hb. pose proof (fexp_scaled s N m e Hs HN Hb) as Hf.
  destruct Hb as (He & Hm0 & Hm).
  unfold shr_fexp, shr. simpl shr_record_of_loc.
  destruct (fexp PyFloat.prec PyFloat.emax (Zdigits2 m + e) - e) as [| p | p] eqn:Hk;
    simpl fst; simpl snd; simpl shr_m; simpl loc_of_shr_record; simpl round_nearest_even;
    try (unfold below_at; lia).
  rewrite iter_pos_nat.
  destruct (iter_shr_1_shifted m (Pos.to_nat p) Hm0) as [Hq Hrs].
  rewrite positive_nat_Z in Hq, Hrs.
  set (mrs := Nat.iter (Pos.to_nat p) shr_1 (Build_shr_record m false false)) in *.
  assert (HK : 0 < 2 ^ Zpos p) by (apply Z.pow_pos_nonneg; lia).
  assert (He' : e + Zpos p <= - s) by lia.
  assert (Hpow : 2 ^ (- e - s) = 2 ^ (- (e + Zpos p) - s) * 2 ^ Zpos p).
  { rewrite <- Z.pow_add_r by lia. f_equal. lia. }
  assert (HN' : 0 <= N * 2 ^ (- (e + Zpos p) - s)).
  { apply Z.mul_nonneg_nonneg; [lia | apply Z.pow_nonneg; lia]. }
  pose proof (Z.div_mod m (2 ^ Zpos p) ltac:(lia)) as Hdm.
  pose proof (Z.mod_pos_bound m (2 ^ Zpos p) HK) as Hmb.
  assert (Hq0 : 0 <= shr_m mrs) by (rewrite Hq; apply Z.div_pos; lia).
  assert (HqN : shr_m mrs <= N * 2 ^ (- (e + Zpos p) - s)).
  { rewrite Hq. apply Z.div_le_upper_bound; [lia |]. rewrite Hpow in Hm. lia. }
  split; [| assumption].
  split; [assumption |].
  pose proof (round_nearest_even_ge mrs).
  destruct (round_nearest_even_up mrs) as [-> | [-> Hor]]; [lia |].
  specialize (Hrs Hor). split; [lia |].
  rewrite Hpow in Hm. rewrite <- Hq in Hdm. nia.
Qed.

Lemma binary_round_aux_scaled (s N m e : Z) :
  0 <= s <= 1074 -> 0 <= N < 2 ^ 53 -> below_at s N m e ->
  at_most_at s N (binary_round_aux PyFloat.prec PyFloat.emax false m e loc_Exact).
Proof.
  intros Hs HN Hb. unfold binary_round_aux.
  destruct (shr_fexp_scaled s N m e Hs HN Hb) as [Hb1 _].
  destruct (shr_fexp PyFloat.prec PyFloat.emax m e loc_Exact) as [mrs1 e1].
  simpl fst in Hb1; simpl snd in Hb1.
  destruct (shr_fexp_scaled s N _ e1 Hs HN Hb1) as [(He2 & _ & Hb2) Hm2].
  pose proof (round_nearest_even_ge
                (fst (shr_fexp PyFloat.prec PyFloat.emax
                        (round_nearest_even (shr_m mrs1) (loc_of_shr_record mrs1))
                        e1 loc_Exact))) as Hge.
  destruct (shr_fexp PyFloat.prec PyFloat.emax
              (round_nearest_even (shr_m mrs1) (loc_of_shr_record mrs1)) e1 loc_Exact)
    as [mrs2 e2].
  simpl fst in *; simpl snd in *.
  destruct (shr_m mrs2) as [| q | q]; [exact I | | lia].
  replace (e2 <=? PyFloat.emax - PyFloat.prec) with true
    by (symmetry; apply Z.leb_le; unfold PyFloat.emax, PyFloat.prec; lia).
  simpl. unfold below_at. lia.
Qed.

(** The product of a float of at most [n] with the positive float
    [m * 2^e], where the exact product is at most [N / 2^s]. *)
Lemma mul_scaled (s N n : Z) (x : PyFloat.float) (m : positive) (e : Z) :
  0 <= s <= 1074 -> 0 <= N < 2 ^ 53 -> 0 <= n ->
  at_most n x -> e <= - s -> n * Zpos m <= N * 2 ^ (- e - s) ->
  at_most_at s N (PyFloat.mul x (S754_finite false m e)).
Proof.
  intros Hs HN Hn Hx He Hprod. unfold PyFloat.mul.
  destruct x as [sx | sx | | [] mx ex]; simpl in Hx; try contradiction; try exact I.
  simpl SFmul. apply binary_round_aux_scaled; [assumption | assumption |].
  destruct Hx as (Hex & _ & Hmx).
  unfold below_at. split; [lia |]. split; [lia |].
  replace (- (ex + e) - s) with (- ex + (- e - s)) by lia.
  rewrite Z.pow_add_r, Pos2Z.inj_mul by lia.
  assert (0 < 2 ^ (- ex)) by (apply Z.pow_pos_nonneg; lia).
  assert (0 < 2 ^ (- e - s)) by (apply Z.pow_pos_nonneg; lia).
  nia.
Qed.

(** [round] of a float of at most [N / 2^s], where that is below
    [K - 1/2]. *)
Lemma round_scaled (s N K : Z) (x : PyFloat.float) :
  0 <= s -> 0 <= N -> 2 * N < 2 ^ (s + 1) * K - 2 ^ s ->
  at_most_at s N x -> exists k, PyFloat.round x = Ok k /\ 0 <= k <= K - 1.
Proof.
  intros Hs HN HK Hx.
  assert (Hps : 0 < 2 ^ s) by (apply Z.pow_pos_nonneg; lia).
  assert (Hps1 : 2 ^ (s + 1) = 2 * 2 ^ s) by (rewrite Z.pow_add_r by lia; lia).
  destruct x as [sx | sx | | [] m e]; simpl in Hx; try contradiction.
  - exists 0. split; [reflexivity | nia].
  - destruct Hx as (He & _ & Hm).
    exists (PyFloat.round_mag m e). split; [reflexivity |].
    unfold PyFloat.round_mag.
    destruct (0 <=? e) eqn:Hz.
    + apply Z.leb_le in Hz. assert (e = 0) by lia. assert (s = 0) by lia. subst e s.
      simpl in *. lia.
    + apply Z.leb_gt in Hz. unfold PyFloat.round_half_even_shift.
      assert (Hd : 0 < 2 ^ (- e)) by (apply Z.pow_pos_nonneg; lia).
      assert (Hsplit : 2 ^ (- e) = 2 ^ (- e - s) * 2 ^ s).
      { rewrite <- Z.pow_add_r by lia. f_equal. lia. }
      assert (Hd' : 0 < 2 ^ (- e - s)) by (apply Z.pow_pos_nonneg; lia).
      pose proof (Z.div_mod (Zpos m) (2 ^ (- e)) ltac:(lia)) as Hdm.
      pose proof (Z.mod_pos_bound (Zpos m) (2 ^ (- e)) Hd) as Hmb.
      assert (Hq0 : 0 <= Zpos m / 2 ^ (- e)) by (apply Z.div_pos; lia).
      set (q := Zpos m / 2 ^ (- e)) in *. set (r := Zpos m mod 2 ^ (- e)) in *.
      set (d' := 2 ^ (- e - s)) in *. set (t := 2 ^ s) in *.
      rewrite Hsplit in *.
      assert (Hq : q <= K - 1 /\ (d' * t <= 2 * r -> q + 1 <= K - 1)).
      { split.
        - destruct (Z_le_gt_dec q (K - 1)) as [Hle | Hgt]; [exact Hle | exfalso].
          assert (K * (d' * t) <= Zpos m) by nia. nia.
        - intros Hr. destruct (Z_le_gt_dec (q + 1) (K - 1)) as [Hle | Hgt];
            [exact Hle | exfalso].
          assert ((2 * K - 1) * (d' * t) <= 2 * Zpos m) by nia. nia. }
      destruct Hq as [Hq1 Hq2].
      destruct (2 * r ?= d' * t) eqn:Hc.
      * apply Z.compare_eq in Hc. destruct (Z.even q); [lia |]. split; [lia |].
        apply Hq2. lia.
      * lia.
      * apply Z.compare_gt_iff in Hc. split; [lia |]. apply Hq2. lia.
Qed.

(** [round(n * r)] falls below [n] where [n * r <= n - 17/32]. *)
Lemma round_int_mul_below (n : Z) (m : positive) (e : Z) :
  1 <= n < 2 ^ 48 -> e <= -5 -> n * Zpos m <= (32 * n - 17) * 2 ^ (- e - 5) ->
  exists k, (p ← PyFloat.int_mul n (S754_finite false m e); PyFloat.round p) = Ok k /\
            0 <= k < n.
Proof.
  intros Hn He Hprod. unfold PyFloat.int_mul.
  assert (H48 : 2 ^ 48 = 281474976710656) by (vm_compute; reflexivity).
  assert (H53 : 2 ^ 53 = 9007199254740992) by (vm_compute; reflexivity).
  destruct (of_int_at_most n ltac:(lia)) as (nf & -> & Hnf).
  simpl.
  destruct (round_scaled 5 (32 * n - 17) n
              (PyFloat.mul nf (S754_finite false m e))) as (k & Hk & Hk0).
  - lia.
  - lia.
  - change (2 ^ (5 + 1)) with 64. change (2 ^ 5) with 32. lia.
  - apply (mul_scaled 5 (32 * n - 17) n); try lia; assumption.
  - exists k. split; [exact Hk | lia].
Qed.

End ScaledBounds.

Section LowerBounds.

(** Shifting to the target exponent keeps a lower bound that is an
    integer at that exponent. *)
Lemma shr_fexp_above (s L N m e : Z) :
  0 <= s <= 1074 -> 0 <= N < 2 ^ 53 -> 0 <= L ->
  below_at s N m e -> L * 2 ^ (- e - s) <= m ->
  L * 2 ^ (- snd (shr_fexp PyFloat.prec PyFloat.emax m e loc_Exact) - s)
  <= shr_m (fst (shr_fexp PyFloat.prec PyFloat.emax m e loc_Exact)).
Proof.
  intros Hs HN HL Hb Hlow. pose proof (fexp_scaled s N m e Hs HN Hb) as Hf.
  destruct Hb as (He & Hm0 & Hm).
  unfold shr_fexp, shr. simpl shr_record_of_loc.
  destruct (fexp PyFloat.prec PyFloat.emax (Zdigits2 m + e) - e) as [| p | p] eqn:Hk;
    simpl fst; simpl snd; simpl shr_m; try exact Hlow.
  rewrite iter_pos_nat.
  destruct (iter_shr_1_shifted m (Pos.to_nat p) Hm0) as [Hq _].
  rewrite positive_nat_Z in Hq. rewrite Hq.
  assert (HK : 0 < 2 ^ Zpos p) by (apply Z.pow_pos_nonneg; lia).
  assert (Hpow : 2 ^ (- e - s) = 2 ^ (- (e + Zpos p) - s) * 2 ^ Zpos p).
  { rewrite <- Z.pow_add_r by lia. f_equal. lia. }
  apply Z.div_le_lower_bound; [exact HK |]. rewrite Hpow in Hlow. lia.
Qed.

(** Rounding keeps a value between two bounds [L / 2^s] and [N / 2^s]. *)
Lemma binary_round_aux_between (s L N m e : Z) :
  0 <= s <= 1074 -> 0 <= N < 2 ^ 53 -> 1 <= L ->
  below_at s N m e -> L * 2 ^ (- e - s) <= m ->
  exists (m' : positive) (e' : Z),
    binary_round_aux PyFloat.prec PyFloat.emax false m e loc_Exact = S754_finite false m' e' /\
    below_at s N (Zpos m') e' /\ L * 2 ^ (- e' - s) <= Zpos m'.
Proof.
  intros Hs HN HL Hb Hlow. unfold binary_round_aux.
  destruct (shr_fexp_scaled s N m e Hs HN Hb) as [Hb1 _].
  pose proof (shr_fexp_above s L N m e Hs HN ltac:(lia) Hb Hlow) as Hl1.
  pose proof (round_nearest_even_ge (fst (shr_fexp PyFloat.prec PyFloat.emax m e loc_Exact)))
    as Hge1.
  destruct (shr_fexp PyFloat.prec PyFloat.emax m e loc_Exact) as [mrs1 e1].
  simpl fst in *; simpl snd in *.
  set (m1 := round_nearest_even (shr_m mrs1) (loc_of_shr_record mrs1)) in *.
  destruct (shr_fexp_scaled s N m1 e1 Hs HN Hb1) as [(He2 & _ & Hb2) Hm2].
  pose proof (shr_fexp_above s L N m1 e1 Hs HN ltac:(lia) Hb1 ltac:(lia)) as Hl2.
  pose proof (round_nearest_even_ge
                (fst (shr_fexp PyFloat.prec PyFloat.emax m1 e1 loc_Exact))) as Hge2.
  destruct (shr_fexp PyFloat.prec PyFloat.emax m1 e1 loc_Exact) as [mrs2 e2].
  simpl fst in *; simpl snd in *.
  assert (Hpos : 0 < 2 ^ (- e2 - s)) by (apply Z.pow_pos_nonneg; lia).
  destruct (shr_m mrs2) as [| q | q]; [nia | | lia].
  replace (e2 <=? PyFloat.emax - PyFloat.prec) with true
    by (symmetry; apply Z.leb_le; unfold PyFloat.emax, PyFloat.prec; lia).
  exists q, e2. split; [reflexivity |]. split; [| exact Hl2].
  unfold below_at. lia.
Qed.

(** [float(n)] is [n] for a positive [n] below [2^53]. *)
Lemma of_int_exact (n : Z) :
  1 <= n < 2 ^ 53 ->
  exists (m : positive) (e : Z),
    PyFloat.of_int n = Ok (S754_finite false m e) /\ e <= 0 /\ Zpos m = n * 2 ^ (- e).
Proof.
  intros Hn. unfold PyFloat.of_int, binary_normalize.
  destruct n as [| p |]; [lia | | lia].
  unfold binary_round.
  assert (Hal : (snd (shl_align p 0
                    (fexp PyFloat.prec PyFloat.emax (Zpos (digits2_pos p) + 0)))) <= 0 /\
                Zpos (fst (shl_align p 0
                    (fexp PyFloat.prec PyFloat.emax (Zpos (digits2_pos p) + 0))))
                = Zpos p * 2 ^ (- snd (shl_align p 0
                    (fexp PyFloat.prec PyFloat.emax (Zpos (digits2_pos p) + 0))))).
  { pose proof (fexp_scaled 0 (Zpos p) (Zpos p) 0 ltac:(lia) ltac:(lia)) as Hf.
    unfold below_at in Hf. simpl Zdigits2 in Hf.
    specialize (Hf ltac:(simpl; lia)).
    unfold shl_align.
    destruct (fexp PyFloat.prec PyFloat.emax (Zpos (digits2_pos p) + 0) - 0)
      as [| d | d] eqn:Hd; simpl fst; simpl snd.
    - split; [lia |]. simpl. lia.
    - lia.
    - rewrite pos_iter_xO.
      replace (- fexp PyFloat.prec PyFloat.emax (Zpos (digits2_pos p) + 0)) with (Zpos d) by lia.
      split; [lia | reflexivity]. }
  destruct (shl_align p 0 (fexp PyFloat.prec PyFloat.emax (Zpos (digits2_pos p) + 0)))
    as [mz ez].
  simpl fst in Hal; simpl snd in Hal. destruct Hal as [Hez Hmz].
  destruct (binary_round_aux_between 0 (Zpos p) (Zpos p) (Zpos mz) ez)
    as (m' & e' & Hr & (He' & _ & Hup) & Hlo).
  - lia.
  - lia.
  - lia.
  - unfold below_at. rewrite Z.sub_0_r. lia.
  - rewrite Z.sub_0_r. lia.
  - rewrite Hr. exists m', e'. split; [reflexivity |].
    rewrite Z.sub_0_r in Hup, Hlo. split; lia.
Qed.

(** [round] of a float of at least [L / 2^s], where that is above
    [K - 1/2]. *)
Lemma round_above (s L K : Z) (m : positive) (e : Z) :
  0 <= s -> 1 <= K -> 2 ^ (s + 1) * K - 2 ^ s < 2 * L ->
  e <= - s -> L * 2 ^ (- e - s) <= Zpos m ->
  exists k, PyFloat.round (S754_finite false m e) = Ok k /\ K <= k.
Proof.
  intros Hs HK HL He Hm.
  assert (Hps : 0 < 2 ^ s) by (apply Z.pow_pos_nonneg; lia).
  assert (Hps1 : 2 ^ (s + 1) = 2 * 2 ^ s) by (rewrite Z.pow_add_r by lia; lia).
  exists (PyFloat.round_mag m e). split; [reflexivity |].
  unfold PyFloat.round_mag.
  assert (Hsplit : 2 ^ (- e) = 2 ^ (- e - s) * 2 ^ s).
  { rewrite <- Z.pow_add_r by lia. f_equal. lia. }
  assert (Hd' : 0 < 2 ^ (- e - s)) by (apply Z.pow_pos_nonneg; lia).
  destruct (0 <=? e) eqn:Hz.
  - apply Z.leb_le in Hz. assert (e = 0) by lia. assert (s = 0) by lia. subst e s.
    simpl in *. lia.
  - apply Z.leb_gt in Hz. unfold PyFloat.round_half_even_shift.
    assert (Hd : 0 < 2 ^ (- e)) by (apply Z.pow_pos_nonneg; lia).
    pose proof (Z.div_mod (Zpos m) (2 ^ (- e)) ltac:(lia)) as Hdm.
    pose proof (Z.mod_pos_bound (Zpos m) (2 ^ (- e)) Hd) as Hmb.
    set (q := Zpos m / 2 ^ (- e)) in *. set (r := Zpos m mod 2 ^ (- e)) in *.
    set (d' := 2 ^ (- e - s)) in *. set (t := 2 ^ s) in *.
    rewrite Hsplit in *.
    assert (Hq : K - 1 <= q /\ (q = K - 1 -> d' * t < 2 * r)).
    { split.
      - destruct (Z_le_gt_dec (K - 1) q) as [Hle | Hgt]; [exact Hle | exfalso]. nia.
      - intros ->. nia. }
    destruct Hq as [Hq1 Hq2].
    destruct (2 * r ?= d' * t) eqn:Hc.
    + apply Z.compare_eq in Hc.
      destruct (Z.eq_dec q (K - 1)) as [Heq | Hne]; [specialize (Hq2 Heq); exfalso; nia |].
      destruct (Z.even q); lia.
    + change (2 * r < d' * t) in Hc.
      destruct (Z.eq_dec q (K - 1)) as [Heq | Hne]; [specialize (Hq2 Heq); exfalso; nia | lia].
    + lia.
Qed.

(** [round(n * r)] is at least 1 where [17/32 <= n * r <= n]. *)
Lemma round_int_mul_positive (n : Z) (m : positive) (e : Z) :
  1 <= n < 2 ^ 48 -> e <= -5 ->
  n * Zpos m <= (32 * n) * 2 ^ (- e - 5) -> 17 * 2 ^ (- e - 5) <= n * Zpos m ->
  exists k, (p ← PyFloat.int_mul n (S754_finite false m e); PyFloat.round p) = Ok k /\
            1 <= k.
Proof.
  intros Hn He Hup Hlow. unfold PyFloat.int_mul.
  assert (H48 : 2 ^ 48 = 281474976710656) by (vm_compute; reflexivity).
  assert (H53 : 2 ^ 53 = 9007199254740992) by (vm_compute; reflexivity).
  destruct (of_int_exact n ltac:(lia)) as (mn & en & -> & Hen & Hmn).
  simpl. unfold PyFloat.mul. simpl SFmul.
  assert (Hd : 0 < 2 ^ (- en)) by (apply Z.pow_pos_nonneg; lia).
  assert (Hd' : 0 < 2 ^ (- e - 5)) by (apply Z.pow_pos_nonneg; lia).
  assert (Hsplit : 2 ^ (- (en + e) - 5) = 2 ^ (- en) * 2 ^ (- e - 5)).
  { rewrite <- Z.pow_add_r by lia. f_equal. lia. }
  destruct (binary_round_aux_between 5 17 (32 * n) (Zpos (mn * m)) (en + e))
    as (m' & e' & -> & (He' & _ & _) & Hlo).
  - lia.
  - lia.
  - lia.
  - unfold below_at. rewrite Hsplit, Pos2Z.inj_mul, Hmn. split; [lia |]. split; [lia | nia].
  - rewrite Hsplit, Pos2Z.inj_mul, Hmn. nia.
  - apply (round_above 5 17 1 m' e'); lia.
Qed.

End LowerBounds.

Section Ratio.

Lemma ltb_finite_false (m m' : positive) (e e' : Z) :
  PyFloat.ltb (S754_finite false m e) (S754_finite false m' e') = false ->
  e' < e \/ (e = e' /\ Zpos m' <= Zpos m).
Proof.
  unfold PyFloat.ltb, SFltb, SFcompare.
  destruct (Z.compare_spec e e') as [-> | He | He]; intros Hlt; try discriminate.
  - right. split; [reflexivity |].
    change (Pos.compare_cont Eq m m') with (m ?= m')%positive in Hlt.
    destruct (Pos.compare_spec m m'); try discriminate; lia.
  - left. assumption.
Qed.

Lemma valid_normal (m : positive) (e : Z) :
  PyFloat.valid (S754_finite false m e) = true -> -1074 < e -> 2 ^ 52 <= Zpos m.
Proof.
  unfold PyFloat.valid, valid_binary, bounded, canonical_mantissa, fexp, emin.
  intros Hv He. apply andb_true_iff in Hv as [Hc _]. apply Z.eqb_eq in Hc.
  unfold PyFloat.prec, PyFloat.emax in Hc.
  pose proof (digits2_pos_bounds m) as [Hlo _].
  replace (Zpos (digits2_pos m) - 1) with 52 in Hlo by lia. exact Hlo.
Qed.

(** A ratio that passes the guard of [train_test] and is a number is a
    positive float between 0.1 and 0.99. *)
Lemma guard_ratio (r : PyFloat.float) :
  PyFloat.valid r = true -> r <> S754_nan ->
  PyFloat.ltb r PyFloat.lit_0_1 = false ->
  PyFloat.ltb PyFloat.lit_0_99 r = false ->
  exists (m : positive) (e : Z),
    r = S754_finite false m e /\ -56 <= e <= -53 /\ Zpos m < 2 ^ 53 /\
    (e = -53 -> Zpos m <= 0x1fae147ae147ae) /\
    (e = -56 -> 0x1999999999999a <= Zpos m) /\
    (-56 < e -> 2 ^ 52 <= Zpos m).
Proof.
  intros Hv Hnan Hlo Hhi.
  destruct r as [s | [] | | [] m e]; try discriminate; try contradiction.
  pose proof (valid_mantissa _ _ _ Hv) as Hm.
  unfold PyFloat.lit_0_1 in Hlo. unfold PyFloat.lit_0_99 in Hhi.
  apply ltb_finite_false in Hlo, Hhi.
  exists m, e. split; [reflexivity |].
  split; [lia |]. split; [exact Hm |]. split; [lia |]. split; [lia |].
  intros He. apply (valid_normal m e Hv). lia.
Qed.

(** [round(n * r)] falls below [n] where [n * r <= n - 513/1024]. *)
Lemma round_int_mul_below_fine (n : Z) (m : positive) (e : Z) :
  1 <= n < 2 ^ 43 -> e <= -10 -> n * Zpos m <= (1024 * n - 513) * 2 ^ (- e - 10) ->
  exists k, (p ← PyFloat.int_mul n (S754_finite false m e); PyFloat.round p) = Ok k /\
            0 <= k < n.
Proof.
  intros Hn He Hprod. unfold PyFloat.int_mul.
  assert (H43 : 2 ^ 43 = 8796093022208) by (vm_compute; reflexivity).
  assert (H53 : 2 ^ 53 = 9007199254740992) by (vm_compute; reflexivity).
  destruct (of_int_at_most n ltac:(lia)) as (nf & -> & Hnf).
  simpl.
  destruct (round_scaled 10 (1024 * n - 513) n
              (PyFloat.mul nf (S754_finite false m e))) as (k & Hk & Hk0).
  - lia.
  - lia.
  - lia.
  - apply (mul_scaled 10 (1024 * n - 513) n); try lia; assumption.
  - exists k. split; [exact Hk | lia].
Qed.

(** For every accepted ratio: the rounded product is positive from 6
    samples on and below the number of samples from 51 on. *)
Lemma round_ratio_bounds (n : Z) (r : PyFloat.float) (k : Z) :
  PyFloat.valid r = true -> r <> S754_nan ->
  PyFloat.ltb r PyFloat.lit_0_1 = false ->
  PyFloat.ltb PyFloat.lit_0_99 r = false ->
  0 <= n < 2 ^ 43 ->
  (p ← PyFloat.int_mul n r; PyFloat.round p) = Ok k ->
  (6 <= n -> 1 <= k) /\ (51 <= n -> k < n).
Proof.
  intros Hv Hnan Hlo Hhi Hn Hk.
  destruct (guard_ratio r Hv Hnan Hlo Hhi) as (m & e & -> & He & Hm & H99 & H01 & Hnorm).
  assert (H43 : 2 ^ 43 = 8796093022208) by (vm_compute; reflexivity).
  assert (H48 : 2 ^ 48 = 281474976710656) by (vm_compute; reflexivity).
  assert (H52 : 2 ^ 52 = 4503599627370496) by (vm_compute; reflexivity).
  assert (H53 : 2 ^ 53 = 9007199254740992) by (vm_compute; reflexivity).
  assert (Hcases : e = -53 \/ e = -54 \/ e = -55 \/ e = -56) by lia.
  split.
  - intros H6.
    destruct (round_int_mul_positive n m e) as (k' & Hk' & Hpos); [lia | lia | | |].
    + destruct Hcases as [-> | [-> | [-> | ->]]].
      * replace (- -53 - 5) with 48 by lia. rewrite H48. nia.
      * replace (- -54 - 5) with 49 by lia.
        replace (2 ^ 49) with (2 * 2 ^ 48) by (vm_compute; reflexivity). rewrite H48. nia.
      * replace (- -55 - 5) with 50 by lia.
        replace (2 ^ 50) with (4 * 2 ^ 48) by (vm_compute; reflexivity). rewrite H48. nia.
      * replace (- -56 - 5) with 51 by lia.
        replace (2 ^ 51) with (8 * 2 ^ 48) by (vm_compute; reflexivity). rewrite H48. nia.
    + destruct Hcases as [-> | [-> | [-> | ->]]].
      * replace (- -53 - 5) with 48 by lia. rewrite H48.
        specialize (Hnorm ltac:(lia)). nia.
      * replace (- -54 - 5) with 49 by lia.
        replace (2 ^ 49) with (2 * 2 ^ 48) by (vm_compute; reflexivity). rewrite H48.
        specialize (Hnorm ltac:(lia)). nia.
      * replace (- -55 - 5) with 50 by lia.
        replace (2 ^ 50) with (4 * 2 ^ 48) by (vm_compute; reflexivity). rewrite H48.
        specialize (Hnorm ltac:(lia)). nia.
      * replace (- -56 - 5) with 51 by lia.
        replace (2 ^ 51) with (8 * 2 ^ 48) by (vm_compute; reflexivity). rewrite H48.
        specialize (H01 eq_refl). nia.
    + rewrite Hk' in Hk. injection Hk as <-. exact Hpos.
  - intros H51.
    destruct (round_int_mul_below_fine n m e) as (k' & Hk' & Hlt); [lia | lia | |].
    + destruct Hcases as [-> | [-> | [-> | ->]]].
      * replace (- -53 - 10) with 43 by lia. rewrite H43.
        specialize (H99 eq_refl). nia.
      * replace (- -54 - 10) with 44 by lia.
        replace (2 ^ 44) with (2 * 2 ^ 43) by (vm_compute; reflexivity). rewrite H43. nia.
      * replace (- -55 - 10) with 45 by lia.
        replace (2 ^ 45) with (4 * 2 ^ 43) by (vm_compute; reflexivity). rewrite H43. nia.
      * replace (- -56 - 10) with 46 by lia.
        replace (2 ^ 46) with (8 * 2 ^ 43) by (vm_compute; reflexivity). rewrite H43. nia.
    + rewrite Hk' in Hk. injection Hk as <-. lia.
Qed.

End Ratio.

Section FitRatios.

Lemma pow_2_48 : 2 ^ 48 = 281474976710656.
Proof. vm_compute. reflexivity. Qed.

(** [round(E * 0.8)] for the epoch counts that the product does not
    separate from [E], and for all others. *)
Lemma drop_epoch_small (E : Z) :
  0 <= E <= 2 -> (p ← PyFloat.int_mul E PyFloat.lit_0_8; PyFloat.round p) = Ok E.
Proof.
  intros HE.
  assert (Hcases : E = 0 \/ E = 1 \/ E = 2) by lia.
  destruct Hcases as [-> | [-> | ->]]; vm_compute; reflexivity.
Qed.

Lemma drop_epoch_below (E : Z) :
  3 <= E < 2 ^ 48 ->
  exists k, (p ← PyFloat.int_mul E PyFloat.lit_0_8; PyFloat.round p) = Ok k /\ 0 <= k < E.
Proof.
  intros HE. unfold PyFloat.lit_0_8.
  apply round_int_mul_below; [lia | lia |].
  replace (- -53 - 5) with 48 by lia. rewrite pow_2_48. lia.
Qed.

(** [round(n * 0.95)] likewise. *)
Lemma split_small (n : Z) :
  0 <= n <= 10 -> (p ← PyFloat.int_mul n PyFloat.lit_0_95; PyFloat.round p) = Ok n.
Proof.
  intros Hn.
  assert (Hall : forallb (fun i => match (p ← PyFloat.int_mul (Z.of_nat i) PyFloat.lit_0_95;
                                           PyFloat.round p) with
                                   | Ok k => k =? Z.of_nat i
                                   | Raise _ => false
                                   end) (seq 0 11) = true) by (vm_compute; reflexivity).
  rewrite forallb_forall in Hall.
  specialize (Hall (Z.to_nat n) ltac:(apply in_seq; lia)).
  rewrite Z2Nat.id in Hall by lia.
  destruct (p ← PyFloat.int_mul n PyFloat.lit_0_95; PyFloat.round p) as [k |];
    [| discriminate].
  apply Z.eqb_eq in Hall. subst k. reflexivity.
Qed.

Lemma split_below (n : Z) :
  11 <= n < 2 ^ 48 ->
  exists k, (p ← PyFloat.int_mul n PyFloat.lit_0_95; PyFloat.round p) = Ok k /\ 0 <= k < n.
Proof.
  intros Hn. unfold PyFloat.lit_0_95.
  apply round_int_mul_below; [lia | lia |].
  replace (- -53 - 5) with 48 by lia. rewrite pow_2_48. lia.
Qed.

Lemma split_positive (n : Z) :
  1 <= n < 2 ^ 48 ->
  exists k, (p ← PyFloat.int_mul n PyFloat.lit_0_95; PyFloat.round p) = Ok k /\ 1 <= k.
Proof.
  intros Hn. unfold PyFloat.lit_0_95.
  apply round_int_mul_positive; [lia | lia | |];
    replace (- -53 - 5) with 48 by lia; rewrite pow_2_48; lia.
Qed.

End FitRatios.

(** ** The whole of [fit] *)

Section FitEdges.
Context `{Libs}.
Variables (self : explorer) (train : dataset) (model : Model) (ps : params) (w : world).

Hypothesis Hperm : randperm_permutes.
Hypothesis Hlen : t_len (tensors0 train) = t_len (tensors1 train).
Hypothesis Hsize : Z.of_nat (t_len (tensors0 train)) < 2 ^ 53.

Local Abbreviation prom := (path_join (working_dir self) "prom.pth").
Local Abbreviation best := (path_join (working_dir self) "best_model.pth").
Local Abbreviation after_split :=
  (World (snd (randperm (torch_rng w) (t_len (tensors0 train))))
         (np_rng w) (py_rng w) (fs w) (out w)).



End FitEdges.

Lemma last_checkpoint_at (j : nat) :
  is_checkpoint_epoch j = true -> last_checkpoint (S j) = j.
Proof.
  unfold is_checkpoint_epoch. rewrite !orb_true_iff, !Nat.eqb_eq.
  intros [[[[-> | ->] | ->] | ->] | ->]; reflexivity.
Qed.

Lemma last_checkpoint_keep (j : nat) :
  (11 <= j)%nat -> is_checkpoint_epoch j = false ->
  last_checkpoint (S j) = last_checkpoint j.
Proof.
  intros Hj Hc. unfold last_checkpoint.
  replace (S j - 1)%nat with j by lia.
  destruct (le_lt_dec 51 j) as [Hbig | Hsmall].
  - assert (5 <= (j - 1) / 10)%nat by (apply Nat.div_le_lower_bound; lia).
    assert (5 <= j / 10)%nat by (apply Nat.div_le_lower_bound; lia).
    rewrite !Nat.min_l by lia. reflexivity.
  - assert (Hall : forallb (fun i => (i <? 11)%nat || is_checkpoint_epoch i
                     || (Nat.min 5 (i / 10) =? Nat.min 5 ((i - 1) / 10))%nat)
                     (seq 0 51) = true) by (vm_compute; reflexivity).
    rewrite forallb_forall in Hall.
    specialize (Hall j ltac:(apply in_seq; lia)).
    rewrite Hc, orb_false_r in Hall.
    apply orb_true_iff in Hall as [Hlt | Heq].
    + apply Nat.ltb_lt in Hlt. lia.
    + apply Nat.eqb_eq in Heq. rewrite Heq. reflexivity.
Qed.

Section FitRun.
Context `{Libs}.
Variables (self : explorer) (ps : params).
Variables (bs E k : Z) (mt : Metrics).
Variables (model : Model) (opt : optimizer) (lr : PyFloat.float) (rest : list PyFloat.float).

Local Abbreviation prom := (path_join (working_dir self) "prom.pth").

Hypothesis Hkeep : train_run_keeps_lrs.
Hypothesis HE : epochs ps = Some E.
Hypothesis Hk : (p ← PyFloat.int_mul E PyFloat.lit_0_8; PyFloat.round p) = Ok k.
Hypothesis Hk0 : 0 <= k.
Hypothesis Hlr : param_lrs opt = lr :: rest.
Hypothesis Hsave_prom : save_error prom = None.

(** The loop of [fit] after [j] epochs, in full: the state, the generator,
    the files and the output. *)
Lemma fit_prefix_state (tr va : dataset) (w1 : world) (j : nat) :
  for_each (fit_epoch tr va bs mt ps prom) (seq 0 j) (model, opt) w1
  = (Ok (fst (state_after tr va bs mt k j ((model, opt), torch_rng w1))),
     World (snd (state_after tr va bs mt k j ((model, opt), torch_rng w1)))
           (np_rng w1) (py_rng w1)
           (if (11 <=? j)%nat
            then <[prom := fst (fst (state_after tr va bs mt k (S (last_checkpoint j))
                                       ((model, opt), torch_rng w1)))]>
                   (fs w1)
            else fs w1)
           (out w1 ++ flat_map (epoch_events prom) (seq 0 j)))
  /\ param_lrs (snd (fst (state_after tr va bs mt k j ((model, opt), torch_rng w1))))
     = (if k <? Z.of_nat j then PyFloat.lit_0_000002 else lr) :: rest.
Proof.
  induction j as [| j [IHrun IHlr]].
  - split.
    + simpl. unfold mret, M_ret. rewrite app_nil_r. destruct w1; reflexivity.
    + replace (k <? Z.of_nat 0) with false by (symmetry; apply Z.ltb_ge; lia). exact Hlr.
  - assert (Hstep : state_after tr va bs mt k (S j) ((model, opt), torch_rng w1)
                    = epoch_state_step tr va bs mt k
                        (state_after tr va bs mt k j ((model, opt), torch_rng w1)) j).
    { unfold state_after. rewrite (List.seq_S j 0), fold_left_app. reflexivity. }
    destruct (state_after tr va bs mt k j ((model, opt), torch_rng w1))
      as [[mj oj] gj] eqn:Hj.
    cbn [fst snd] in IHlr, IHrun.
    assert (Hes : param_lrs (snd (fst (epoch_step tr va bs mt ((mj, oj), gj))))
                  = (if k <? Z.of_nat j then PyFloat.lit_0_000002 else lr) :: rest).
    { rewrite (epoch_step_lrs bs mt Hkeep). exact IHlr. }
    unfold epoch_state_step in Hstep.
    split.
    + rewrite (List.seq_S j 0). simpl "+"%nat.
      rewrite (for_each_snoc _ _ _ _ _ _ _ IHrun).
      rewrite (fit_epoch_ok tr va bs mt ps prom j mj oj (World gj _ _ _ _) E k _ rest HE Hk
                 (fun _ => Hsave_prom) Hes).
      cbn [torch_rng np_rng py_rng fs out].
      destruct (epoch_step tr va bs mt ((mj, oj), gj)) as [[m' o'] g'] eqn:Hep.
      cbn [fst snd] in Hes |- *.
      rewrite Hstep. cbn [fst snd]. rewrite Hes. simpl tail.
      rewrite flat_map_app. simpl flat_map. rewrite app_nil_r, <- app_assoc.
      unfold epoch_events at 2.
      f_equal. f_equal.
      destruct (is_checkpoint_epoch j) eqn:Hc.
      * assert (10 <= j)%nat.
        { unfold is_checkpoint_epoch in Hc.
          rewrite !orb_true_iff, !Nat.eqb_eq in Hc. lia. }
        replace (11 <=? S j)%nat with true by (symmetry; apply Nat.leb_le; lia).
        rewrite (last_checkpoint_at j Hc), Hstep. cbn [fst snd].
        destruct (11 <=? j)%nat; [apply insert_insert_eq | reflexivity].
      * destruct (Nat.leb_spec 11 j) as [Hge | Hlt].
        -- replace (11 <=? S j)%nat with true by (symmetry; apply Nat.leb_le; lia).
           rewrite (last_checkpoint_keep j Hge Hc). reflexivity.
        -- assert (j <> 10)%nat by (intros ->; discriminate Hc).
           replace (11 <=? S j)%nat with false by (symmetry; apply Nat.leb_gt; lia).
           reflexivity.
    + rewrite Hstep.
      destruct (epoch_step tr va bs mt ((mj, oj), gj)) as [[m' o'] g'] eqn:Hep.
      cbn [fst snd] in Hes |- *. rewrite Hes. simpl tail.
      destruct (Z.eqb_spec (Z.of_nat j) k) as [Heq | Hne].
      * simpl param_lrs. destruct (Z.ltb_spec k (Z.of_nat (S j))); [reflexivity | lia].
      * rewrite Hes.
        destruct (Z.ltb_spec k (Z.of_nat j)), (Z.ltb_spec k (Z.of_nat (S j)));
          first [reflexivity | lia].
Qed.

End FitRun.

Section FitWhole.
Context `{Libs}.
Variables (self : explorer) (train : dataset) (model : Model) (ps : params) (w : world).
Variables (bs E : Z) (opt : optimizer) (mt : Metrics).
Variables (lr : PyFloat.float) (rest : list PyFloat.float).

Local Abbreviation prom := (path_join (working_dir self) "prom.pth").
Local Abbreviation best := (path_join (working_dir self) "best_model.pth").
Local Abbreviation split_rng := (snd (randperm (torch_rng w) (t_len (tensors0 train)))).

Hypothesis Hperm : randperm_permutes.
Hypothesis Hkeep : train_run_keeps_lrs.
Hypothesis Hlen : t_len (tensors0 train) = t_len (tensors1 train).
Hypothesis Hsize : Z.of_nat (t_len (tensors0 train)) < 2 ^ 53.
Hypothesis Hbs : batch_size ps = Some bs.
Hypothesis Hbs0 : 0 < bs.
Hypothesis Hopt : p_optimizer ps = Some opt.
Hypothesis Hmt : metrics ps = Some mt.
Hypothesis HE : epochs ps = Some E.
Hypothesis Hlr : param_lrs opt = lr :: rest.
Hypothesis Hsave_prom : save_error prom = None.
Hypothesis Hsave_best : save_error best = None.

(** The whole of [fit], for an epoch count whose product with 0.8 rounds
    to [k]. *)
Lemma fit_state (k : Z) :
  0 <= E -> 0 <= k ->
  (p ← PyFloat.int_mul E PyFloat.lit_0_8; PyFloat.round p) = Ok k ->
  exists tr va : dataset,
    train_test (tensors0 train) (tensors1 train) PyFloat.lit_0_95 w
    = (Ok (tr, va), World split_rng (np_rng w) (py_rng w) (fs w) (out w)) /\
    let final := state_after tr va bs mt k (Z.to_nat E) ((model, opt), split_rng) in
    fit self train model ps w
    = (Ok (fst final),
       World (snd final) (np_rng w) (py_rng w)
         (<[best := fst (fst final)]>
            (if (11 <=? Z.to_nat E)%nat
             then <[prom := fst (fst (state_after tr va bs mt k
                                        (S (last_checkpoint (Z.to_nat E)))
                                        ((model, opt), split_rng)))]> (fs w)
             else fs w))
         (out w ++ flat_map (epoch_events prom) (seq 0 (Z.to_nat E))
                ++ [EvSave best; EvPrint "Model saved!" None])) /\
    param_lrs (snd (fst final)) = (if k <? E then PyFloat.lit_0_000002 else lr) :: rest.
Proof.
  intros HE0 Hk0 Hk.
  destruct (fit_split train w Hperm Hlen Hsize) as (tr & va & Htt).
  exists tr, va. split; [exact Htt |]. cbv zeta.
  set (w1 := World _ _ _ _ _) in Htt.
  destruct (fit_prefix_state self ps bs E k mt model opt lr rest Hkeep HE Hk Hk0 Hlr
              Hsave_prom tr va w1 (Z.to_nat E)) as [Hrun Hrate].
  change (torch_rng w1) with split_rng in Hrun, Hrate.
  destruct (state_after tr va bs mt k (Z.to_nat E) ((model, opt), split_rng))
    as [[m o] g] eqn:Hfinal.
  cbn [fst snd] in Hrun, Hrate |- *.
  split.
  - rewrite (fit_run self train model ps w bs E opt mt Hbs Hbs0 Hopt Hmt HE Hsave_best
               tr va w1 _ m o Htt Hrun).
    cbn [torch_rng np_rng py_rng fs out fst]. rewrite <- app_assoc. reflexivity.
  - rewrite Hrate. rewrite Z2Nat.id by lia. reflexivity.
Qed.




End FitWhole.

(** ** What the methods leave alone *)

Section FrameRules.
Context `{Libs}.
Context {X : Type} (f : world -> X).

Lemma keeps_ret {A} (a : A) : keeps f (mret a).
Proof. intros w. reflexivity. Qed.

Lemma keeps_raise {A} (e : exn) : keeps f (@raise _ A e).
Proof. intros w. reflexivity. Qed.

Lemma keeps_lift {A} (r : result A) : keeps f (lift r).
Proof. intros w. reflexivity. Qed.

Lemma keeps_bind {A B} (m : M A) (k : A -> M B) :
  keeps f m -> (forall a, keeps f (k a)) -> keeps f (m ≫= k).
Proof.
  intros Hm Hk w. unfold mbind, M_bind. specialize (Hm w).
  destruct (m w) as [[a | e] w1]; simpl in *; [| exact Hm].
  rewrite (Hk a w1). exact Hm.
Qed.

Lemma keeps_for_each {A S} (body : A -> S -> M S) (xs : list A) (s : S) :
  (forall x s', keeps f (body x s')) -> keeps f (for_each body xs s).
Proof.
  intros Hbody. revert s.
  induction xs as [| x xs IH]; intros s; simpl.
  - apply keeps_ret.
  - apply keeps_bind; [apply Hbody | intros s'; apply IH].
Qed.

End FrameRules.

Ltac keeps_step :=
  first
    [ apply keeps_ret | apply keeps_raise | apply keeps_lift
    | apply keeps_for_each; intros
    | apply keeps_bind; [| intros]
    | match goal with
      | |- keeps _ (match ?p with (_, _) => _ end) => destruct p
      | |- keeps _ (if ?b then _ else _) => destruct b
      | |- keeps _ (match ?o with Some _ => _ | None => _ end) => destruct o
      end ].

Section FrameProps.
Context `{Libs}.

Lemma keeps_emit {X} (f : world -> X) (e : event) :
  (forall g1 g2 g3 files o o', f (World g1 g2 g3 files o) = f (World g1 g2 g3 files o')) ->
  keeps f (emit e).
Proof. intros Hf [g1 g2 g3 files o]. apply Hf. Qed.

Lemma random_split_keeps (d : dataset) (a b : Z) :
  keeps np_rng (random_split d a b) /\ keeps py_rng (random_split d a b) /\
  keeps fs (random_split d a b) /\ keeps out (random_split d a b).
Proof.
  repeat split; intros w; unfold random_split;
    destruct (a + b =? Z.of_nat (ds_len d)); try reflexivity;
    destruct (randperm (torch_rng w) (Z.to_nat (a + b))); reflexivity.
Qed.

(** X5.  What [train_test] leaves alone.  Whatever its arguments, and whether
    it returns or raises, [train_test] prints nothing, touches no file and
    draws from neither NumPy's nor Python's generator. *)
Theorem train_test_frame (x y : tensor) (r : PyFloat.float) (w : world) :
  let w' := snd (train_test x y r w) in
  np_rng w' = np_rng w /\ py_rng w' = py_rng w /\ fs w' = fs w /\ out w' = out w.
Proof.
  pose proof random_split_keeps as Hrs.
  assert (Hall : keeps np_rng (train_test x y r) /\ keeps py_rng (train_test x y r) /\
                 keeps fs (train_test x y r) /\ keeps out (train_test x y r)).
  { unfold train_test. repeat split; repeat keeps_step; apply Hrs. }
  destruct Hall as (H1 & H2 & H3 & H4). cbv zeta.
  rewrite (H1 w), (H2 w), (H3 w), (H4 w). repeat split.
Qed.

Lemma torch_save_keeps (m : Model) (path : string) :
  keeps torch_rng (torch_save m path) /\ keeps np_rng (torch_save m path) /\
  keeps py_rng (torch_save m path).
Proof.
  repeat split; intros w; unfold torch_save; destruct (save_error path); reflexivity.
Qed.

Lemma train_epoch_run_keeps (m : Model) (o : optimizer) (mt : Metrics) (d : dataset)
    (bs : Z) :
  keeps np_rng (train_epoch_run m o mt d bs) /\ keeps py_rng (train_epoch_run m o mt d bs) /\
  keeps fs (train_epoch_run m o mt d bs).
Proof.
  repeat split; intros w; unfold train_epoch_run;
    destruct (train_run m o mt d bs (torch_rng w)); reflexivity.
Qed.

Lemma valid_epoch_run_keeps (m : Model) (mt : Metrics) (d : dataset) (bs : Z) :
  keeps np_rng (valid_epoch_run m mt d bs) /\ keeps py_rng (valid_epoch_run m mt d bs) /\
  keeps fs (valid_epoch_run m mt d bs).
Proof.
  repeat split; intros w; unfold valid_epoch_run;
    destruct (valid_run m mt d bs (torch_rng w)); reflexivity.
Qed.

Lemma torch_load_keeps (path : string) :
  keeps torch_rng (torch_load path) /\ keeps np_rng (torch_load path) /\
  keeps py_rng (torch_load path) /\ keeps fs (torch_load path).
Proof.
  repeat split; intros w; unfold torch_load; destruct (fs w !! path); reflexivity.
Qed.

Lemma np_random_choice_keeps (n : nat) :
  keeps torch_rng (np_random_choice n) /\ keeps py_rng (np_random_choice n) /\
  keeps fs (np_random_choice n).
Proof.
  repeat split; intros w; unfold np_random_choice; destruct (Nat.eqb n 0); try reflexivity;
    destruct (np_choice (np_rng w) n); reflexivity.
Qed.

Lemma random_seed_keeps (z : Z) :
  keeps torch_rng (random_seed z) /\ keeps np_rng (random_seed z) /\ keeps fs (random_seed z).
Proof. repeat split; intros w; reflexivity. Qed.

Lemma transform_keeps (image mask : array3) :
  keeps torch_rng (transform image mask) /\ keeps np_rng (transform image mask) /\
  keeps fs (transform image mask).
Proof.
  repeat split; intros w; unfold transform;
    destruct (transformations (py_rng w) image mask); reflexivity.
Qed.

(** X12.  What [fit] leaves alone.  Whatever its arguments, and whether it
    returns or raises, [fit] draws from neither NumPy's nor Python's
    generator. *)
Theorem fit_frame (self : explorer) (train : dataset) (model : Model) (ps : params)
    (w : world) :
  let w' := snd (fit self train model ps w) in
  np_rng w' = np_rng w /\ py_rng w' = py_rng w.
Proof.
  assert (Hall : keeps np_rng (fit self train model ps)
                 /\ keeps py_rng (fit self train model ps)).
  { unfold fit, fit_epoch.
    split; repeat keeps_step;
      first [apply random_split_keeps | apply torch_save_keeps
            | apply train_epoch_run_keeps | apply valid_epoch_run_keeps
            | apply keeps_emit; reflexivity]. }
  destruct Hall as (H1 & H2). cbv zeta. rewrite (H1 w), (H2 w). split; reflexivity.
Qed.

(** X20.  What [validate] leaves alone.  Whatever its arguments, and whether
    it returns or raises, [validate] changes no file and does not draw from
    Python's generator.  (It draws from NumPy's generator for the plots and,
    through the loader of the test epoch, from torch's.) *)
Theorem validate_frame (self : explorer) (test : dataset) (model_path : string)
    (model : option Model) (threshold : option PyFloat.float) (ps : params) (w : world) :
  let w' := snd (validate self test model_path model threshold ps w) in
  fs w' = fs w /\ py_rng w' = py_rng w.
Proof.
  assert (Hall : keeps fs (validate self test model_path model threshold ps)
                 /\ keeps py_rng (validate self test model_path model threshold ps)).
  { unfold validate, validate_show.
    repeat split; repeat keeps_step;
      first [apply torch_load_keeps | apply np_random_choice_keeps
            | apply valid_epoch_run_keeps | apply keeps_emit; reflexivity]. }
  destruct Hall as (H1 & H2). cbv zeta. rewrite (H1 w), (H2 w).
  split; reflexivity.
Qed.

(** X27.  What [augmentation] leaves alone.  Whatever its arguments, and
    whether it returns or raises, [augmentation] touches no file and draws
    from neither torch's nor NumPy's generator. *)
Theorem augmentation_frame (d : dataset) (vis : bool) (w : world) :
  let w' := snd (augmentation d vis w) in
  fs w' = fs w /\ torch_rng w' = torch_rng w /\ np_rng w' = np_rng w.
Proof.
  assert (Hall : keeps fs (augmentation d vis) /\ keeps torch_rng (augmentation d vis)
                 /\ keeps np_rng (augmentation d vis)).
  { unfold augmentation, augment_sample, show_plane.
    repeat split; repeat keeps_step;
      first [apply random_seed_keeps | apply transform_keeps
            | apply keeps_emit; reflexivity]. }
  destruct Hall as (H1 & H2 & H3). cbv zeta. rewrite (H1 w), (H2 w), (H3 w).
  repeat split.
Qed.

End FrameProps.

(** ** More on the split *)

Lemma select_rows_lookup {A} (rows : list A) (indices : list nat) (rs : list A) :
  select_rows rows indices = Ok rs -> map Some rs = map (fun i => rows !! i) indices.
Proof.
  revert rs. induction indices as [| i rest IH]; intros rs Hsel; simpl in Hsel.
  - injection Hsel as <-. reflexivity.
  - destruct (rows !! i) as [r |] eqn:Hr; [| discriminate].
    destruct (select_rows rows rest) as [rs' |]; [| discriminate].
    injection Hsel as <-. simpl. rewrite Hr, (IH rs' eq_refl). reflexivity.
Qed.

Lemma map_Some_inj {A} (l1 l2 : list A) : map Some l1 = map Some l2 -> l1 = l2.
Proof.
  revert l2. induction l1 as [| a l1 IH]; intros [| b l2] Heq; try discriminate.
  - reflexivity.
  - injection Heq as -> Heq. f_equal. apply IH. exact Heq.
Qed.

Lemma lookup_all {A} (rows : list A) :
  map (fun i => rows !! i) (seq 0 (length rows)) = map Some rows.
Proof.
  induction rows as [| r rows IH] using rev_ind; [reflexivity |].
  replace (length (rows ++ [r])) with (S (length rows))
    by (rewrite length_app; simpl; lia).
  rewrite (List.seq_S (length rows) 0).
  rewrite !map_app. simpl. rewrite list_lookup_middle by reflexivity.
  f_equal. rewrite <- IH. apply map_ext_in. intros i Hi. apply in_seq in Hi.
  apply lookup_app_l. lia.
Qed.

(** The rows selected at a permutation of all indices are a permutation of
    the rows. *)
Lemma select_rows_permutation {A} (rows : list A) (indices : list nat) (rs : list A) :
  Permutation indices (seq 0 (length rows)) ->
  select_rows rows indices = Ok rs -> Permutation rs rows.
Proof.
  intros Hperm Hsel. apply select_rows_lookup in Hsel.
  assert (Hp : Permutation (map Some rs) (map Some rows)).
  { rewrite Hsel, <- lookup_all. apply Permutation_map. exact Hperm. }
  apply Permutation_map_inv in Hp as (l3 & Heq & Hp).
  apply map_Some_inj in Heq. subst l3. symmetry. exact Hp.
Qed.

Lemma select_rows_app {A} (rows : list A) (i1 i2 : list nat) (r1 r2 : list A) :
  select_rows rows i1 = Ok r1 -> select_rows rows i2 = Ok r2 ->
  select_rows rows (i1 ++ i2) = Ok (r1 ++ r2).
Proof.
  revert r1. induction i1 as [| i i1 IH]; intros r1 H1 H2; simpl in *.
  - injection H1 as <-. exact H2.
  - destruct (rows !! i) as [r |]; [| discriminate].
    destruct (select_rows rows i1) as [rs |]; [| discriminate].
    injection H1 as <-. rewrite (IH rs eq_refl H2). reflexivity.
Qed.

Lemma select_rows_zip {A B} (xs : list A) (ys : list B) (indices : list nat)
    (rx : list A) (ry : list B) :
  select_rows xs indices = Ok rx -> select_rows ys indices = Ok ry ->
  select_rows (zip xs ys) indices = Ok (zip rx ry).
Proof.
  revert rx ry. induction indices as [| i rest IH]; intros rx ry Hx Hy; simpl in *.
  - injection Hx as <-. reflexivity.
  - destruct (xs !! i) as [a |] eqn:Ha; [| discriminate].
    destruct (ys !! i) as [b |] eqn:Hb; [| discriminate].
    destruct (select_rows xs rest) as [rx' |]; [| discriminate].
    destruct (select_rows ys rest) as [ry' |]; [| discriminate].
    injection Hx as <-. injection Hy as <-.
    assert (Hz : zip xs ys !! i = Some (a, b)).
    { apply lookup_zip_with_Some. exists a, b. auto. }
    rewrite Hz, (IH rx' ry' eq_refl eq_refl). reflexivity.
Qed.

Lemma select_rows_Forall {A} (P : A -> Prop) (rows : list A) (indices : list nat)
    (rs : list A) :
  Forall P rows -> select_rows rows indices = Ok rs -> Forall P rs.
Proof.
  intros HP. revert rs. induction indices as [| i rest IH]; intros rs Hsel; simpl in Hsel.
  - injection Hsel as <-. apply Forall_nil_2.
  - destruct (rows !! i) as [r |] eqn:Hr; [| discriminate].
    destruct (select_rows rows rest) as [rs' |]; [| discriminate].
    injection Hsel as <-. apply Forall_cons_2.
    + eapply Forall_lookup_1; eassumption.
    + apply IH. reflexivity.
Qed.

Lemma dataset_getitem_inv (x y a b : tensor) (indices : list nat) :
  dataset_getitem (Dataset x y) indices = Ok (a, b) ->
  select_rows (t_items x) indices = Ok (t_items a) /\
  select_rows (t_items y) indices = Ok (t_items b) /\
  t_dims a = t_dims x /\ t_dims b = t_dims y.
Proof.
  unfold dataset_getitem, tensor_index. simpl.
  destruct (select_rows (t_items x) indices) as [ra |]; [| discriminate].
  destruct (select_rows (t_items y) indices) as [rb |]; [| discriminate].
  simpl. intros [= <- <-]. auto.
Qed.

Section SplitMore.
Context `{Libs}.

(** The split at any ratio that passes the guard and is a number: both
    bounds included. *)
Lemma train_test_closed (x y : tensor) (r : PyFloat.float) (w : world) :
  randperm_permutes ->
  PyFloat.valid r = true -> r <> S754_nan ->
  PyFloat.ltb r PyFloat.lit_0_1 || PyFloat.ltb PyFloat.lit_0_99 r = false ->
  t_len x = t_len y ->
  Z.of_nat (t_len x) < 2 ^ 53 ->
  let n := t_len x in
  let indices := fst (randperm (torch_rng w) n) in
  exists (k : nat) (train test : dataset),
    (p ← PyFloat.int_mul (Z.of_nat n) r; PyFloat.round p) = Ok (Z.of_nat k) /\
    train_test x y r w
    = (Ok (train, test),
       World (snd (randperm (torch_rng w) n)) (np_rng w) (py_rng w) (fs w) (out w)) /\
    dataset_getitem (Dataset x y) (take k indices) = Ok (tensors0 train, tensors1 train) /\
    dataset_getitem (Dataset x y) (drop k indices) = Ok (tensors0 test, tensors1 test) /\
    (k <= n)%nat /\
    ds_len train = k /\
    ds_len test = (n - k)%nat.
Proof.
  intros Hperm Hv Hnan Hg Hxy Hn n indices.
  apply orb_false_iff in Hg as [Hlo Hhi].
  assert (Hr : unit_range r) by (apply guard_unit_range; assumption).
  destruct (round_int_mul_bounds (Z.of_nat n) r ltac:(lia) Hr) as (kz & Hk & Hk0).
  exists (Z.to_nat kz). rewrite Z2Nat.id by lia.
  specialize (Hperm (torch_rng w) n). fold indices in Hperm.
  assert (Hlen : length indices = n).
  { rewrite (Permutation_length Hperm). apply length_seq. }
  assert (Hin : forall i, i ∈ indices <-> (i < n)%nat).
  { intros i. rewrite Hperm, elem_of_seq. lia. }
  set (k := Z.to_nat kz) in *.
  assert (Hkn : (k <= n)%nat) by lia.
  rewrite <- (take_drop k indices) in Hin.
  assert (Htk : Forall (fun i => (i < t_len x)%nat) (take k indices)).
  { apply Forall_forall. intros i Hi. apply Hin, elem_of_app. left. assumption. }
  assert (Hdk : Forall (fun i => (i < t_len x)%nat) (drop k indices)).
  { apply Forall_forall. intros i Hi. apply Hin, elem_of_app. right. assumption. }
  destruct (dataset_getitem_total x y _ Hxy Htk) as (a1 & b1 & Hg1 & Ha1 & Hb1).
  destruct (dataset_getitem_total x y _ Hxy Hdk) as (a2 & b2 & Hg2 & Ha2 & Hb2).
  exists (Dataset a1 b1), (Dataset a2 b2).
  split; [assumption |].
  split.
  { unfold train_test. rewrite Hlo, Hhi. rewrite orb_false_l.
    rewrite (bind_lift_ok _ _ _ _ (tensor_dataset_ok x y Hxy)).
    change (ds_len (Dataset x y)) with n.
    unfold PyFloat.int_mul in Hk |- *.
    destruct (PyFloat.of_int (Z.of_nat n)) as [nf |] eqn:Hnf; [| discriminate].
    rewrite (bind_lift_ok _ (PyFloat.mul nf r)) by reflexivity.
    rewrite (bind_lift_ok _ _ _ _ Hk).
    replace kz with (Z.of_nat k) by lia.
    erewrite bind_ok
      by (apply (random_split_ok (Dataset x y) k w); [exact Hkn | exact Hlen]).
    cbv beta iota.
    change (ds_len (Dataset x y)) with n. fold indices.
    rewrite (bind_lift_ok _ _ _ _ Hg1). cbv beta iota.
    rewrite (bind_lift_ok _ _ _ _ Hg2). cbv beta iota.
    rewrite (bind_lift_ok _ _ _ _ (tensor_dataset_ok a1 b1 ltac:(congruence))).
    rewrite (bind_lift_ok _ _ _ _ (tensor_dataset_ok a2 b2 ltac:(congruence))).
    reflexivity. }
  simpl tensors0; simpl tensors1.
  split; [assumption |]. split; [assumption |].
  split; [exact Hkn |].
  split; [unfold ds_len; simpl; rewrite Ha1, length_take; lia |].
  unfold ds_len; simpl; rewrite Ha2, length_drop; lia.
Qed.

(** X1.  The split loses and invents nothing.  For a ratio in the closed
    range [0.1, 0.99] and tensors of equal length, the samples of the two
    parts together are a rearrangement of the samples of the input, each
    feature item still paired with its own label item, and both parts keep
    the trailing dimensions of the input. *)
Theorem train_test_keeps_samples (x y : tensor) (r : PyFloat.float) (w : world) :
  randperm_permutes ->
  PyFloat.valid r = true -> r <> S754_nan ->
  PyFloat.ltb r PyFloat.lit_0_1 || PyFloat.ltb PyFloat.lit_0_99 r = false ->
  t_len x = t_len y ->
  Z.of_nat (t_len x) < 2 ^ 53 ->
  exists (train test : dataset) (w' : world),
    train_test x y r w = (Ok (train, test), w') /\
    Permutation (samples train ++ samples test) (samples (Dataset x y)) /\
    t_dims (tensors0 train) = t_dims x /\ t_dims (tensors1 train) = t_dims y /\
    t_dims (tensors0 test) = t_dims x /\ t_dims (tensors1 test) = t_dims y.
Proof.
  intros Hperm Hv Hnan Hg Hxy Hn.
  destruct (train_test_closed x y r w Hperm Hv Hnan Hg Hxy Hn)
    as (k & train & test & _ & Hrun & Htr & Hte & _).
  exists train, test. eexists. split; [exact Hrun |].
  apply dataset_getitem_inv in Htr as (Hx1 & Hy1 & Hd1 & Hd1').
  apply dataset_getitem_inv in Hte as (Hx2 & Hy2 & Hd2 & Hd2').
  split; [| auto].
  unfold samples. simpl tensors0; simpl tensors1.
  pose proof (select_rows_zip _ _ _ _ _ Hx1 Hy1) as Hz1.
  pose proof (select_rows_zip _ _ _ _ _ Hx2 Hy2) as Hz2.
  pose proof (select_rows_app _ _ _ _ _ Hz1 Hz2) as Hall.
  rewrite take_drop in Hall.
  eapply select_rows_permutation; [| exact Hall].
  rewrite length_zip. unfold t_len in Hxy. rewrite <- Hxy, Nat.min_id.
  apply Hperm.
Qed.

(** X3.  A ratio that is not a number.  NaN compares false with both bounds,
    so it passes the guard of [train_test]; with tensors of equal length the
    call then fails in [round] with the ValueError of the conversion, before
    a permutation is drawn. *)
Theorem train_test_nan (x y : tensor) (w : world) :
  t_len x = t_len y ->
  Z.of_nat (t_len x) < 2 ^ 53 ->
  train_test x y S754_nan w = (Raise (ValueError PyFloat.nan_msg), w).
Proof.
  intros Hxy Hn. unfold train_test.
  change (PyFloat.ltb S754_nan PyFloat.lit_0_1 || PyFloat.ltb PyFloat.lit_0_99 S754_nan)
    with false. cbv iota.
  rewrite (bind_lift_ok _ _ _ _ (tensor_dataset_ok x y Hxy)).
  change (ds_len (Dataset x y)) with (t_len x).
  destruct (of_int_at_most (Z.of_nat (t_len x)) ltac:(lia)) as (nf & Hnf & _).
  unfold PyFloat.int_mul. rewrite Hnf.
  rewrite (bind_lift_ok _ (PyFloat.mul nf S754_nan)) by reflexivity.
  assert (Hmul : PyFloat.mul nf S754_nan = S754_nan) by (destruct nf; reflexivity).
  rewrite Hmul. reflexivity.
Qed.

(** X4.  Tensors of different lengths.  Past the guard, [train_test] fails
    with the AssertionError of [TensorDataset] when the two tensors differ
    in length, and has then done nothing else. *)
Theorem train_test_length_mismatch (x y : tensor) (r : PyFloat.float) (w : world) :
  PyFloat.ltb r PyFloat.lit_0_1 || PyFloat.ltb PyFloat.lit_0_99 r = false ->
  t_len x <> t_len y ->
  train_test x y r w = (Raise AssertionError, w).
Proof.
  intros Hg Hxy. unfold train_test. rewrite Hg.
  unfold tensor_dataset. apply Nat.eqb_neq in Hxy. rewrite Hxy. reflexivity.
Qed.

(** X6.  The two parts of the split of [fit].  [fit] splits with the ratio
    0.95; for a dataset of [n < 2^48] samples the split returns, the train
    part has a sample whenever the dataset has one, and the validation part
    is empty exactly when [n <= 10]. *)
Theorem fit_validation_part (train : dataset) (w : world) :
  randperm_permutes ->
  t_len (tensors0 train) = t_len (tensors1 train) ->
  Z.of_nat (ds_len train) < 2 ^ 48 ->
  exists (tr va : dataset) (w' : world),
    train_test (tensors0 train) (tensors1 train) PyFloat.lit_0_95 w = (Ok (tr, va), w') /\
    (ds_len tr + ds_len va = ds_len train)%nat /\
    ((1 <= ds_len train)%nat -> (1 <= ds_len tr)%nat) /\
    (ds_len va = 0%nat <-> (ds_len train <= 10)%nat).
Proof.
  intros Hperm Hxy Hn. unfold ds_len in Hn |- *.
  assert (H53 : Z.of_nat (t_len (tensors0 train)) < 2 ^ 53).
  { rewrite pow_2_48 in Hn. assert (2 ^ 53 = 9007199254740992) by (vm_compute; reflexivity).
    lia. }
  destruct (train_test_closed (tensors0 train) (tensors1 train) PyFloat.lit_0_95 w Hperm
              ltac:(vm_compute; reflexivity) ltac:(discriminate)
              ltac:(vm_compute; reflexivity) Hxy H53)
    as (k & tr & va & Hk & Hrun & _ & _ & Hkn & Hltr & Hlva).
  cbv zeta in *. unfold ds_len in Hltr, Hlva.
  exists tr, va. eexists. split; [exact Hrun |]. split; [lia |].
  split.
  - intros H1.
    destruct (split_positive (Z.of_nat (t_len (tensors0 train))) ltac:(lia))
      as (k' & Hk' & Hpos).
    rewrite Hk' in Hk. injection Hk as Hk. lia.
  - destruct (le_lt_dec (t_len (tensors0 train)) 10) as [Hsmall | Hbig].
    + rewrite (split_small (Z.of_nat (t_len (tensors0 train))) ltac:(lia)) in Hk.
      injection Hk as Hk. lia.
    + destruct (split_below (Z.of_nat (t_len (tensors0 train))) ltac:(lia))
        as (k' & Hk' & Hlt).
      rewrite Hk' in Hk. injection Hk as Hk. lia.
Qed.

End SplitMore.

Section SplitSizes.
Context `{Libs}.

(** X2.  Neither part of the split is empty.  For every ratio in the closed
    range [0.1, 0.99] and tensors of equal length [n < 2^43], the train part
    has a sample as soon as [n >= 6] and the test part as soon as
    [n >= 51]. *)
Theorem train_test_parts_nonempty (x y : tensor) (r : PyFloat.float) (w : world) :
  randperm_permutes ->
  PyFloat.valid r = true -> r <> S754_nan ->
  PyFloat.ltb r PyFloat.lit_0_1 || PyFloat.ltb PyFloat.lit_0_99 r = false ->
  t_len x = t_len y ->
  Z.of_nat (t_len x) < 2 ^ 43 ->
  exists (train test : dataset) (w' : world),
    train_test x y r w = (Ok (train, test), w') /\
    (ds_len train + ds_len test = t_len x)%nat /\
    ((6 <= t_len x)%nat -> (1 <= ds_len train)%nat) /\
    ((51 <= t_len x)%nat -> (1 <= ds_len test)%nat).
Proof.
  intros Hperm Hv Hnan Hg Hxy Hn.
  assert (H43 : 2 ^ 43 = 8796093022208) by (vm_compute; reflexivity).
  assert (H53 : 2 ^ 53 = 9007199254740992) by (vm_compute; reflexivity).
  destruct (train_test_closed x y r w Hperm Hv Hnan Hg Hxy ltac:(lia))
    as (k & train & test & Hk & Hrun & _ & _ & Hkn & Hltr & Hlte).
  cbv zeta in *.
  apply orb_false_iff in Hg as [Hlo Hhi].
  destruct (round_ratio_bounds (Z.of_nat (t_len x)) r (Z.of_nat k) Hv Hnan Hlo Hhi
              ltac:(lia) Hk) as [Hpos Hlt].
  exists train, test. eexists. split; [exact Hrun |].
  split; [lia |]. split; intros Hsize.
  - specialize (Hpos ltac:(lia)). lia.
  - specialize (Hlt ltac:(lia)). lia.
Qed.

End SplitSizes.

(** ** More on [validate] *)

Section ValidateRuns.
Context `{Libs}.
Variables (self : explorer) (test : dataset) (threshold : option PyFloat.float) (ps : params).

Lemma bind_torch_load_ok {B} (path : string) (m : Model) (f : Model -> M B) (w : world) :
  fs w !! path = Some m ->
  (torch_load path ≫= f) w
  = f m (World (torch_rng w) (np_rng w) (py_rng w) (fs w) (out w ++ [EvLoad path])).
Proof. intros Hm. unfold mbind, M_bind, torch_load. rewrite Hm. reflexivity. Qed.

(** X13.  The model [validate] works with.  Without a model, [validate] reads
    the file at [model_path] first: where there is none it raises
    [FileNotFoundError] and does nothing else; where there is one, the call
    goes on exactly as a call that was handed the stored model, whatever
    path that one is given. *)
Theorem validate_loads_model (model_path other : string) (w : world) :
  let w1 := World (torch_rng w) (np_rng w) (py_rng w) (fs w) (out w ++ [EvLoad model_path]) in
  (fs w !! model_path = None ->
   validate self test model_path None threshold ps w
   = (Raise (FileNotFoundError model_path), w1)) /\
  (forall m, fs w !! model_path = Some m ->
   validate self test model_path None threshold ps w
   = validate self test other (Some m) threshold ps w1).
Proof.
  cbv zeta. split.
  - intros Hnone. unfold validate, mbind, M_bind, torch_load. rewrite Hnone. reflexivity.
  - intros m Hm. unfold validate. rewrite (bind_torch_load_ok _ m) by exact Hm.
    rewrite bind_mret. reflexivity.
Qed.

Hypothesis Hchoice : np_choice_in_range.
Hypothesis Hlen : t_len (tensors0 test) = t_len (tensors1 test).
Hypothesis Hlabels : Forall (fun item => item <> []) (t_items (tensors1 test)).

Lemma choices_snoc (g : NpRng) (n j : nat) :
  choices g n (S j)
  = (fst (choices g n j) ++ [fst (np_choice (snd (choices g n j)) n)],
     snd (np_choice (snd (choices g n j)) n)).
Proof.
  revert g. induction j as [| j IH]; intros g.
  - simpl. destruct (np_choice g n) as [k g']. reflexivity.
  - change (choices g n (S (S j)))
      with (let '(k, g') := np_choice g n in
            let '(ks, g'') := choices g' n (S j) in (k :: ks, g'')).
    destruct (np_choice g n) as [k g'] eqn:Hk. rewrite IH.
    simpl choices. rewrite Hk.
    destruct (choices g' n j) as [ks g'']. reflexivity.
Qed.

Lemma choices_spec (g : NpRng) (n j : nat) :
  (0 < n)%nat ->
  length (fst (choices g n j)) = j /\ Forall (fun k => (k < n)%nat) (fst (choices g n j)).
Proof.
  intros Hn. induction j as [| j [IHl IHf]].
  - split; [reflexivity | apply Forall_nil_2].
  - rewrite choices_snoc. simpl fst. split.
    + rewrite length_app, IHl. simpl. lia.
    + apply Forall_app. split; [exact IHf |].
      apply Forall_cons_2; [apply Hchoice; exact Hn | apply Forall_nil_2].
Qed.

(** One round of the plots, on a test set that is not empty. *)
Lemma validate_show_ok (model : Model) (i : nat) (w : world) :
  (0 < ds_len test)%nat ->
  validate_show test model threshold i tt w
  = (Ok tt,
     World (torch_rng w) (snd (np_choice (np_rng w) (ds_len test))) (py_rng w) (fs w)
           (out w ++ show_events test model threshold
                       (fst (np_choice (np_rng w) (ds_len test))))).
Proof.
  intros Hn. pose proof (Hchoice (np_rng w) (ds_len test) Hn) as Hk.
  unfold validate_show.
  assert (Hpick : np_random_choice (ds_len test) w
                  = (Ok (fst (np_choice (np_rng w) (ds_len test))),
                     World (torch_rng w) (snd (np_choice (np_rng w) (ds_len test)))
                           (py_rng w) (fs w) (out w))).
  { unfold np_random_choice. destruct (Nat.eqb_spec (ds_len test) 0) as [H0' | _]; [lia |].
    destruct (np_choice (np_rng w) (ds_len test)). reflexivity. }
  rewrite (bind_ok _ _ _ _ _ Hpick).
  set (k := fst (np_choice (np_rng w) (ds_len test))) in *.
  destruct (lookup_lt_is_Some_2 (t_items (tensors0 test)) k) as [fi Hf]; [exact Hk |].
  destruct (lookup_lt_is_Some_2 (t_items (tensors1 test)) k) as [li Hl].
  { unfold ds_len, t_len in *. lia. }
  assert (Hli : li <> []) by exact (Forall_lookup_1 _ _ _ _ Hlabels Hl).
  destruct li as [| l0 li']; [congruence |].
  unfold show_events. rewrite Hf, Hl.
  unfold tensor_row. rewrite Hf, Hl.
  rewrite (bind_lift_ok _ (Array3 (t_dims (tensors0 test)) fi)) by reflexivity.
  rewrite (bind_lift_ok _ (Array3 (t_dims (tensors1 test)) (l0 :: li'))) by reflexivity.
  rewrite !bind_emit. cbn [torch_rng np_rng py_rng fs out a_planes].
  rewrite (bind_lift_ok _ l0) by reflexivity.
  rewrite !bind_emit. unfold emit. cbn [torch_rng np_rng py_rng fs out].
  rewrite <- !app_assoc. reflexivity.
Qed.

(** The first [j] rounds. *)
Lemma validate_show_loop (model : Model) (j : nat) (w : world) :
  (0 < ds_len test)%nat ->
  for_each (validate_show test model threshold) (seq 0 j) tt w
  = (Ok tt,
     World (torch_rng w) (snd (choices (np_rng w) (ds_len test) j)) (py_rng w) (fs w)
           (out w ++ flat_map (show_events test model threshold)
                       (fst (choices (np_rng w) (ds_len test) j)))).
Proof.
  intros Hn. induction j as [| j IH].
  - simpl. unfold mret, M_ret. rewrite app_nil_r. destruct w; reflexivity.
  - rewrite (List.seq_S j 0). simpl "+"%nat.
    rewrite (for_each_snoc _ _ _ _ _ _ _ IH), validate_show_ok by exact Hn.
    cbn [torch_rng np_rng py_rng fs out]. rewrite choices_snoc. cbn [fst snd].
    rewrite flat_map_app. simpl flat_map. rewrite app_nil_r, <- app_assoc. reflexivity.
Qed.



End ValidateRuns.

Section ValidateEdges.
Context `{Libs}.

(** X17.  Plots of an empty test set.  With [vis=True] and a test set without
    samples, [validate] fails in the first [np.random.choice] with its
    [ValueError], before anything is shown. *)
Theorem validate_empty_test (self : explorer) (test : dataset) (model_path : string)
    (model : Model) (threshold : option PyFloat.float) (ps : params) (w : world) :
  vis ps = Some true -> ds_len test = 0%nat ->
  validate self test model_path (Some model) threshold ps w
  = (Raise (ValueError msg_choice), w).
Proof.
  intros Hvis Hn. unfold validate. rewrite bind_mret, Hvis.
  unfold for_each, seq, validate_show, np_random_choice, mbind, M_bind.
  rewrite Hn. reflexivity.
Qed.

End ValidateEdges.

Section FitThenValidate.
Context `{Libs}.

(** Whenever [fit] returns, the final checkpoint holds the model it
    returns. *)
Lemma fit_saves_returned (self : explorer) (train : dataset) (model : Model) (ps : params)
    (w w' : world) (m : Model) (o : optimizer) :
  fit self train model ps w = (Ok (m, o), w') ->
  fs w' !! path_join (working_dir self) "best_model.pth" = Some m.
Proof.
  intros Hrun. unfold fit in Hrun.
  apply bind_inv_ok in Hrun as ([tr va] & w1 & _ & Hrun).
  apply bind_inv_ok in Hrun as (bs & w2 & _ & Hrun).
  apply bind_inv_ok in Hrun as ([] & w2' & _ & Hrun).
  apply bind_inv_ok in Hrun as ([] & w2'' & _ & Hrun).
  apply bind_inv_ok in Hrun as (opt & w3 & _ & Hrun).
  apply bind_inv_ok in Hrun as (mt & w4 & _ & Hrun).
  apply bind_inv_ok in Hrun as (E & w5 & _ & Hrun).
  apply bind_inv_ok in Hrun as ([m1 o1] & w6 & _ & Hrun).
  apply bind_inv_ok in Hrun as ([] & w7 & Hsave & Hrun).
  unfold torch_save in Hsave.
  destruct (save_error (path_join (working_dir self) "best_model.pth"));
    [discriminate Hsave |].
  injection Hsave as <-.
  rewrite bind_emit in Hrun.
  unfold mret, M_ret in Hrun. injection Hrun as <- _ <-.
  cbn [fs]. apply lookup_insert_eq.
Qed.

(** X14.  From [fit] to [validate].  After a call of [fit] that returned,
    [validate] without a model and with the path of the final checkpoint
    loads the model that [fit] returned, and goes on as a call that was
    handed it. *)
Theorem fit_then_validate (self : explorer) (train test : dataset) (model : Model)
    (ps ps' : params) (threshold : option PyFloat.float) (other : string)
    (w w' : world) (m : Model) (o : optimizer) :
  fit self train model ps w = (Ok (m, o), w') ->
  let best := path_join (working_dir self) "best_model.pth" in
  validate self test best None threshold ps' w'
  = validate self test other (Some m) threshold ps'
      (World (torch_rng w') (np_rng w') (py_rng w') (fs w') (out w' ++ [EvLoad best])).
Proof.
  intros Hrun best. unfold validate.
  rewrite (bind_torch_load_ok _ m) by exact (fit_saves_returned _ _ _ _ _ _ _ _ Hrun).
  rewrite bind_mret. reflexivity.
Qed.

End FitThenValidate.

Section BinarizeMore.

Lemma SFcompare_total (a b : PyFloat.float) :
  a <> S754_nan -> b <> S754_nan -> exists c, SFcompare a b = Some c.
Proof.
  intros Ha Hb.
  destruct a as [sa | sa | | sa ma ea], b as [sb | sb | | sb mb eb];
    try contradiction; simpl; eauto.
Qed.

Lemma not_ltb_leb (a b : PyFloat.float) :
  a <> S754_nan -> b <> S754_nan -> PyFloat.ltb a b = false -> PyFloat.leb b a = true.
Proof.
  intros Ha Hb. unfold PyFloat.ltb, PyFloat.leb, SFltb, SFleb.
  rewrite (SFcompare_antisym a b).
  destruct (SFcompare_total a b Ha Hb) as [c ->]. destruct c; simpl; congruence.
Qed.

Lemma leb_not_nan (a b : PyFloat.float) : PyFloat.leb a b = true -> a <> S754_nan.
Proof. intros Hle ->. discriminate. Qed.

(** The cast to float32 keeps the sign, and never gives NaN. *)
Lemma shr_1_nonneg (mrs : shr_record) : 0 <= shr_m mrs -> 0 <= shr_m (shr_1 mrs).
Proof. destruct mrs as [[| [q | q |] | q] r s]; simpl; lia. Qed.

Lemma shr_fexp_nonneg (prec emax m e : Z) (l : location) :
  0 <= m -> 0 <= shr_m (fst (shr_fexp prec emax m e l)).
Proof.
  intros Hm. unfold shr_fexp, shr.
  assert (H0 : 0 <= shr_m (shr_record_of_loc m l)) by (destruct l as [| []]; exact Hm).
  destruct (fexp prec emax (Zdigits2 m + e) - e) as [| p | p]; simpl fst; try exact H0.
  rewrite iter_pos_nat. induction (Pos.to_nat p) as [| n IH]; [exact H0 |].
  simpl Nat.iter. apply shr_1_nonneg, IH.
Qed.

Lemma binary_round_aux_signed (prec emax : Z) (s : bool) (m e : Z) (l : location) :
  0 <= m -> signed s (binary_round_aux prec emax s m e l).
Proof.
  intros Hm. unfold binary_round_aux.
  pose proof (shr_fexp_nonneg prec emax m e l Hm) as H1.
  destruct (shr_fexp prec emax m e l) as [mrs1 e1]. simpl fst in H1.
  pose proof (round_nearest_even_ge mrs1) as Hge.
  pose proof (shr_fexp_nonneg prec emax
                (round_nearest_even (shr_m mrs1) (loc_of_shr_record mrs1)) e1 loc_Exact
                ltac:(lia)) as H2.
  destruct (shr_fexp prec emax _ e1 loc_Exact) as [mrs2 e2]. simpl fst in H2.
  destruct (shr_m mrs2) as [| q | q]; [left; reflexivity | | lia].
  destruct (e2 <=? emax - prec); [right; right; eauto | right; left; reflexivity].
Qed.

Lemma binary_round_signed (prec emax : Z) (s : bool) (m : positive) (e : Z) :
  signed s (binary_round prec emax s m e).
Proof.
  unfold binary_round.
  destruct (shl_align m e _) as [mz ez]. apply binary_round_aux_signed. lia.
Qed.

Lemma to_float32_finite (s : bool) (m : positive) (e : Z) :
  signed s (PyFloat.to_float32 (S754_finite s m e)).
Proof.
  unfold PyFloat.to_float32.
  destruct (binary_round_signed 24 128 s m e) as [-> | [-> | (m' & e' & ->)]].
  - left; reflexivity.
  - right; left; reflexivity.
  - apply binary_round_signed.
Qed.

Lemma to_float32_positive (t : PyFloat.float) :
  PyFloat.ltb PyFloat.zero t = true ->
  PyFloat.leb PyFloat.zero (PyFloat.to_float32 t) = true.
Proof.
  destruct t as [s | s | | s m e]; try discriminate.
  - destruct s; [discriminate | reflexivity].
  - destruct s; [discriminate |]. intros _.
    destruct (to_float32_finite false m e) as [-> | [-> | (m' & e' & ->)]]; reflexivity.
Qed.

Lemma to_float32_nonpositive (t : PyFloat.float) :
  PyFloat.leb t PyFloat.zero = true ->
  PyFloat.leb (PyFloat.to_float32 t) PyFloat.zero = true.
Proof.
  destruct t as [s | s | | s m e]; try discriminate.
  - reflexivity.
  - destruct s; [reflexivity | discriminate].
  - destruct s; [| discriminate]. intros _.
    destruct (to_float32_finite true m e) as [-> | [-> | (m' & e' & ->)]]; reflexivity.
Qed.

Lemma leb_not_nan_r (a b : PyFloat.float) : PyFloat.leb a b = true -> b <> S754_nan.
Proof. intros Hle ->. destruct a; discriminate. Qed.

(** X18.  The thresholded mask has two values.  With a threshold above zero,
    every pixel of the mask is 1.0 or 0.0 where the prediction is a number,
    and NaN where it is NaN. *)
Theorem binarize_two_valued (t : PyFloat.float) (pr_mask : list PyFloat.float) :
  PyFloat.ltb PyFloat.zero t = true ->
  exists px, binarize (Some t) pr_mask = PixF px /\
    forall (i : nat) (v : PyFloat.float), pr_mask !! i = Some v ->
      (v <> S754_nan -> px !! i = Some PyFloat.lit_1_0 \/ px !! i = Some PyFloat.zero) /\
      (v = S754_nan -> px !! i = Some v).
Proof.
  intros Ht. unfold binarize. cbv zeta. eexists. split; [reflexivity |].
  intros i v Hv. rewrite !list_lookup_fmap, Hv. cbn [fmap option_fmap option_map].
  pose proof (to_float32_positive t Ht) as Ht32.
  pose proof (leb_not_nan_r _ _ Ht32) as Htn.
  set (t32 := PyFloat.to_float32 t) in *.
  split.
  - intros Hvn. destruct (PyFloat.ltb v t32) eqn:Hlt.
    + destruct (PyFloat.leb t32 PyFloat.zero); [left | right]; reflexivity.
    + left. rewrite (not_ltb_leb v t32 Hvn Htn Hlt). reflexivity.
  - intros Hnan. rewrite Hnan. clear. destruct t32 as [s | s | | s m e]; reflexivity.
Qed.

(** X19.  Thresholds that do not separate.  With a threshold of zero or
    below, the first assignment sets the values under the threshold to 0
    and the second then sets them to 1 with all the others: every pixel
    that is a number becomes 1.0.  With NaN as threshold both comparisons
    are false everywhere and the prediction is shown as it is. *)
Theorem binarize_degenerate_threshold (t : PyFloat.float) (pr_mask : list PyFloat.float) :
  (PyFloat.leb t PyFloat.zero = true ->
   exists px, binarize (Some t) pr_mask = PixF px /\
     forall (i : nat) (v : PyFloat.float), pr_mask !! i = Some v -> v <> S754_nan -> px !! i = Some PyFloat.lit_1_0) /\
  (t = S754_nan -> binarize (Some t) pr_mask = PixF pr_mask).
Proof.
  split.
  - intros Ht. unfold binarize. cbv zeta. eexists. split; [reflexivity |].
    intros i v Hv Hvn. rewrite !list_lookup_fmap, Hv. cbn [fmap option_fmap option_map].
    pose proof (to_float32_nonpositive t Ht) as Ht32.
    pose proof (leb_not_nan _ _ Ht32) as Htn.
    set (t32 := PyFloat.to_float32 t) in *.
    destruct (PyFloat.ltb v t32) eqn:Hlt.
    + rewrite Ht32. reflexivity.
    + rewrite (not_ltb_leb v t32 Hvn Htn Hlt). reflexivity.
  - intros ->. unfold binarize. cbv zeta.
    change (PyFloat.to_float32 S754_nan) with (S754_nan : PyFloat.float). f_equal.
    rewrite map_map. rewrite <- (map_id pr_mask) at 2. apply map_ext. intros v.
    destruct v as [s | s | | s m e]; reflexivity.
Qed.

End BinarizeMore.

(** ** More on [augmentation] *)

Section AugmentEdges.
Context `{Libs}.

(** X24.  Tensors that do not stack.  Where features and labels differ in
    length, height or width, [augmentation] fails with the [ValueError] of
    the first concatenation: nothing is printed and the generator is not
    seeded. *)
Theorem augmentation_stack_mismatch (d : dataset) (vis : bool) (w : world) :
  t_len (tensors0 d) <> t_len (tensors1 d)
  \/ snd (fst (t_dims (tensors0 d))) <> snd (fst (t_dims (tensors1 d)))
  \/ snd (t_dims (tensors0 d)) <> snd (t_dims (tensors1 d)) ->
  augmentation d vis w = (Raise (ValueError msg_concat), w).
Proof.
  intros Hmis. unfold augmentation, concatenate1.
  destruct (t_dims (tensors0 d)) as [[ca ha] wa], (t_dims (tensors1 d)) as [[cb hb] wb].
  simpl in Hmis.
  destruct (decide (t_len (tensors0 d) = t_len (tensors1 d) /\ ha = hb /\ wa = wb))
    as [(H1 & H2 & H3) | _]; [| reflexivity].
  exfalso. destruct Hmis as [Hm | [Hm | Hm]]; contradiction.
Qed.

Lemma bind_lift_raise {A B} (e : exn) (f : A -> M B) (w : world) :
  (lift (Raise e) ≫= f) w = (Raise e, w).
Proof. reflexivity. Qed.

Lemma show_plane_raise {B} (e : exn) (cmap title : string) (f : unit -> M B) (w : world) :
  (show_plane (Raise e) cmap title ≫= f) w = (Raise e, w).
Proof. reflexivity. Qed.

Lemma for_each_first_raises {A S} (body : A -> S -> M S) (x : A) (xs : list A) (s : S)
    (w w' : world) (e : exn) :
  body x s w = (Raise e, w') -> for_each body (x :: xs) s w = (Raise e, w').
Proof. intros Hx. simpl. unfold mbind, M_bind. rewrite Hx. reflexivity. Qed.

End AugmentEdges.

Section AugmentShapes.
Context `{Libs}.
Variables (d : dataset) (vis : bool) (C L Hh Ww : nat) (w : world).

Hypothesis Hfd : t_dims (tensors0 d) = (C, Hh, Ww).
Hypothesis Htd : t_dims (tensors1 d) = (L, Hh, Ww).
Hypothesis Hlen : t_len (tensors0 d) = t_len (tensors1 d).
Hypothesis Hwf0 : wf_tensor (tensors0 d).
Hypothesis Hwf1 : wf_tensor (tensors1 d).
Hypothesis Hn : (1 <= t_len (tensors0 d))%nat.

Local Abbreviation stacked :=
  (Tensor ((C + L)%nat, Hh, Ww) (zip_with app (t_items (tensors0 d)) (t_items (tensors1 d)))).

Lemma stack_ok' : concatenate1 (tensors0 d) (tensors1 d) = Ok stacked.
Proof.
  unfold concatenate1. rewrite Hfd, Htd.
  destruct (decide (t_len (tensors0 d) = t_len (tensors1 d) /\ Hh = Hh /\ Ww = Ww))
    as [_ | Hne]; [reflexivity | exfalso; apply Hne; auto].
Qed.

Lemma first_sample :
  exists fi li rest0 rest1,
    t_items (tensors0 d) = fi :: rest0 /\ t_items (tensors1 d) = li :: rest1 /\
    length fi = C /\ length li = L.
Proof.
  unfold t_len in Hn, Hlen.
  destruct (t_items (tensors0 d)) as [| fi rest0] eqn:H0'; [simpl in Hn; lia |].
  destruct (t_items (tensors1 d)) as [| li rest1] eqn:H1'; [simpl in Hlen; lia |].
  exists fi, li, rest0, rest1. split; [reflexivity |]. split; [reflexivity |].
  unfold wf_tensor in Hwf0, Hwf1. rewrite H0', Hfd in Hwf0. rewrite H1', Htd in Hwf1.
  apply Forall_cons_1 in Hwf0 as [[Hf _] _]. apply Forall_cons_1 in Hwf1 as [[Hl _] _].
  auto.
Qed.

(** X25.  Labels without a channel.  On a dataset with samples whose label
    tensor has no channel, [augmentation] fails with [IndexError] when it
    reads the mask of the first sample, right after printing its index. *)
Theorem augmentation_no_label_channel :
  L = 0%nat ->
  augmentation d vis w
  = (Raise IndexError,
     World (torch_rng w) (np_rng w) (py_seed 7) (fs w)
           (out w ++ [EvSeed 7; EvPrint "{}" (Some 0%nat)])).
Proof.
  intros HL. destruct first_sample as (fi & li & rest0 & rest1 & H0' & H1' & Hf & Hl).
  unfold augmentation.
  rewrite (bind_lift_ok _ _ _ _ stack_ok'), bind_random_seed.
  rewrite Hfd. cbn [fst]. unfold t_len. rewrite H0'. simpl length. simpl seq.
  match goal with
  | |- (for_each ?body (?x :: ?xs) ?s ≫= ?k) ?w0 = _ =>
      assert (Hfirst : for_each body (x :: xs) s w0
                       = (Raise IndexError,
                          World (torch_rng w) (np_rng w) (py_seed 7) (fs w)
                                (out w ++ [EvSeed 7; EvPrint "{}" (Some 0%nat)])))
  end.
  { apply for_each_first_raises. unfold augment_sample. rewrite bind_emit.
    unfold slice_channels, channel_at. cbn [t_items t_dims]. rewrite ?H0', ?H1'.
    simpl zip_with. cbn [lookup list_lookup].
    rewrite (bind_lift_ok _ (Array3 (Nat.min C (C + L), Hh, Ww) (take C (fi ++ li))))
      by reflexivity.
    assert (Hout : (fi ++ li) !! C = None).
    { apply lookup_ge_None_2. rewrite length_app. lia. }
    rewrite Hout, bind_lift_raise. cbn [torch_rng np_rng py_rng fs out].
    rewrite <- app_assoc. reflexivity. }
  unfold mbind at 1, M_bind at 1. rewrite Hfirst. reflexivity.
Qed.

(** X26.  Plots of a stack with fewer than three channels.  The plots index
    the channels 0, 1 and 2 of the stacked array.  With [vis=True], on a
    dataset with samples whose features and label together have at most
    two channels, [augmentation] fails with [IndexError] in the plots of the
    first sample. *)
Theorem augmentation_plots_need_three_channels :
  vis = true -> (1 <= L)%nat -> (C + L <= 2)%nat ->
  fst (augmentation d vis w) = Raise IndexError.
Proof.
  intros Hv HL HCL. destruct first_sample as (fi & li & rest0 & rest1 & H0' & H1' & Hf & Hl).
  unfold augmentation.
  rewrite (bind_lift_ok _ _ _ _ stack_ok'), bind_random_seed.
  rewrite Hfd. cbn [fst]. unfold t_len. rewrite H0'. simpl length. simpl seq.
  match goal with
  | |- fst ((for_each ?body (?x :: ?xs) ?s ≫= ?k) ?w0) = _ =>
      assert (Hfirst : exists w', for_each body (x :: xs) s w0 = (Raise IndexError, w'))
  end.
  { rewrite Hv.
    assert (Hmask : exists p, (fi ++ li) !! C = Some p).
    { apply lookup_lt_is_Some_2. rewrite length_app. lia. }
    destruct Hmask as [p Hp].
    assert (H2 : (fi ++ li) !! 2%nat = None).
    { apply lookup_ge_None_2. rewrite length_app. lia. }
    destruct ((fi ++ li) !! 0%nat) as [p0 |] eqn:Hp0;
      [| apply lookup_ge_None_1 in Hp0; rewrite length_app in Hp0; lia].
    match goal with
    | |- exists w', for_each ?body (?x :: ?xs) ?s ?w0 = _ =>
        destruct (body x s w0) as [r w'] eqn:Hbody
    end.
    exists w'. apply for_each_first_raises. rewrite Hbody. f_equal.
    unfold augment_sample in Hbody. rewrite bind_emit in Hbody.
    unfold slice_channels, channel_at in Hbody. cbn [t_items t_dims] in Hbody.
    rewrite ?H0', ?H1' in Hbody. simpl zip_with in Hbody. cbn [lookup list_lookup] in Hbody.
    rewrite (bind_lift_ok _ (Array3 (Nat.min C (C + L), Hh, Ww) (take C (fi ++ li))))
      in Hbody by reflexivity.
    rewrite Hp in Hbody.
    rewrite (bind_lift_ok _ p) in Hbody by reflexivity.
    rewrite bind_transform in Hbody.
    destruct (transformations _ _ _) as [[img msk] g'] in Hbody. cbn [fst snd] in Hbody.
    rewrite !bind_assoc in Hbody. rewrite Hp0, show_plane_ok in Hbody.
    destruct ((fi ++ li) !! 1%nat) as [p1 |].
    - rewrite bind_assoc, show_plane_ok in Hbody. rewrite H2 in Hbody.
      rewrite bind_assoc, show_plane_raise in Hbody. congruence.
    - rewrite bind_assoc, show_plane_raise in Hbody. congruence. }
  destruct Hfirst as [w' Hfirst].
  unfold mbind at 1, M_bind at 1. rewrite Hfirst. reflexivity.
Qed.

End AugmentShapes.

Section TransformedFrom.
Context `{Libs}.

Lemma transformed_from_app (g : PyRng) (xs ys : list (array3 * array3)) :
  transformed_from g (xs ++ ys)
  = (fst (transformed_from g xs) ++ fst (transformed_from (snd (transformed_from g xs)) ys),
     snd (transformed_from (snd (transformed_from g xs)) ys)).
Proof.
  revert g. induction xs as [| [image mask] xs IH]; intros g; simpl.
  - destruct (transformed_from g ys). reflexivity.
  - destruct (transformations g image mask) as [r g']. rewrite IH.
    destruct (transformed_from g' xs) as [rs g'']. reflexivity.
Qed.

Lemma sample_inputs_len (d : dataset) :
  t_len (tensors0 d) = t_len (tensors1 d) -> length (sample_inputs d) = t_len (tensors0 d).
Proof.
  intros Hlen. unfold sample_inputs. rewrite length_zip_with. unfold t_len in *. lia.
Qed.

End TransformedFrom.

Section AugmentTwice.
Context `{Libs}.
Variables (d : dataset) (vis : bool) (C Hh Ww : nat) (w : world).

Hypothesis Hfd : t_dims (tensors0 d) = (C, Hh, Ww).
Hypothesis Htd : t_dims (tensors1 d) = (1%nat, Hh, Ww).
Hypothesis Hlen : t_len (tensors0 d) = t_len (tensors1 d).
Hypothesis Hwf0 : wf_tensor (tensors0 d).
Hypothesis Hwf1 : wf_tensor (tensors1 d).
Hypothesis Hvis : vis = false \/ (2 <= C)%nat.
Hypothesis Hshape : transform_keeps_shape.
Hypothesis Hn : (1 <= t_len (tensors0 d))%nat.

(** X23.  Augmenting twice.  The generator is seeded with 7 in every call,
    so a second call on the result of the first transforms the original
    samples exactly as the first call did: of the [4 n] samples it returns,
    the third quarter repeats the second, in features and in labels. *)
Theorem augmentation_twice_repeats :
  let n := t_len (tensors0 d) in
  exists (res res2 : dataset) (w1 w2 : world),
    augmentation d vis w = (Ok res, w1) /\
    augmentation res vis w1 = (Ok res2, w2) /\
    ds_len res2 = (4 * n)%nat /\
    take (2 * n) (t_items (tensors0 res2)) = t_items (tensors0 res) /\
    take (2 * n) (t_items (tensors1 res2)) = t_items (tensors1 res) /\
    take n (drop (2 * n) (t_items (tensors0 res2))) = drop n (t_items (tensors0 res)) /\
    take n (drop (2 * n) (t_items (tensors1 res2))) = drop n (t_items (tensors1 res)).
Proof.
  intros n.
  destruct (augmentation_run d vis C 1 Hh Ww Hfd Htd Hlen Hwf0 Hwf1 (Nat.le_refl 1) Hvis
              Hshape w Hn) as [evs1 Hrun1].
  rewrite decide_True in Hrun1 by reflexivity.
  destruct (augmentation_doubles_at d vis C 1 Hh Ww Hfd Htd Hlen Hwf0 Hwf1 (Nat.le_refl 1)
              Hvis Hshape w eq_refl Hn)
    as (res' & w1' & Hrun1' & Hl0 & Hl1 & _ & _ & Hlo & _ & _ & Hd0 & Hd1 & Hw0 & Hw1).
  rewrite Hrun1 in Hrun1'. injection Hrun1' as <- _.
  set (outs := fst (transformed_from (py_seed 7) (sample_inputs d))) in *.
  set (res := Dataset _ _) in *. set (w1 := World _ _ _ _ _) in *.
  fold n in Hl0, Hl1, Hlo.
  assert (Hlen' : t_len (tensors0 res) = t_len (tensors1 res)) by (rewrite Hl1; exact Hl0).
  assert (Hn' : (1 <= t_len (tensors0 res))%nat)
    by (change (1 <= ds_len res)%nat; rewrite Hl0; unfold n; lia).
  destruct (augmentation_run res vis C 1 Hh Ww ltac:(rewrite Hd0; exact Hfd)
              ltac:(rewrite Hd1; exact Htd) Hlen' Hw0 Hw1 (Nat.le_refl 1) Hvis
              Hshape w1 Hn') as [evs2 Hrun2].
  rewrite decide_True in Hrun2 by reflexivity.
  eexists res, _, w1, _. split; [exact Hrun1 |]. split; [exact Hrun2 |].
  assert (Hin : sample_inputs res
                = sample_inputs d
                  ++ zip_with (sample_input d) (map a_planes (map fst outs))
                       (map a_planes (map snd outs))).
  { unfold sample_inputs at 1. subst res. cbn [tensors0 tensors1 t_items].
    rewrite zip_with_app by (unfold t_len in Hlen; exact Hlen). reflexivity. }
  rewrite Hin, transformed_from_app. fold outs. cbn [fst].
  set (outs' := fst (transformed_from _ _)).
  unfold ds_len. cbn [tensors0 tensors1 t_items].
  assert (Hl0' : length (t_items (tensors0 res)) = (2 * n)%nat) by exact Hl0.
  assert (Hl1' : length (t_items (tensors1 res)) = (2 * n)%nat) by exact Hl1.
  assert (Hlo' : length outs' = n).
  { unfold outs'. rewrite transformed_from_length, length_zip_with, !length_map. lia. }
  assert (Hi0 : length (t_items (tensors0 d)) = n) by reflexivity.
  assert (Hi1 : length (t_items (tensors1 d)) = n) by (unfold n, t_len in *; lia).
  split.
  { unfold t_len. cbn [t_items]. rewrite !length_app, !length_map, length_app, Hl0', Hlo, Hlo'. lia. }
  split; [rewrite <- Hl0'; apply take_app_length |].
  split; [rewrite <- Hl1'; apply take_app_length |].
  split.
  - rewrite <- Hl0' at 1. rewrite drop_app_length, !map_app.
    rewrite take_app_length' by (rewrite !length_map; symmetry; exact Hlo).
    subst res. cbn [tensors0 t_items]. rewrite <- Hi0 at 1. rewrite drop_app_length.
    reflexivity.
  - rewrite <- Hl1' at 1. rewrite drop_app_length, !map_app.
    rewrite take_app_length' by (rewrite !length_map; symmetry; exact Hlo).
    subst res. cbn [tensors1 t_items]. rewrite <- Hi1 at 1. rewrite drop_app_length.
    reflexivity.
Qed.

End AugmentTwice.

Section AugmentTrace.
Context `{Libs}.

(** The plots of one pass, where every plane they index exists. *)
Lemma plots_events (stk : tensor) (i : nat) (s : list plane) (img msk : array3) (vis : bool) :
  t_items stk !! i = Some s ->
  (vis = true ->
   is_Some (s !! 0%nat) /\ is_Some (s !! 1%nat) /\ is_Some (s !! 2%nat) /\
   is_Some (a_planes img !! 0%nat) /\ is_Some (a_planes img !! 1%nat) /\
   is_Some (a_planes msk !! 0%nat)) ->
  forall B (f : unit -> M B) (w0 : world),
    ((if vis
      then
        _ ← show_plane (channel_at stk i 0) "jet" "Исходная матрица VH";
        _ ← show_plane (channel_at stk i 1) "jet" "Исходная матрица VV";
        _ ← show_plane (channel_at stk i 2) "Blues" "Исходная матрица label";
        _ ← show_plane (plane_at img 0) "jet" "Преобразованная матрица VH";
        _ ← show_plane (plane_at img 1) "jet" "Преобразованная матрица VV";
        show_plane (plane_at msk 0) "Blues" "Преобразованная матрица label"
      else mret tt) ≫= f) w0
    = f tt (World (torch_rng w0) (np_rng w0) (py_rng w0) (fs w0)
              (out w0 ++ (if vis then sample_plots s (img, msk) else []))).
Proof.
  intros Hs Hv B f w0. destruct vis.
  - destruct (Hv eq_refl) as ([p0 Hp0] & [p1 Hp1] & [p2 Hp2] & [q0 Hq0] & [q1 Hq1] & [q2 Hq2]).
    unfold channel_at, plane_at, sample_plots. cbn [fst snd].
    rewrite Hs, Hp0, Hp1, Hp2, Hq0, Hq1, Hq2.
    repeat (rewrite bind_assoc, show_plane_ok). rewrite show_plane_ok.
    cbn [torch_rng np_rng py_rng fs out plot_of]. unfold plot_events.
    rewrite <- !app_assoc. reflexivity.
  - rewrite bind_mret, app_nil_r. destruct w0; reflexivity.
Qed.

Variables (d : dataset) (vis : bool) (C Hh Ww : nat).

Hypothesis Hfd : t_dims (tensors0 d) = (C, Hh, Ww).
Hypothesis Htd : t_dims (tensors1 d) = (1%nat, Hh, Ww).
Hypothesis Hlen : t_len (tensors0 d) = t_len (tensors1 d).
Hypothesis Hwf0 : wf_tensor (tensors0 d).
Hypothesis Hwf1 : wf_tensor (tensors1 d).
Hypothesis Hvis : vis = false \/ (2 <= C)%nat.
Hypothesis Hshape : transform_keeps_shape.

Local Abbreviation stacked :=
  (Tensor ((C + 1)%nat, Hh, Ww) (zip_with app (t_items (tensors0 d)) (t_items (tensors1 d)))).

(** One pass of the loop body, with what it emits. *)
Lemma augment_sample_events (i : nat) (fi li : list plane) (outs : list (array3 * array3))
    (w : world) :
  t_items (tensors0 d) !! i = Some fi -> t_items (tensors1 d) !! i = Some li ->
  length outs = i ->
  let r := transformations (py_rng w) (fst (sample_input d fi li))
                           (snd (sample_input d fi li)) in
  augment_sample C stacked vis i
    (batch_of (C, Hh, Ww) (map fst outs), batch_of (1%nat, Hh, Ww) (map snd outs)) w
  = (Ok (batch_of (C, Hh, Ww) (map fst (outs ++ [fst r])),
         batch_of (1%nat, Hh, Ww) (map snd (outs ++ [fst r]))),
     World (torch_rng w) (np_rng w) (snd r) (fs w)
           (out w ++ sample_trace vis i (fi ++ li) (fst r))).
Proof.
  intros Hf Hl Hlen_outs r.
  destruct (sample_input_wf d C 1 Hh Ww Hfd Htd Hlen Hwf0 Hwf1 (Nat.le_refl 1) i fi li Hf Hl)
    as (Hdi & Hdm & Hwi & Hwm).
  pose proof (Hshape (py_rng w) (fst (sample_input d fi li)) (snd (sample_input d fi li)))
    as (Hsi & Hsm & Hswi & Hswm).
  fold r in Hsi, Hsm, Hswi, Hswm.
  specialize (Hswi Hwi). specialize (Hswm Hwm). rewrite Hdi in Hsi. rewrite Hdm in Hsm.
  destruct (stacked_mask d C 1 Hh Ww Hfd Htd Hlen Hwf0 Hwf1 (Nat.le_refl 1) i fi li Hf Hl)
    as (p & Hp & Hmask).
  destruct (sample_wf d C 1 Hh Ww Hfd Htd Hwf0 Hwf1 i fi li Hf Hl) as [[Hlf _] [Hll _]].
  unfold augment_sample.
  rewrite bind_emit.
  rewrite (bind_lift_ok _ _ _ _
             (stacked_slice d C 1 Hh Ww Hfd Htd Hlen Hwf0 Hwf1 (Nat.le_refl 1) i fi li Hf Hl)).
  rewrite (bind_lift_ok _ _ _ _ Hp).
  cbn [t_dims fst snd]. rewrite Hmask.
  rewrite bind_transform. cbn [py_rng torch_rng np_rng fs out]. fold r.
  destruct r as [[img msk] g']. cbn [fst snd] in *.
  rewrite (plots_events stacked i (fi ++ li) img msk vis
             (stacked_lookup d C 1 Hh Ww i fi li Hf Hl)).
  2:{ intros Hvt. pose proof Hvis as [Hv | HC]; [congruence |].
      unfold wf_array3 in Hswi, Hswm. rewrite Hsi in Hswi. rewrite Hsm in Hswm.
      destruct Hswi as [Hli _]. destruct Hswm as [Hlm _].
      repeat split; apply lookup_lt_is_Some_2; rewrite ?length_app; lia. }
  cbn [py_rng torch_rng np_rng fs out].
  unfold sample_trace.
  destruct (Nat.eqb_spec i 0) as [Hi | Hi].
  - destruct outs as [| o outs']; [| simpl in Hlen_outs; lia].
    simpl. unfold singleton_batch. rewrite Hsi, Hsm, <- !app_assoc. reflexivity.
  - destruct outs as [| o outs']; [simpl in Hlen_outs; lia |].
    rewrite !map_app. cbn [map fst snd].
    rewrite <- !app_comm_cons. cbn [batch_of].
    lift_step.
    rewrite (bind_lift_ok _ _ _ _ (concatenate0_snoc _ _ img Hsi)).
    lift_step.
    rewrite (bind_lift_ok _ _ _ _ (concatenate0_snoc _ _ msk Hsm)).
    cbn [map]. rewrite !map_app, <- !app_assoc. reflexivity.
Qed.

Local Abbreviation trace_of := (fun (i : nat) (sr : list plane * (array3 * array3)) =>
  sample_trace vis i (fst sr) (snd sr)).

(** The loop over the first [j] samples, with what it emits. *)
Lemma augment_loop_events (j : nat) (w : world) :
  (j <= t_len (tensors0 d))%nat ->
  let outs := fst (transformed_from (py_rng w) (take j (sample_inputs d))) in
  for_each (augment_sample C stacked vis) (seq 0 j) (None, None) w
  = (Ok (batch_of (C, Hh, Ww) (map fst outs), batch_of (1%nat, Hh, Ww) (map snd outs)),
     World (torch_rng w) (np_rng w)
           (snd (transformed_from (py_rng w) (take j (sample_inputs d))))
           (fs w)
           (out w ++ concat (imap trace_of (zip (take j (t_items stacked)) outs)))).
Proof.
  induction j as [| j IH]; intros Hj; cbv zeta.
  - simpl. rewrite app_nil_r. destruct w; reflexivity.
  - cbv zeta in IH. specialize (IH ltac:(lia)).
    destruct (lookup_lt_is_Some_2 (t_items (tensors0 d)) j) as [fi Hf];
      [unfold t_len in Hj; lia |].
    destruct (lookup_lt_is_Some_2 (t_items (tensors1 d)) j) as [li Hl];
      [unfold t_len in Hj, Hlen; lia |].
    rewrite (take_S_r _ _ _ (sample_inputs_lookup d j fi li Hf Hl)).
    rewrite (take_S_r _ _ _ (stacked_lookup d C 1 Hh Ww j fi li Hf Hl)).
    rewrite transformed_from_snoc. cbn [fst snd].
    rewrite (List.seq_S j 0). simpl Nat.add.
    rewrite (for_each_snoc _ _ _ _ _ _ _ IH).
    set (outs := fst (transformed_from (py_rng w) (take j (sample_inputs d)))).
    assert (Hlo : length outs = j).
    { unfold outs. rewrite transformed_from_length, length_take, sample_inputs_len by exact Hlen.
      lia. }
    rewrite (augment_sample_events j fi li outs _ Hf Hl Hlo).
    cbn [py_rng torch_rng np_rng fs out].
    assert (Hls : length (take j (t_items stacked)) = j).
    { rewrite length_take. cbn [t_items]. rewrite length_zip_with.
      unfold t_len in Hj, Hlen. lia. }
    rewrite zip_with_app by (rewrite Hls, Hlo; reflexivity).
    rewrite imap_app, concat_app. cbn [imap concat zip_with fst snd].
    rewrite app_nil_r, length_zip_with, Hls, Hlo, Nat.min_id, Nat.add_0_r.
    rewrite <- app_assoc. reflexivity.
Qed.

(** The whole call on a dataset that is not empty, with what it emits. *)
Lemma augmentation_events (w : world) :
  (1 <= t_len (tensors0 d))%nat ->
  let outs := fst (transformed_from (py_seed 7) (sample_inputs d)) in
  augmentation d vis w
  = (Ok (Dataset
           (Tensor (t_dims (tensors0 d)) (t_items (tensors0 d) ++ map a_planes (map fst outs)))
           (Tensor (t_dims (tensors1 d)) (t_items (tensors1 d) ++ map a_planes (map snd outs)))),
     World (torch_rng w) (np_rng w)
           (snd (transformed_from (py_seed 7) (sample_inputs d)))
           (fs w) (out w ++ augmentation_trace d vis)).
Proof.
  intros Hn outs. unfold augmentation.
  rewrite (bind_lift_ok _ _ _ _ (stack_ok d C 1 Hh Ww Hfd Htd Hlen)), bind_random_seed.
  rewrite Hfd. cbn [fst].
  pose proof (augment_loop_events (t_len (tensors0 d))
                (World (torch_rng w) (np_rng w) (py_seed 7) (fs w) (out w ++ [EvSeed 7]))
                (Nat.le_refl _)) as Hloop.
  cbv zeta in Hloop. cbn [py_rng torch_rng np_rng fs out] in Hloop.
  rewrite (take_ge (sample_inputs d)) in Hloop by (rewrite sample_inputs_len by exact Hlen; lia).
  rewrite (take_ge (t_items stacked)) in Hloop
    by (cbn [t_items]; rewrite length_zip_with; unfold t_len in Hlen |- *; lia).
  rewrite (bind_ok _ _ _ _ _ Hloop). cbv beta iota.
  fold outs.
  assert (Hlo : length outs = t_len (tensors0 d)).
  { unfold outs. rewrite transformed_from_length. apply sample_inputs_len. exact Hlen. }
  assert (Hne1 : map fst outs <> []) by (destruct outs; [simpl in Hlo; lia | discriminate]).
  assert (Hne2 : map snd outs <> []) by (destruct outs; [simpl in Hlo; lia | discriminate]).
  rewrite (batch_of_cons _ _ Hne1), (batch_of_cons _ _ Hne2).
  lift_step.
  rewrite (bind_lift_ok _ _ _ _ (concatenate0_ok (tensors0 d) (Tensor (C, Hh, Ww) _) Hfd)).
  lift_step. cbn [t_items].
  rewrite (bind_lift_ok _ _ _ _ (concatenate0_ok (tensors1 d) (Tensor (1%nat, Hh, Ww) _) Htd)).
  rewrite bind_emit.
  unfold lift. rewrite tensor_dataset_ok.
  - cbn [py_rng torch_rng np_rng fs out t_items]. unfold augmentation_trace. fold outs.
    rewrite ?Hfd, ?Htd, <- !app_assoc. reflexivity.
  - unfold t_len. cbn [t_items]. rewrite !length_app, !length_map.
    unfold t_len in Hlen. lia.
Qed.

(** X21.  What [augmentation] emits.  On a paired dataset of [n >= 1]
    samples with one-channel labels, [augmentation] seeds the generator,
    then for each sample in order prints its index and calls the transforms,
    followed with [vis=True] by six plots: the channels 0, 1 and 2 of the
    stacked sample, then the channels 0 and 1 of the transformed features
    and the transformed label; it ends with the closing line, and leaves
    Python's generator in the state the last transform left.  Without plots
    that is two events for each sample, with plots twenty-six. *)
Theorem augmentation_output (w : world) :
  (1 <= t_len (tensors0 d))%nat ->
  exists res : dataset,
    augmentation d vis w
    = (Ok res,
       World (torch_rng w) (np_rng w)
             (snd (transformed_from (py_seed 7) (sample_inputs d)))
             (fs w) (out w ++ augmentation_trace d vis)) /\
    length (augmentation_trace d vis)
    = (2 + (if vis then 26 else 2) * t_len (tensors0 d))%nat.
Proof.
  intros Hn. eexists. split; [exact (augmentation_events w Hn) |].
  unfold augmentation_trace.
  set (outs := fst (transformed_from (py_seed 7) (sample_inputs d))).
  assert (Hlo : length outs = t_len (tensors0 d)).
  { unfold outs. rewrite transformed_from_length. apply sample_inputs_len. exact Hlen. }
  pose proof (transformed_wf d C 1 Hh Ww Hfd Htd Hlen Hwf0 Hwf1 (Nat.le_refl 1) Hshape) as Hwf.
  fold outs in Hwf.
  set (pairs := zip (zip_with app (t_items (tensors0 d)) (t_items (tensors1 d))) outs).
  assert (Hlp : length pairs = t_len (tensors0 d)).
  { unfold pairs. rewrite !length_zip_with. unfold t_len in *. lia. }
  assert (Hall : forall i sr, pairs !! i = Some sr ->
            length (sample_trace vis i (fst sr) (snd sr)) = if vis then 26%nat else 2%nat).
  { intros i [s r] Hsr. unfold pairs in Hsr.
    apply lookup_zip_with_Some in Hsr as (s' & r' & [= <- <-] & Hs & Hr).
    apply lookup_zip_with_Some in Hs as (fi & li & -> & Hf & Hl).
    destruct (sample_wf d C 1 Hh Ww Hfd Htd Hwf0 Hwf1 i fi li Hf Hl) as [[Hlf _] [Hll _]].
    pose proof (Forall_lookup_1 _ _ _ _ Hwf Hr) as (Hd1 & Hd2 & Hw1 & Hw2).
    unfold wf_array3 in Hw1, Hw2. rewrite Hd1 in Hw1. rewrite Hd2 in Hw2.
    destruct Hw1 as [Hl1 _]. destruct Hw2 as [Hl2 _].
    unfold sample_trace. cbn [fst snd]. destruct vis; [| reflexivity].
    pose proof Hvis as [Hv | HC]; [discriminate |].
    unfold sample_plots.
    destruct (lookup_lt_is_Some_2 (fi ++ li) 0) as [p0 ->]; [rewrite length_app; lia |].
    destruct (lookup_lt_is_Some_2 (fi ++ li) 1) as [p1 ->]; [rewrite length_app; lia |].
    destruct (lookup_lt_is_Some_2 (fi ++ li) 2) as [p2 ->]; [rewrite length_app; lia |].
    destruct (lookup_lt_is_Some_2 (a_planes (fst r)) 0) as [q0 ->]; [lia |].
    destruct (lookup_lt_is_Some_2 (a_planes (fst r)) 1) as [q1 ->]; [lia |].
    destruct (lookup_lt_is_Some_2 (a_planes (snd r)) 0) as [q2 ->]; [lia |].
    reflexivity. }
  assert (Hsum : forall (k : nat) (l : list (list plane * (array3 * array3))),
            (forall i sr, l !! i = Some sr ->
               length (sample_trace vis (k + i) (fst sr) (snd sr))
               = if vis then 26%nat else 2%nat) ->
            length (concat (imap (fun i sr => sample_trace vis (k + i) (fst sr) (snd sr)) l))
            = ((if vis then 26 else 2) * length l)%nat).
  { intros k l. revert k. induction l as [| x l IH]; intros k Hl; [simpl; lia |].
    cbn [imap concat]. rewrite length_app, (Hl 0%nat x eq_refl).
    rewrite (imap_ext _ (fun i sr => sample_trace vis (S k + i) (fst sr) (snd sr)))
      by (intros i y _; simpl; f_equal; lia).
    rewrite IH.
    - simpl length. lia.
    - intros i sr Hi. replace (S k + i)%nat with (k + S i)%nat by lia. apply (Hl (S i)). exact Hi. }
  cbn [length]. rewrite length_app. fold pairs.
  rewrite (imap_ext _ (fun i sr => sample_trace vis (0 + i) (fst sr) (snd sr)))
    by reflexivity.
  rewrite (Hsum 0%nat pairs Hall), Hlp. simpl length. lia.
Qed.

(** The third plot of a sample and the channel it shows. *)
Lemma augmentation_third_plot (w : world) (i : nat) (fi li : list plane) :
  vis = true ->
  t_items (tensors0 d) !! i = Some fi -> t_items (tensors1 d) !! i = Some li ->
  exists (res : dataset) (w' : world) (p : plane) (before after : list event),
    augmentation d vis w = (Ok res, w') /\
    out w' = before ++ plot_events p "Blues" "Исходная матрица label" ++ after /\
    (fi ++ li) !! 2%nat = Some p /\
    (C = 2%nat -> li !! 0%nat = Some p) /\
    ((3 <= C)%nat -> fi !! 2%nat = Some p).
Proof.
  intros Hv Hf Hl.
  assert (Hn : (1 <= t_len (tensors0 d))%nat).
  { apply lookup_lt_Some in Hf. unfold t_len. lia. }
  pose proof (augmentation_events w Hn) as Hrun. cbv zeta in Hrun.
  destruct (sample_wf d C 1 Hh Ww Hfd Htd Hwf0 Hwf1 i fi li Hf Hl) as [[Hlf _] [Hll _]].
  pose proof Hvis as [Hv' | HC]; [congruence |].
  destruct (lookup_lt_is_Some_2 (fi ++ li) 2) as [p Hp]; [rewrite length_app; lia |].
  set (outs := fst (transformed_from (py_seed 7) (sample_inputs d))) in *.
  assert (Hlo : length outs = t_len (tensors0 d)).
  { unfold outs. rewrite transformed_from_length. apply sample_inputs_len. exact Hlen. }
  destruct (lookup_lt_is_Some_2 outs i) as [r Hr].
  { rewrite Hlo. apply lookup_lt_Some in Hf. exact Hf. }
  set (pairs := zip (zip_with app (t_items (tensors0 d)) (t_items (tensors1 d))) outs).
  assert (Hpair : pairs !! i = Some (fi ++ li, r)).
  { unfold pairs. apply lookup_zip_with_Some. exists (fi ++ li), r.
    split; [reflexivity |]. split; [| exact Hr].
    apply lookup_zip_with_Some. exists fi, li. auto. }
  eexists _, _, p,
    (out w ++ EvSeed 7 :: concat (imap trace_of (take i pairs))
     ++ EvPrint "{}" (Some (length (take i pairs) + 0)%nat) :: EvTransform
        :: plot_of ((fi ++ li) !! 0%nat) "jet" "Исходная матрица VH"
        ++ plot_of ((fi ++ li) !! 1%nat) "jet" "Исходная матрица VV"), _.
  split; [exact Hrun |].
  split.
  - cbn [out]. unfold augmentation_trace. fold outs. fold pairs.
    rewrite <- (take_drop_middle pairs i _ Hpair) at 1.
    rewrite imap_app, concat_app. cbn [imap concat fst snd].
    unfold sample_trace at 2. rewrite Hv. unfold sample_plots. rewrite Hp.
    cbn [plot_of].
    repeat first [rewrite <- app_assoc | rewrite <- app_comm_cons].
    reflexivity.
  - split; [exact Hp |]. split.
    + intros HC2. rewrite lookup_app_r in Hp by lia.
      rewrite Hlf, HC2 in Hp. exact Hp.
    + intros HC3. rewrite lookup_app_l in Hp by lia. exact Hp.
Qed.

End AugmentTrace.

Section AugmentPlots.
Context `{Libs}.
Variables (d : dataset) (C Hh Ww : nat) (w : world).

Hypothesis Hfd : t_dims (tensors0 d) = (C, Hh, Ww).
Hypothesis Htd : t_dims (tensors1 d) = (1%nat, Hh, Ww).
Hypothesis Hlen : t_len (tensors0 d) = t_len (tensors1 d).
Hypothesis Hwf0 : wf_tensor (tensors0 d).
Hypothesis Hwf1 : wf_tensor (tensors1 d).
Hypothesis HC : (2 <= C)%nat.
Hypothesis Hshape : transform_keeps_shape.

(** X22.  The plot that is titled as the original label.  With [vis=True],
    the third plot of every sample shows channel 2 of the stacked sample
    under the title of the original label: that is the label only where
    the features have two channels, and the third feature channel where
    they have more. *)
Theorem augmentation_label_plot (i : nat) (fi li : list plane) :
  t_items (tensors0 d) !! i = Some fi -> t_items (tensors1 d) !! i = Some li ->
  exists (res : dataset) (w' : world) (p : plane) (before after : list event),
    augmentation d true w = (Ok res, w') /\
    out w' = before ++ plot_events p "Blues" "Исходная матрица label" ++ after /\
    (C = 2%nat -> li !! 0%nat = Some p) /\
    ((3 <= C)%nat -> fi !! 2%nat = Some p).
Proof.
  intros Hf Hl.
  destruct (augmentation_third_plot d true C Hh Ww Hfd Htd Hlen Hwf0 Hwf1 (or_intror HC)
              Hshape w i fi li eq_refl Hf Hl)
    as (res & w' & p & before & after & Hrun & Hout & _ & H2 & H3).
  exists res, w', p, before, after. auto.
Qed.

(** X28.  The plots change nothing else.  On a paired dataset of [n >= 1]
    samples with at least two feature channels and one-channel labels, a
    call with [vis=True] returns the same dataset as a call without plots
    and leaves Python's generator in the same state. *)
Theorem augmentation_plots_keep_result :
  (1 <= t_len (tensors0 d))%nat ->
  exists res : dataset,
    fst (augmentation d true w) = Ok res /\
    fst (augmentation d false w) = Ok res /\
    py_rng (snd (augmentation d true w)) = py_rng (snd (augmentation d false w)).
Proof.
  intros Hn.
  pose proof (augmentation_events d true C Hh Ww Hfd Htd Hlen Hwf0 Hwf1 (or_intror HC)
                Hshape w Hn) as Hon.
  pose proof (augmentation_events d false C Hh Ww Hfd Htd Hlen Hwf0 Hwf1
                (or_introl eq_refl) Hshape w Hn) as Hoff.
  cbv zeta in Hon, Hoff. rewrite Hon, Hoff.
  eexists. split; [reflexivity |]. split; reflexivity.
Qed.

End AugmentPlots.

(** ** The small instance again *)

Section MoreOnDemo.

#[local] Existing Instance Demo.types.
#[local] Existing Instance Demo.libs.

Lemma demo_np_choice_in_range : np_choice_in_range.
Proof. intros g n Hn. simpl. apply Nat.mod_upper_bound. lia. Qed.

Ltac demo_shape :=
  repeat first [apply Forall_nil_2 | apply Forall_cons_2 | split | reflexivity].

Lemma demo_x3_wf : wf_tensor Demo.x3.
Proof. unfold wf_tensor. demo_shape. Qed.

Lemma demo_y_short_wf : wf_tensor Demo.y_short.
Proof. unfold wf_tensor. demo_shape. Qed.

Lemma demo_y0_wf : wf_tensor Demo.y0.
Proof. unfold wf_tensor. demo_shape. Qed.

Lemma demo_labels_have_channel : Forall (fun item => item <> []) (t_items Demo.y).
Proof. repeat (apply Forall_cons_2; [discriminate |]). apply Forall_nil_2. Qed.

Lemma train_test_keeps_samples_witness :
  exists train test w',
    train_test Demo.x Demo.y PyFloat.lit_0_1 Demo.world0 = (Ok (train, test), w') /\
    Permutation (samples train ++ samples test) (samples Demo.data).
Proof.
  destruct (train_test_keeps_samples Demo.x Demo.y PyFloat.lit_0_1 Demo.world0)
    as (train & test & w' & Hrun & Hperm & _).
  - exact demo_randperm_permutes.
  - reflexivity.
  - discriminate.
  - reflexivity.
  - reflexivity.
  - reflexivity.
  - exists train, test, w'. split; [exact Hrun | exact Hperm].
Defined.

Lemma train_test_parts_nonempty_witness :
  exists train test w',
    train_test Demo.x6 Demo.x6 PyFloat.lit_0_1 Demo.world0 = (Ok (train, test), w') /\
    (1 <= ds_len train)%nat.
Proof.
  destruct (train_test_parts_nonempty Demo.x6 Demo.x6 PyFloat.lit_0_1 Demo.world0)
    as (train & test & w' & Hrun & _ & Htrain & _).
  - exact demo_randperm_permutes.
  - reflexivity.
  - discriminate.
  - reflexivity.
  - reflexivity.
  - reflexivity.
  - exists train, test, w'. split; [exact Hrun |]. apply Htrain. apply le_n.
Defined.

Lemma train_test_nan_witness :
  train_test Demo.x Demo.y S754_nan Demo.world0
  = (Raise (ValueError PyFloat.nan_msg), Demo.world0).
Proof. apply (train_test_nan Demo.x Demo.y Demo.world0); reflexivity. Defined.

Lemma train_test_length_mismatch_witness :
  train_test Demo.x Demo.y_short PyFloat.lit_0_5 Demo.world0
  = (Raise AssertionError, Demo.world0).
Proof.
  apply (train_test_length_mismatch Demo.x Demo.y_short PyFloat.lit_0_5 Demo.world0).
  - reflexivity.
  - discriminate.
Defined.

Lemma fit_validation_part_witness :
  exists tr va w',
    train_test Demo.x Demo.y PyFloat.lit_0_95 Demo.world0 = (Ok (tr, va), w') /\
    ds_len va = 0%nat.
Proof.
  destruct (fit_validation_part Demo.data Demo.world0)
    as (tr & va & w' & Hrun & _ & _ & Hva).
  - exact demo_randperm_permutes.
  - reflexivity.
  - reflexivity.
  - exists tr, va, w'. split; [exact Hrun |]. apply Hva. cbv. lia.
Defined.






Lemma validate_loads_model_witness :
  validate Demo.self Demo.data "missing.pth" None None Demo.ps_vis Demo.world0
  = (Raise (FileNotFoundError "missing.pth"), World 0%nat 0%nat 0 ∅ [EvLoad "missing.pth"]) /\
  validate Demo.self Demo.data "runs/best_model.pth" None None Demo.ps_vis Demo.world_saved
  = validate Demo.self Demo.data "elsewhere.pth" (Some 7%nat) None Demo.ps_vis
      (World 0%nat 0%nat 0 (fs Demo.world_saved) [EvLoad "runs/best_model.pth"]).
Proof.
  split.
  - apply (proj1 (validate_loads_model Demo.self Demo.data None Demo.ps_vis
                    "missing.pth" "elsewhere.pth" Demo.world0)).
    reflexivity.
  - apply (proj2 (validate_loads_model Demo.self Demo.data None Demo.ps_vis
                    "runs/best_model.pth" "elsewhere.pth" Demo.world_saved)).
    apply lookup_insert_eq.
Defined.

Lemma fit_then_validate_witness :
  let w' := snd (fit Demo.self Demo.data Demo.model0 (Demo.ps 2) Demo.world0) in
  validate Demo.self Demo.data "runs/best_model.pth" None None Demo.ps_vis w'
  = validate Demo.self Demo.data "elsewhere.pth" (Some 2%nat) None Demo.ps_vis
      (World (torch_rng w') (np_rng w') (py_rng w') (fs w')
             (out w' ++ [EvLoad "runs/best_model.pth"])).
Proof.
  intros w'.
  apply (fit_then_validate Demo.self Demo.data Demo.data Demo.model0 (Demo.ps 2) Demo.ps_vis
           None "elsewhere.pth" Demo.world0 w' 2%nat Demo.opt).
  vm_compute. reflexivity.
Defined.



Lemma validate_empty_test_witness :
  validate Demo.self Demo.empty "unused.pth" (Some Demo.model0) None Demo.ps_vis Demo.world0
  = (Raise (ValueError msg_choice), Demo.world0).
Proof.
  apply (validate_empty_test Demo.self Demo.empty "unused.pth" Demo.model0 None Demo.ps_vis
           Demo.world0); reflexivity.
Defined.

Lemma binarize_two_valued_witness :
  exists px,
    binarize (Some PyFloat.lit_0_5) [PyFloat.lit_0_7; PyFloat.lit_0_1] = PixF px /\
    (px !! 0%nat = Some PyFloat.lit_1_0 \/ px !! 0%nat = Some PyFloat.zero).
Proof.
  destruct (binarize_two_valued PyFloat.lit_0_5 [PyFloat.lit_0_7; PyFloat.lit_0_1])
    as (px & Hpx & Hv); [reflexivity |].
  exists px. split; [exact Hpx |].
  destruct (Hv 0%nat PyFloat.lit_0_7 eq_refl) as [Hnum _]. apply Hnum. discriminate.
Defined.

Lemma binarize_degenerate_threshold_witness :
  exists px,
    binarize (Some Demo.lit_m0_5) [Demo.lit_m1_0] = PixF px /\
    px !! 0%nat = Some PyFloat.lit_1_0.
Proof.
  destruct (proj1 (binarize_degenerate_threshold Demo.lit_m0_5 [Demo.lit_m1_0]))
    as (px & Hpx & Hv); [reflexivity |].
  exists px. split; [exact Hpx |].
  apply (Hv 0%nat Demo.lit_m1_0); [reflexivity | discriminate].
Defined.

Lemma augmentation_output_witness :
  exists res w',
    augmentation Demo.data true Demo.world0 = (Ok res, w') /\
    length (out w') = 106%nat.
Proof.
  destruct (augmentation_output Demo.data true 2 1 2) with (w := Demo.world0)
    as (res & Hrun & Hlen).
  - reflexivity.
  - reflexivity.
  - reflexivity.
  - exact demo_x_wf.
  - exact demo_y_wf.
  - right. apply le_n.
  - exact demo_transform_keeps_shape.
  - cbv. lia.
  - eexists res, _. split; [exact Hrun |].
    cbn [out]. rewrite length_app, Hlen. reflexivity.
Defined.

Lemma augmentation_label_plot_witness :
  exists res w' before after,
    augmentation Demo.data3 true Demo.world0 = (Ok res, w') /\
    out w' = before
             ++ plot_events (Demo.px PyFloat.lit_0_1 PyFloat.lit_0_8) "Blues"
                  "Исходная матрица label"
             ++ after.
Proof.
  destruct (augmentation_label_plot Demo.data3 3 1 2 Demo.world0) with
    (i := 0%nat)
    (fi := [Demo.px PyFloat.zero PyFloat.lit_0_5; Demo.px PyFloat.lit_1_0 PyFloat.lit_0_7;
            Demo.px PyFloat.lit_0_1 PyFloat.lit_0_8])
    (li := [Demo.px PyFloat.zero PyFloat.lit_1_0])
    as (res & w' & p & before & after & Hrun & Hout & _ & Hp).
  - reflexivity.
  - reflexivity.
  - reflexivity.
  - exact demo_x3_wf.
  - exact demo_y_short_wf.
  - apply le_S, le_n.
  - exact demo_transform_keeps_shape.
  - reflexivity.
  - reflexivity.
  - specialize (Hp (le_n 3)). injection Hp as <-.
    exists res, w', before, after. split; [exact Hrun | exact Hout].
Defined.

Lemma augmentation_plots_keep_result_witness :
  fst (augmentation Demo.data true Demo.world0)
  = fst (augmentation Demo.data false Demo.world0).
Proof.
  destruct (augmentation_plots_keep_result Demo.data 2 1 2 Demo.world0)
    as (res & Hon & Hoff & _).
  - reflexivity.
  - reflexivity.
  - reflexivity.
  - exact demo_x_wf.
  - exact demo_y_wf.
  - apply le_n.
  - exact demo_transform_keeps_shape.
  - cbv. lia.
  - rewrite Hon, Hoff. reflexivity.
Defined.

Lemma augmentation_twice_repeats_witness :
  exists res res2 w1 w2,
    augmentation Demo.data false Demo.world0 = (Ok res, w1) /\
    augmentation res false w1 = (Ok res2, w2) /\
    ds_len res2 = 16%nat /\
    take 4 (drop 8 (t_items (tensors0 res2))) = drop 4 (t_items (tensors0 res)).
Proof.
  destruct (augmentation_twice_repeats Demo.data false 2 1 2 Demo.world0)
    as (res & res2 & w1 & w2 & Hrun1 & Hrun2 & Hlen & _ & _ & Hrep & _).
  - reflexivity.
  - reflexivity.
  - reflexivity.
  - exact demo_x_wf.
  - exact demo_y_wf.
  - left. reflexivity.
  - exact demo_transform_keeps_shape.
  - cbv. lia.
  - exists res, res2, w1, w2. split; [exact Hrun1 |]. split; [exact Hrun2 |].
    split; [exact Hlen | exact Hrep].
Defined.

Lemma augmentation_stack_mismatch_witness :
  augmentation (Dataset Demo.x Demo.y_short) false Demo.world0
  = (Raise (ValueError msg_concat), Demo.world0).
Proof.
  apply (augmentation_stack_mismatch (Dataset Demo.x Demo.y_short) false Demo.world0).
  left. discriminate.
Defined.

Lemma augmentation_no_label_channel_witness :
  augmentation (Dataset Demo.x Demo.y0) false Demo.world0
  = (Raise IndexError,
     World 0%nat 0%nat 7 ∅ [EvSeed 7; EvPrint "{}" (Some 0%nat)]).
Proof.
  eapply eq_trans.
  - apply (augmentation_no_label_channel (Dataset Demo.x Demo.y0) false 2 0 1 2 Demo.world0).
    + reflexivity.
    + reflexivity.
    + reflexivity.
    + exact demo_x_wf.
    + exact demo_y0_wf.
    + cbv. lia.
    + reflexivity.
  - reflexivity.
Defined.

Lemma augmentation_plots_need_three_channels_witness :
  fst (augmentation Demo.data1 true Demo.world0) = Raise IndexError.
Proof.
  apply (augmentation_plots_need_three_channels Demo.data1 true 1 1 1 2 Demo.world0).
  - reflexivity.
  - reflexivity.
  - reflexivity.
  - exact demo_y_wf.
  - exact demo_y_wf.
  - cbv. lia.
  - reflexivity.
  - apply le_n.
  - apply le_n.
Defined.

(** ** More runs *)

(** The sizes from which neither part of a split is empty are the least
    ones: 5 samples at the ratio 0.1 leave the train part empty, and 50 at
    0.99 the test part. *)
Example split_thresholds_are_least :
  (p ← PyFloat.int_mul 5 PyFloat.lit_0_1; PyFloat.round p) = Ok 0 /\
  (p ← PyFloat.int_mul 50 PyFloat.lit_0_99; PyFloat.round p) = Ok 50.
Proof. vm_compute. split; reflexivity. Qed.

(** Ten samples at the ratio of [fit] all go to the train part, and with two
    epochs the rate is not lowered. *)
Example fit_small_runs :
  (p ← PyFloat.int_mul 10 PyFloat.lit_0_95; PyFloat.round p) = Ok 10 /\
  (p ← PyFloat.int_mul 2 PyFloat.lit_0_8; PyFloat.round p) = Ok 2 /\
  param_lrs (snd (match fst (fit Demo.self Demo.data Demo.model0 (Demo.ps 2) Demo.world0) with
                  | Ok st => st
                  | Raise _ => (Demo.model0, Demo.opt)
                  end)) = [PyFloat.lit_0_1].
Proof. vm_compute. repeat split. Qed.

End MoreOnDemo.
